(** * The OAuth2 authorization-code-with-PKCE demo server

    A shallow embedding of [complete_oauth_demo.py]: the request handlers of
    [FullOAuthHandler] together with the parts of Python's standard library
    whose behaviour the handlers rely on ([base64], [hashlib.sha256],
    [urllib.parse.urlencode], [str.split], [str.rstrip], [bytes.decode]).

    Conventions.
    - A Python [str] is a [string] holding the UTF-8 encoding of the text;
      a Python [bytes] is a [list byte].
    - A call that may raise returns a [Result]; handlers run in a state
      monad over the server object and the traffic they cause.
    - [json.loads] and [urllib.request.urlopen] are parameters of the
      handlers; a concrete JSON reader is given for running examples.
    - A [str] may hold a lone surrogate (as [json.loads] makes of an
      escape such as [\ud800]); it is kept in the three-byte form, so a
      [str] can be encoded as UTF-8 exactly when its bytes are well-formed
      UTF-8.
    - Requests are HTTP/1.0 or HTTP/1.1 requests, as browsers send them,
      so that [send_response] and [send_error] encode a status line.
    - Writing to the socket succeeds, and so does [print], whose output
      goes to a UTF-8 terminal and is not modelled. *)

From Stdlib Require Import ZArith NArith List String Ascii Bool Lia.
From Stdlib Require Import Strings.Byte.
Import ListNotations.

Set Warnings "-register-all".

Local Open Scope string_scope.
Local Open Scope list_scope.

(* ================================================================== *)
(** * Python values, exceptions and string primitives *)
(* ================================================================== *)

Module Py.

(** The exceptions that the modelled code can meet.  All of them derive
    from [Exception]; [JSONDecodeError], [UnicodeDecodeError] and
    [binascii.Error] are [ValueError]s, [socket.timeout] is
    [TimeoutError]. *)
Inductive exn : Type :=
| KeyError (key : string)
| TypeError
| AttributeError (attr : string)
| ValueError (what : string)
| IndexError
| HTTPError (status : Z)
| URLError
| TimeoutError.

Inductive Result (A : Type) : Type :=
| Ok (a : A)
| Raise (e : exn).
Arguments Ok {A} a.
Arguments Raise {A} e.

Definition rbind {A B} (r : Result A) (k : A -> Result B) : Result B :=
  match r with
  | Ok a => k a
  | Raise e => Raise e
  end.

(** [try: body / except: handler] *)
Definition try_except {A} (body : Result A) (handler : exn -> Result A)
  : Result A :=
  match body with
  | Ok a => Ok a
  | Raise e => handler e
  end.

(** Values that [json.loads] can produce, plus [bytes].  A float is kept
    as the literal it was read from. *)
Inductive pyval : Type :=
| PyNone
| PyBool (b : bool)
| PyInt (z : Z)
| PyFloat (literal : string)
| PyStr (s : string)
| PyBytes (bs : list byte)
| PyList (l : list pyval)
| PyDict (d : list (string * pyval)).

(** Dictionaries are association lists; the first binding of a key is the
    live one. *)
Fixpoint lookup {V} (k : string) (d : list (string * V)) : option V :=
  match d with
  | [] => None
  | (k', v) :: d' => if String.eqb k k' then Some v else lookup k d'
  end.

Definition contains {V} (k : string) (d : list (string * V)) : bool :=
  match lookup k d with Some _ => true | None => false end.

(** [tokens[key]] *)
Definition getitem (v : pyval) (key : string) : Result pyval :=
  match v with
  | PyDict d =>
      match lookup key d with
      | Some x => Ok x
      | None => Raise (KeyError key)
      end
  | _ => Raise TypeError
  end.

(** [tokens.get(key, default)] *)
Definition get (v : pyval) (key : string) (default : pyval) : Result pyval :=
  match v with
  | PyDict d =>
      match lookup key d with
      | Some x => Ok x
      | None => Ok default
      end
  | _ => Raise (AttributeError "get")
  end.

(** [list(tokens.keys())] *)
Definition keys (v : pyval) : Result (list string) :=
  match v with
  | PyDict d => Ok (map fst d)
  | _ => Raise (AttributeError "keys")
  end.

(** Number of code points of a [str]: the bytes that are not UTF-8
    continuation bytes. *)
Definition is_continuation (c : ascii) : bool :=
  let n := N_of_ascii c in (128 <=? n)%N && (n <? 192)%N.

Fixpoint len (s : string) : nat :=
  match s with
  | EmptyString => 0
  | String c s' => if is_continuation c then len s' else S (len s')
  end.

(** [s[:n]] on a [str]: the first [n] code points ([n] counts the code
    points that may still start). *)
Fixpoint str_prefix (n : nat) (s : string) : string :=
  match s with
  | EmptyString => EmptyString
  | String c s' =>
      if is_continuation c then String c (str_prefix n s')
      else match n with
           | O => EmptyString
           | S n' => String c (str_prefix n' s')
           end
  end.

(** [v[:n]] for a value; only [str], [bytes] and [list] can be sliced. *)
Definition slice (n : nat) (v : pyval) : Result pyval :=
  match v with
  | PyStr s => Ok (PyStr (str_prefix n s))
  | PyBytes bs => Ok (PyBytes (firstn n bs))
  | PyList l => Ok (PyList (firstn n l))
  | _ => Raise TypeError
  end.

(** [s.split(sep)] for a one-character separator. *)
Fixpoint split (sep : ascii) (s : string) : list string :=
  match s with
  | EmptyString => [EmptyString]
  | String c s' =>
      if Ascii.eqb c sep then EmptyString :: split sep s'
      else match split sep s' with
           | [] => [String c EmptyString]
           | h :: t => String c h :: t
           end
  end.

(** [s.rstrip(c)] for a one-character set. *)
Fixpoint rstrip (c : ascii) (s : string) : string :=
  match s with
  | EmptyString => EmptyString
  | String a s' =>
      match rstrip c s' with
      | EmptyString => if Ascii.eqb a c then EmptyString else String a EmptyString
      | r => String a r
      end
  end.

(** [c * n] *)
Fixpoint repeat_char (c : ascii) (n : nat) : string :=
  match n with
  | O => EmptyString
  | S n' => String c (repeat_char c n')
  end.

(** Well-formed UTF-8 (RFC 3629, table 3-7 of Unicode): what
    [bytes.decode()] accepts in its default strict mode.  With
    [surrogatepass] the three-byte form of a surrogate is accepted too. *)
Definition in_range (lo hi n : N) : bool := ((lo <=? n) && (n <=? hi))%N.

Fixpoint utf8_valid (surrogatepass : bool) (l : list N) : bool :=
  match l with
  | [] => true
  | b0 :: t0 =>
      if (b0 <? 128)%N then utf8_valid surrogatepass t0
      else match t0 with
      | [] => false
      | b1 :: t1 =>
          if in_range 194 223 b0 then in_range 128 191 b1 && utf8_valid surrogatepass t1
          else match t1 with
          | [] => false
          | b2 :: t2 =>
              if in_range 224 239 b0 then
                in_range (if (b0 =? 224)%N then 160 else 128)
                         (if (b0 =? 237)%N && negb surrogatepass then 159 else 191) b1
                && in_range 128 191 b2 && utf8_valid surrogatepass t2
              else match t2 with
              | [] => false
              | b3 :: t3 =>
                  in_range 240 244 b0
                  && in_range (if (b0 =? 240)%N then 144 else 128)
                              (if (b0 =? 244)%N then 143 else 191) b1
                  && in_range 128 191 b2 && in_range 128 191 b3
                  && utf8_valid surrogatepass t3
              end
          end
      end
  end.

(** [bs.decode()] *)
Definition decode (bs : list byte) : Result string :=
  if utf8_valid false (map Byte.to_N bs) then Ok (string_of_list_byte bs)
  else Raise (ValueError "utf-8").

(** [s.encode()] *)
Definition encode (s : string) : list byte := list_byte_of_string s.

(** [UnicodeEncodeError], a [ValueError], for a codec. *)
Definition UnicodeEncodeError (codec : string) : exn :=
  ValueError ("cannot encode: " ++ codec).

(** [s.encode()] succeeds unless [s] holds a lone surrogate. *)
Definition utf8_encodable (s : string) : bool :=
  utf8_valid false (map Byte.to_N (list_byte_of_string s)).

(** [s.encode('latin-1', 'strict')] succeeds when every code point of
    [s] is below 256: in UTF-8 these are the bytes below 128 and the
    two-byte forms that start with 194 or 195. *)
Definition latin1_encodable (s : string) : bool :=
  forallb (fun b => (Byte.to_N b <? 196)%N) (list_byte_of_string s).

(** Whether the text that an f-string makes of a value can be encoded as
    UTF-8.  A [str] is put into the text as it is; for any other value
    the text is its [str()], in which a character that cannot be printed,
    a lone surrogate included, is written as an escape. *)
Definition formats_to_utf8 (v : pyval) : bool :=
  match v with
  | PyStr s => utf8_encodable s
  | _ => true
  end.

(** [s.encode('ascii')] *)
Definition encode_ascii (s : string) : Result (list byte) :=
  let bs := list_byte_of_string s in
  if forallb (fun b => (Byte.to_N b <? 128)%N) bs then Ok bs
  else Raise (ValueError "ascii").

End Py.

(* ================================================================== *)
(** * [base64] / [binascii] *)
(* ================================================================== *)

Module Base64.
Import Py.
Local Open Scope N_scope.

Definition table_b2a_base64 : list byte :=
  list_byte_of_string
    "ABCDEFGHIJKLMNOPQRSTUVWXYZabcdefghijklmnopqrstuvwxyz0123456789+/".

Definition BASE64_PAD : byte := "="%byte.

Definition b2a (i : N) : byte := nth (N.to_nat i) table_b2a_base64 BASE64_PAD.

(** [table_a2b_base64]: the sextet of a character of the standard
    alphabet, [None] for every other byte. *)
Definition a2b (c : byte) : option N :=
  let n := Byte.to_N c in
  if in_range 65 90 n then Some (n - 65)
  else if in_range 97 122 n then Some (n - 71)
  else if in_range 48 57 n then Some (n + 4)
  else if n =? 43 then Some 62
  else if n =? 47 then Some 63
  else None.

Definition byte_of (n : N) : byte :=
  match Byte.of_N (n mod 256) with
  | Some b => b
  | None => x00
  end.

(** [binascii.b2a_base64(bs, newline=False)], three input bytes at a
    time. *)
Fixpoint b2a_base64 (bs : list byte) : list byte :=
  match bs with
  | [] => []
  | [a] =>
      let a := Byte.to_N a in
      [b2a (N.shiftr a 2); b2a (N.shiftl (N.land a 3) 4);
       BASE64_PAD; BASE64_PAD]
  | [a; b] =>
      let a := Byte.to_N a in
      let b := Byte.to_N b in
      [b2a (N.shiftr a 2);
       b2a (N.lor (N.shiftl (N.land a 3) 4) (N.shiftr b 4));
       b2a (N.shiftl (N.land b 15) 2);
       BASE64_PAD]
  | a :: b :: c :: rest =>
      let a := Byte.to_N a in
      let b := Byte.to_N b in
      let c := Byte.to_N c in
      b2a (N.shiftr a 2)
      :: b2a (N.lor (N.shiftl (N.land a 3) 4) (N.shiftr b 4))
      :: b2a (N.lor (N.shiftl (N.land b 15) 2) (N.shiftr c 6))
      :: b2a (N.land c 63)
      :: b2a_base64 rest
  end.

(** [bytes.maketrans(b'+/', b'-_')] and its inverse. *)
Definition urlsafe_encode_translation (c : byte) : byte :=
  if Byte.eqb c "+"%byte then "-"%byte
  else if Byte.eqb c "/"%byte then "_"%byte else c.

Definition urlsafe_decode_translation (c : byte) : byte :=
  if Byte.eqb c "-"%byte then "+"%byte
  else if Byte.eqb c "_"%byte then "/"%byte else c.

(** [base64.urlsafe_b64encode] *)
Definition urlsafe_b64encode (bs : list byte) : list byte :=
  map urlsafe_encode_translation (b2a_base64 bs).

(** [binascii.a2b_base64(s, strict_mode=False)]: a scan with the
    position in the current quad, the bits left over and the number of
    pad characters seen since the last data character.  Bytes outside
    the alphabet are skipped; a pad that completes a quad ends the scan. *)
Fixpoint a2b_scan (s : list byte) (quad_pos leftchar pads : N)
  : Result (list byte) :=
  match s with
  | [] =>
      if quad_pos =? 0 then Ok []
      else if quad_pos =? 1 then Raise (ValueError "Invalid base64-encoded string")
      else Raise (ValueError "Incorrect padding")
  | this_ch :: s' =>
      if Byte.eqb this_ch BASE64_PAD then
        if (2 <=? quad_pos) && (4 <=? quad_pos + (pads + 1)) then Ok []
        else a2b_scan s' quad_pos leftchar
               (if 2 <=? quad_pos then pads + 1 else pads)
      else
        match a2b this_ch with
        | None => a2b_scan s' quad_pos leftchar pads
        | Some v =>
            if quad_pos =? 0 then a2b_scan s' 1 v 0
            else if quad_pos =? 1 then
              rbind (a2b_scan s' 2 (N.land v 15) 0)
                (fun out => Ok (byte_of (N.lor (N.shiftl leftchar 2) (N.shiftr v 4)) :: out))
            else if quad_pos =? 2 then
              rbind (a2b_scan s' 3 (N.land v 3) 0)
                (fun out => Ok (byte_of (N.lor (N.shiftl leftchar 4) (N.shiftr v 2)) :: out))
            else
              rbind (a2b_scan s' 0 0 0)
                (fun out => Ok (byte_of (N.lor (N.shiftl leftchar 6) v) :: out))
        end
  end.

Definition a2b_base64 (s : list byte) : Result (list byte) := a2b_scan s 0 0 0.

(** [base64.urlsafe_b64decode(s)] for a [str] argument. *)
Definition urlsafe_b64decode (s : string) : Result (list byte) :=
  rbind (encode_ascii s)
    (fun bs => a2b_base64 (map urlsafe_decode_translation bs)).

End Base64.

(* ================================================================== *)
(** * [hashlib.sha256] (FIPS 180-4) *)
(* ================================================================== *)

Module Sha256.
Local Open Scope N_scope.

Definition add32 (x y : N) : N := (x + y) mod 2 ^ 32.
Definition not32 (x : N) : N := N.lxor x 0xffffffff.
Definition rotr (n x : N) : N :=
  N.lor (N.shiftr x n) ((N.shiftl x (32 - n)) mod 2 ^ 32).

Definition Ch (x y z : N) : N := N.lxor (N.land x y) (N.land (not32 x) z).
Definition Maj (x y z : N) : N :=
  N.lxor (N.lxor (N.land x y) (N.land x z)) (N.land y z).
Definition bsig0 (x : N) : N := N.lxor (N.lxor (rotr 2 x) (rotr 13 x)) (rotr 22 x).
Definition bsig1 (x : N) : N := N.lxor (N.lxor (rotr 6 x) (rotr 11 x)) (rotr 25 x).
Definition ssig0 (x : N) : N := N.lxor (N.lxor (rotr 7 x) (rotr 18 x)) (N.shiftr x 3).
Definition ssig1 (x : N) : N := N.lxor (N.lxor (rotr 17 x) (rotr 19 x)) (N.shiftr x 10).

(** The constants are fractional parts of roots of the first primes: the
    first 32 bits of the square roots of the first 8 for the initial hash
    value, of the cube roots of the first 64 for the round constants. *)
Definition is_prime (n : N) : bool :=
  (2 <=? n) && forallb (fun d => negb (n mod d =? 0))
                       (map N.of_nat (seq 2 (N.to_nat (N.sqrt n) - 1))).

Definition primes : list N :=
  Eval vm_compute in firstn 64 (filter is_prime (map N.of_nat (seq 0 320))).

(** The largest [r] below [2 ^ bits] with [r ^ k <= n]. *)
Fixpoint root_search (k : N) (bits : nat) (n r : N) : N :=
  match bits with
  | O => r
  | S b =>
      let r' := r + 2 ^ N.of_nat b in
      if r' ^ k <=? n then root_search k b n r' else root_search k b n r
  end.

Definition fractional_root (k p : N) : N :=
  root_search k 40 (p * 2 ^ (32 * k)) 0 mod 2 ^ 32.

Definition K : list N := Eval vm_compute in map (fractional_root 3) primes.

Record state : Type :=
  mkState { ha : N; hb : N; hc : N; hd : N; he : N; hf : N; hg : N; hh : N }.

Definition H0 : state :=
  Eval vm_compute in
    let h i := fractional_root 2 (nth i primes 0) in
    mkState (h 0%nat) (h 1%nat) (h 2%nat) (h 3%nat)
            (h 4%nat) (h 5%nat) (h 6%nat) (h 7%nat).

(** Big-endian bytes of a word, and back. *)
Definition be_bytes (n : nat) (x : N) : list N :=
  map (fun i => (N.shiftr x (8 * N.of_nat i)) mod 256) (rev (seq 0 n)).

Fixpoint be_word (bs : list N) (acc : N) : N :=
  match bs with
  | [] => acc
  | b :: bs' => be_word bs' (acc * 256 + b)
  end.

(** Padding: a 1 bit, zeros up to 56 mod 64 bytes, the bit length on 8
    bytes. *)
Definition pad (msg : list N) : list N :=
  let l := N.of_nat (List.length msg) in
  let zeros := (55 + 64 - l mod 64) mod 64 in
  msg ++ 128 :: repeat 0 (N.to_nat zeros) ++ be_bytes 8 (8 * l).

(** The words of one 64-byte block. *)
Fixpoint words (n : nat) (bs : list N) : list N :=
  match n with
  | O => []
  | S n' => be_word (firstn 4 bs) 0 :: words n' (skipn 4 bs)
  end.

(** Message schedule, newest word first. *)
Fixpoint schedule (n : nat) (ws : list N) : list N :=
  match n with
  | O => ws
  | S n' =>
      let w := add32 (add32 (ssig1 (nth 1 ws 0)) (nth 6 ws 0))
                     (add32 (ssig0 (nth 14 ws 0)) (nth 15 ws 0)) in
      schedule n' (w :: ws)
  end.

Definition round (s : state) (kw : N * N) : state :=
  let (k, w) := kw in
  let t1 := add32 (add32 (add32 (add32 (hh s) (bsig1 (he s)))
                                (Ch (he s) (hf s) (hg s))) k) w in
  let t2 := add32 (bsig0 (ha s)) (Maj (ha s) (hb s) (hc s)) in
  mkState (add32 t1 t2) (ha s) (hb s) (hc s)
          (add32 (hd s) t1) (he s) (hf s) (hg s).

Definition compress (s : state) (block : list N) : state :=
  let W := rev (schedule 48 (rev (words 16 block))) in
  let s' := fold_left round (combine K W) s in
  mkState (add32 (ha s) (ha s')) (add32 (hb s) (hb s'))
          (add32 (hc s) (hc s')) (add32 (hd s) (hd s'))
          (add32 (he s) (he s')) (add32 (hf s) (hf s'))
          (add32 (hg s) (hg s')) (add32 (hh s) (hh s')).

Fixpoint blocks (n : nat) (bs : list N) (s : state) : state :=
  match n with
  | O => s
  | S n' => blocks n' (skipn 64 bs) (compress s (firstn 64 bs))
  end.

Definition digest_words (s : state) : list N :=
  [ha s; hb s; hc s; hd s; he s; hf s; hg s; hh s].

(** [hashlib.sha256(msg).digest()] *)
Definition sha256 (msg : list byte) : list byte :=
  let p := pad (map Byte.to_N msg) in
  let s := blocks (Nat.div (List.length p) 64) p H0 in
  map Base64.byte_of (flat_map (be_bytes 4) (digest_words s)).

End Sha256.

(* ================================================================== *)
(** * [urllib.parse.urlencode] *)
(* ================================================================== *)

Module UrlParse.
Local Open Scope N_scope.

(** [_ALWAYS_SAFE]: letters, digits and [_.-~]. *)
Definition always_safe (n : N) : bool :=
  Py.in_range 65 90 n || Py.in_range 97 122 n || Py.in_range 48 57 n
  || (n =? 95) || (n =? 46) || (n =? 45) || (n =? 126).

Definition hex_digit (n : N) : ascii :=
  match String.get (N.to_nat n) "0123456789ABCDEF" with
  | Some c => c
  | None => "0"%char
  end.

(** [quote_plus(s)] with the default empty [safe]: a safe byte is kept, a
    space becomes [+], any other byte of the UTF-8 encoding becomes
    [%XX]. *)
Fixpoint quote_plus (s : string) : string :=
  match s with
  | EmptyString => EmptyString
  | String c s' =>
      let n := N_of_ascii c in
      if always_safe n then String c (quote_plus s')
      else if n =? 32 then String "+" (quote_plus s')
      else String "%" (String (hex_digit (n / 16))
                         (String (hex_digit (n mod 16)) (quote_plus s')))
  end.

(** [urlencode(d)] for a dictionary of [str] to [str]. *)
Definition urlencode (query : list (string * string)) : string :=
  String.concat "&"
    (map (fun kv => (quote_plus (fst kv) ++ "=" ++ quote_plus (snd kv))%string)
         query).

End UrlParse.

(* ================================================================== *)
(** * A reader for [json.loads]

    The handlers take [json.loads] as a parameter; this reader is the
    instance used to run them.  It follows the scanner of the [json]
    module on UTF-8 text.  Outside its reach: byte strings that
    [detect_encoding] takes for UTF-16 or UTF-32 (they raise here), the
    numeric value of a float (the literal is kept) and the interpreter's
    recursion limit. *)
(* ================================================================== *)

Module Json.
Import Py.
Local Open Scope N_scope.

Definition err {A} (what : string) : Result A := Raise (ValueError what).

Definition is_ws (c : ascii) : bool :=
  let n := N_of_ascii c in (n =? 32) || (n =? 9) || (n =? 10) || (n =? 13).

Fixpoint skip_ws (s : string) : string :=
  match s with
  | String c r => if is_ws c then skip_ws r else s
  | EmptyString => s
  end.

Definition is_digit (c : ascii) : bool := in_range 48 57 (N_of_ascii c).

Definition hex_value (c : ascii) : option N :=
  let n := N_of_ascii c in
  if in_range 48 57 n then Some (n - 48)
  else if in_range 97 102 n then Some (n - 87)
  else if in_range 65 70 n then Some (n - 55)
  else None.

(** Four hexadecimal digits. *)
Definition hex4 (s : string) : option (N * string) :=
  match s with
  | String a (String b (String c (String d r))) =>
      match hex_value a, hex_value b, hex_value c, hex_value d with
      | Some a, Some b, Some c, Some d => Some (((a * 16 + b) * 16 + c) * 16 + d, r)
      | _, _, _, _ => None
      end
  | _ => None
  end.

(** UTF-8 encoding of a code point (a lone surrogate is written in the
    three-byte form). *)
Definition utf8 (cp : N) (rest : string) : string :=
  let ch n := ascii_of_N n in
  if cp <? 128 then String (ch cp) rest
  else if cp <? 2048 then
    String (ch (192 + cp / 64)) (String (ch (128 + cp mod 64)) rest)
  else if cp <? 65536 then
    String (ch (224 + cp / 4096))
      (String (ch (128 + (cp / 64) mod 64)) (String (ch (128 + cp mod 64)) rest))
  else
    String (ch (240 + cp / 262144))
      (String (ch (128 + (cp / 4096) mod 64))
         (String (ch (128 + (cp / 64) mod 64)) (String (ch (128 + cp mod 64)) rest))).

Definition simple_escape (c : ascii) : option ascii :=
  let n := N_of_ascii c in
  if (n =? 34) || (n =? 92) || (n =? 47) then Some c
  else if n =? 98 then Some (ascii_of_N 8)
  else if n =? 102 then Some (ascii_of_N 12)
  else if n =? 110 then Some (ascii_of_N 10)
  else if n =? 114 then Some (ascii_of_N 13)
  else if n =? 116 then Some (ascii_of_N 9)
  else None.

Definition with_rest {A B} (f : A -> B) (r : Result (A * string))
  : Result (B * string) :=
  rbind r (fun p => Ok (f (fst p), snd p)).

(** The body of a string literal, after the opening quote. *)
Fixpoint scan_string (fuel : nat) (s : string) : Result (string * string) :=
  match fuel, s with
  | O, _ => err "Unterminated string"
  | _, EmptyString => err "Unterminated string"
  | S f, String c r =>
      let n := N_of_ascii c in
      if n =? 34 then Ok (EmptyString, r)
      else if n =? 92 then
        match r with
        | EmptyString => err "Unterminated string"
        | String e r1 =>
            if N_of_ascii e =? 117 then
              match hex4 r1 with
              | None => err "Invalid \uXXXX escape"
              | Some (u, r2) =>
                  if in_range 55296 56319 u then
                    match r2 with
                    | String b (String v r3) =>
                        if (N_of_ascii b =? 92) && (N_of_ascii v =? 117) then
                          match hex4 r3 with
                          | None => err "Invalid \uXXXX escape"
                          | Some (u2, r4) =>
                              if in_range 56320 57343 u2 then
                                with_rest
                                  (utf8 (65536 + ((u - 55296) * 1024 + (u2 - 56320))))
                                  (scan_string f r4)
                              else with_rest (utf8 u) (scan_string f r2)
                          end
                        else with_rest (utf8 u) (scan_string f r2)
                    | _ => with_rest (utf8 u) (scan_string f r2)
                    end
                  else with_rest (utf8 u) (scan_string f r2)
              end
            else
              match simple_escape e with
              | Some x => with_rest (String x) (scan_string f r1)
              | None => err "Invalid \escape"
              end
        end
      else if n <? 32 then err "Invalid control character"
      else with_rest (String c) (scan_string f r)
  end.

(** Longest run of digits at the head of [s]. *)
Fixpoint digits (s : string) : string * string :=
  match s with
  | String c r =>
      if is_digit c then let (d, r') := digits r in (String c d, r') else (EmptyString, s)
  | EmptyString => (EmptyString, s)
  end.

Fixpoint decimal (s : string) (acc : Z) : Z :=
  match s with
  | String c r => decimal r (10 * acc + Z.of_N (N_of_ascii (c) - 48))%Z
  | EmptyString => acc
  end.

(** The NUMBER_RE of the module: an optional minus sign, then 0 or a
    digit 1-9 followed by digits; an optional fraction (a dot and at least
    one digit); an optional exponent (e or E, an optional sign, at least
    one digit).  A fraction or exponent that is not complete is left
    unread. *)
Definition match_number (s : string) : option (pyval * string) :=
  let (neg, s1) :=
    match s with
    | String c r => if N_of_ascii c =? 45 then (true, r) else (false, s)
    | EmptyString => (false, s)
    end in
  let int_part :=
    match s1 with
    | String c r =>
        if N_of_ascii c =? 48 then Some (String c EmptyString, r)
        else if is_digit c then let (d, r') := digits r in Some (String c d, r')
        else None
    | EmptyString => None
    end in
  match int_part with
  | None => None
  | Some (ip, s2) =>
      let (frac, s3) :=
        match s2 with
        | String c r =>
            if N_of_ascii c =? 46 then
              match digits r with
              | (EmptyString, _) => (EmptyString, s2)
              | (d, r') => (String c d, r')
              end
            else (EmptyString, s2)
        | EmptyString => (EmptyString, s2)
        end in
      let (exp, s4) :=
        match s3 with
        | String c r =>
            if (N_of_ascii c =? 101) || (N_of_ascii c =? 69) then
              let (sign, r1) :=
                match r with
                | String g r' =>
                    if (N_of_ascii g =? 43) || (N_of_ascii g =? 45)
                    then (String g EmptyString, r') else (EmptyString, r)
                | EmptyString => (EmptyString, r)
                end in
              match digits r1 with
              | (EmptyString, _) => (EmptyString, s3)
              | (d, r') => (String c (sign ++ d)%string, r')
              end
            else (EmptyString, s3)
        | EmptyString => (EmptyString, s3)
        end in
      let sign := if neg then "-"%string else EmptyString in
      match frac, exp with
      | EmptyString, EmptyString =>
          Some (PyInt (if neg then - decimal ip 0 else decimal ip 0)%Z, s4)
      | _, _ => Some (PyFloat (sign ++ ip ++ frac ++ exp)%string, s4)
      end
  end.

Fixpoint strip_prefix (p s : string) : option string :=
  match p, s with
  | EmptyString, _ => Some s
  | String a p', String b s' => if Ascii.eqb a b then strip_prefix p' s' else None
  | String _ _, EmptyString => None
  end.

(** The literals of the scanner other than strings, containers and
    numbers. *)
Definition constant (s : string) : option (pyval * string) :=
  match strip_prefix "null" s with Some r => Some (PyNone, r) | None =>
  match strip_prefix "true" s with Some r => Some (PyBool true, r) | None =>
  match strip_prefix "false" s with Some r => Some (PyBool false, r) | None =>
  match strip_prefix "NaN" s with Some r => Some (PyFloat "NaN", r) | None =>
  match strip_prefix "Infinity" s with Some r => Some (PyFloat "Infinity", r) | None =>
  match strip_prefix "-Infinity" s with Some r => Some (PyFloat "-Infinity", r) | None =>
  None end end end end end end.

(** [d[k] = v]: a key keeps the place of its first insertion. *)
Fixpoint dict_set (k : string) (v : pyval) (d : list (string * pyval))
  : list (string * pyval) :=
  match d with
  | [] => [(k, v)]
  | (k', v') :: d' =>
      if String.eqb k k' then (k, v) :: d' else (k', v') :: dict_set k v d'
  end.

(** [scan_once]: one value at the head of [s].  [fuel] bounds the
    nesting; the element loops run on the length of the text. *)
Fixpoint value (fuel : nat) (s : string) : Result (pyval * string) :=
  match fuel with
  | O => err "Expecting value"
  | S f =>
      let items :=
        fix items (n : nat) (s : string) (acc : list pyval)
          : Result (pyval * string) :=
          match n with
          | O => err "Expecting value"
          | S n' =>
              rbind (value f s) (fun vr =>
                match skip_ws (snd vr) with
                | String c r =>
                    if N_of_ascii c =? 93 then Ok (PyList (rev (fst vr :: acc)), r)
                    else if N_of_ascii c =? 44 then items n' (skip_ws r) (fst vr :: acc)
                    else err "Expecting ',' delimiter"
                | EmptyString => err "Expecting ',' delimiter"
                end)
          end in
      let members :=
        fix members (n : nat) (s : string) (acc : list (string * pyval))
          : Result (pyval * string) :=
          match n, s with
          | S n', String q r0 =>
              if N_of_ascii q =? 34 then
                rbind (scan_string (String.length r0) r0) (fun kr =>
                  match skip_ws (snd kr) with
                  | String c r1 =>
                      if N_of_ascii c =? 58 then
                        rbind (value f (skip_ws r1)) (fun vr =>
                          let acc' := dict_set (fst kr) (fst vr) acc in
                          match skip_ws (snd vr) with
                          | String d r2 =>
                              if N_of_ascii d =? 125 then Ok (PyDict acc', r2)
                              else if N_of_ascii d =? 44 then members n' (skip_ws r2) acc'
                              else err "Expecting ',' delimiter"
                          | EmptyString => err "Expecting ',' delimiter"
                          end)
                      else err "Expecting ':' delimiter"
                  | EmptyString => err "Expecting ':' delimiter"
                  end)
              else err "Expecting property name enclosed in double quotes"
          | _, _ => err "Expecting property name enclosed in double quotes"
          end in
      match s with
      | EmptyString => err "Expecting value"
      | String c r =>
          let n := N_of_ascii c in
          if n =? 34 then with_rest PyStr (scan_string (String.length r) r)
          else if n =? 123 then
            match skip_ws r with
            | String d r' =>
                if N_of_ascii d =? 125 then Ok (PyDict [], r')
                else members (String.length r) (skip_ws r) []
            | EmptyString => err "Expecting property name enclosed in double quotes"
            end
          else if n =? 91 then
            match skip_ws r with
            | String d r' =>
                if N_of_ascii d =? 93 then Ok (PyList [], r')
                else items (String.length r) (skip_ws r) []
            | EmptyString => err "Expecting value"
            end
          else
            match constant s with
            | Some vr => Ok vr
            | None =>
                match match_number s with
                | Some vr => Ok vr
                | None => err "Expecting value"
                end
            end
      end
  end.

(** [JSONDecoder.decode]: one value, then nothing but white space. *)
Definition decode_text (s : string) : Result pyval :=
  rbind (value (S (String.length s)) (skip_ws s)) (fun vr =>
    match skip_ws (snd vr) with
    | EmptyString => Ok (fst vr)
    | String _ _ => err "Extra data"
    end).

Definition BOM_UTF8 : list N := [239; 187; 191].

(** Whether [detect_encoding] answers utf-8 or utf-8-sig. *)
Definition detected_utf8 (b : list N) : bool :=
  match b with
  | 254 :: 255 :: _ | 255 :: 254 :: _ => false
  | [b0; b1] => negb ((b0 =? 0) || (b1 =? 0))
  | b0 :: b1 :: _ :: _ :: _ => negb ((b0 =? 0) || (b1 =? 0))
  | _ => true
  end.

(** [json.loads(s)] *)
Definition loads (s : pyval) : Result pyval :=
  match s with
  | PyStr t =>
      match strip_prefix (string_of_list_byte (map Base64.byte_of BOM_UTF8)) t with
      | Some _ => err "Unexpected UTF-8 BOM"
      | None => decode_text t
      end
  | PyBytes bs =>
      let ns := map Byte.to_N bs in
      if detected_utf8 ns then
        let body := match ns with
                    | 239 :: 187 :: 191 :: _ => skipn 3 bs
                    | _ => bs
                    end in
        if utf8_valid true (map Byte.to_N body)
        then decode_text (string_of_list_byte body)
        else err "utf-8"
      else err "UTF-16 and UTF-32 input is not read"
  | _ => Raise TypeError
  end.

End Json.

(* ================================================================== *)
(** * The server: [complete_oauth_demo.py] *)
(* ================================================================== *)

Import Py.

(** The module constants.  A handler reads them when it runs, so it takes
    the bindings in force at that moment. *)
Record Globals : Type := mkGlobals {
  AUTH0_DOMAIN : string;
  CLIENT_ID : string;
  REDIRECT_URI : string;
  SCOPE : string
}.

(** The bindings as the module sets them. *)
Definition module_globals : Globals :=
  {| AUTH0_DOMAIN := "dev-a85i5cax3v3cy6l4.us.auth0.com";
     CLIENT_ID := "QhgXEVKKNmJzLwQxZeUuxtfqXlf619S5";
     REDIRECT_URI := "http://localhost:8091/callback";
     SCOPE := "openid profile email" |}.

(** The attributes that the handlers put on [self.server]; [None] is an
    attribute that was never assigned ([hasattr] is false). *)
Record Server : Type := mkServer {
  code_verifier : option string;
  access_token : option pyval;
  id_token : option pyval
}.

Definition fresh_server : Server := mkServer None None None.

(** [urllib.request.Request(url, data=..., headers=...)] and the call of
    [urlopen] that sends it.  [timeout] is the argument of [urlopen];
    [None] is the argument left out, which is the global default of the
    socket module: no timeout, unless [socket.setdefaulttimeout] was
    called. *)
Record Request : Type := mkRequest {
  url : string;
  data : list byte;
  headers : list (string * string)
}.

Record UrlopenCall : Type := mkCall {
  request : Request;
  timeout : option N
}.

(** What a handler writes to its client.  A page is its template and the
    values put into it; error texts are kept the same way. *)
Inductive Page : Type :=
| HomePage (token_info : option pyval)
| SuccessPage (access_token_100 id_token_100 user_info : pyval)
| UnauthorizedPage
| ProtectedPage (token_used : pyval).

Inductive Message : Type :=
| OAuthError (error : string)
| MissingAuthorizationCode
| TokenExchangeFailed (e : exn)
| NoMessage.

Inductive Out : Type :=
| send_response (code : Z)
| send_header (keyword value : string)
| end_headers
| wfile_write (page : Page)
| send_error (code : Z) (message : Message).

(** The state a handler runs in: the server object, the calls made to the
    token endpoint so far and what was written to clients so far. *)
Record World : Type := mkWorld {
  server : Server;
  sent : list UrlopenCall;
  out : list Out
}.

(** Handlers: state passing with exceptions; what was done before an
    exception stays done. *)
Definition M (A : Type) : Type := World -> Result A * World.

Definition ret {A} (a : A) : M A := fun w => (Ok a, w).

Definition bind {A B} (m : M A) (k : A -> M B) : M B :=
  fun w => match m w with
           | (Ok a, w') => k a w'
           | (Raise e, w') => (Raise e, w')
           end.

Definition lift {A} (r : Result A) : M A := fun w => (r, w).

Definition try_catch {A} (body : M A) (handler : exn -> M A) : M A :=
  fun w => match body w with
           | (Ok a, w') => (Ok a, w')
           | (Raise e, w') => handler e w'
           end.

Declare Scope py_scope.
Delimit Scope py_scope with py.
Notation "x <- m ;; k" := (bind m (fun x => k))
  (at level 61, m at next level, right associativity) : py_scope.
Notation "m ;; k" := (bind m (fun _ => k))
  (at level 61, right associativity) : py_scope.

Definition emit (o : Out) : M unit :=
  fun w => (Ok tt, mkWorld (server w) (sent w) (out w ++ [o])).

(** [self.send_error(code, message)].  The status line, which holds the
    message, is encoded as Latin-1 in strict mode before anything is
    sent, so a message with a code point above 255 raises
    [UnicodeEncodeError] and nothing is sent.  Only the message made from
    the [error] parameter of a request can be such a one: the fixed
    texts are ASCII, and so is the text of every exception that the
    [try] block of [handle_callback] can raise (the messages of the
    standard library are ASCII, a character that cannot be encoded is
    named by its escape, and the reason phrase of an HTTP error is read
    as Latin-1). *)
Definition message_latin1 (m : Message) : bool :=
  match m with
  | OAuthError e => latin1_encodable e
  | _ => true
  end.

Definition do_send_error (code : Z) (m : Message) : M unit :=
  if message_latin1 m then emit (send_error code m)
  else lift (Raise (UnicodeEncodeError "latin-1")).

(** [self.wfile.write(html.encode())]: the page is encoded as UTF-8 in
    strict mode first.  The templates can be encoded; [json.dumps]
    returns ASCII text; so the page can be encoded exactly when the
    token texts put into it can. *)
Definition page_encodable (p : Page) : bool :=
  match p with
  | HomePage (Some t) => formats_to_utf8 t
  | HomePage None => true
  | SuccessPage a i _ => formats_to_utf8 a && formats_to_utf8 i
  | UnauthorizedPage => true
  | ProtectedPage t => formats_to_utf8 t
  end.

Definition write_page (p : Page) : M unit :=
  if page_encodable p then emit (wfile_write p)
  else lift (Raise (UnicodeEncodeError "utf-8")).

Definition modify_server (f : Server -> Server) : M unit :=
  fun w => (Ok tt, mkWorld (f (server w)) (sent w) (out w)).

Definition set_code_verifier (v : string) : M unit :=
  modify_server (fun s => mkServer (Some v) (access_token s) (id_token s)).
Definition set_access_token (v : pyval) : M unit :=
  modify_server (fun s => mkServer (code_verifier s) (Some v) (id_token s)).
Definition set_id_token (v : pyval) : M unit :=
  modify_server (fun s => mkServer (code_verifier s) (access_token s) (Some v)).

(** [self.server.code_verifier] and [self.server.access_token] *)
Definition get_code_verifier : M string :=
  fun w => match code_verifier (server w) with
           | Some v => (Ok v, w)
           | None => (Raise (AttributeError "code_verifier"), w)
           end.
Definition get_access_token : M pyval :=
  fun w => match access_token (server w) with
           | Some v => (Ok v, w)
           | None => (Raise (AttributeError "access_token"), w)
           end.

(** [hasattr(self.server, 'access_token')] *)
Definition hasattr_access_token : M bool :=
  fun w => (Ok (match access_token (server w) with Some _ => true | None => false end), w).

(** [params[key][0]] on the dictionary that [parse_qs] returns. *)
Definition first_value (params : list (string * list string)) (key : string)
  : M string :=
  match lookup key params with
  | Some (v :: _) => ret v
  | Some [] => lift (Raise IndexError)
  | None => lift (Raise (KeyError key))
  end.

(** [secrets.token_urlsafe(nbytes)], given the bytes that [token_bytes]
    returned. *)
Fixpoint rstrip_bytes (c : byte) (bs : list byte) : list byte :=
  match bs with
  | [] => []
  | a :: bs' =>
      match rstrip_bytes c bs' with
      | [] => if Byte.eqb a c then [] else [a]
      | r => a :: r
      end
  end.

Definition decode_ascii (bs : list byte) : Result string :=
  if forallb (fun b => (Byte.to_N b <? 128)%N) bs then Ok (string_of_list_byte bs)
  else Raise (ValueError "ascii").

Definition token_urlsafe (tok : list byte) : Result string :=
  decode_ascii (rstrip_bytes "="%byte (Base64.urlsafe_b64encode tok)).

(** [self.headers.get(name, default)]: header names compare without
    regard to case. *)
Definition lower (c : ascii) : ascii :=
  let n := N_of_ascii c in
  if in_range 65 90 n then ascii_of_N (n + 32) else c.

Fixpoint lower_str (s : string) : string :=
  match s with
  | EmptyString => EmptyString
  | String c s' => String (lower c) (lower_str s')
  end.

Fixpoint headers_get (hs : list (string * string)) (name default : string)
  : string :=
  match hs with
  | [] => default
  | (k, v) :: hs' =>
      if String.eqb (lower_str k) (lower_str name) then v
      else headers_get hs' name default
  end.

Section Handlers.

(** [json.loads] of the standard library. *)
Variable json_loads : pyval -> Result pyval.

(** The token endpoint as the handler meets it: what
    [urlopen(req).read()] gives for a call, given the calls made before. *)
Variable urlopen : list UrlopenCall -> UrlopenCall -> Result (list byte).

(** The module constants in force while the handler runs. *)
Variable G : Globals.

Local Open Scope py_scope.

Definition do_urlopen (c : UrlopenCall) : M (list byte) :=
  fun w => (urlopen (sent w) c, mkWorld (server w) (sent w ++ [c]) (out w)).

(** The PKCE pair of [handle_login], lines 82-85, from the bytes that
    [secrets.token_bytes(32)] returned. *)
Definition pkce_pair (tok : list byte) : Result (string * string) :=
  rbind (decode (Base64.urlsafe_b64encode tok)) (fun v =>
    let code_verifier := rstrip "=" v in
    rbind (decode (Base64.urlsafe_b64encode (Sha256.sha256 (encode code_verifier))))
      (fun c => Ok (code_verifier, rstrip "=" c))).

(** The dictionary [params] of [handle_login]. *)
Definition authorization_params (code_challenge state : string)
  : list (string * string) :=
  [("response_type", "code");
   ("client_id", CLIENT_ID G);
   ("redirect_uri", REDIRECT_URI G);
   ("scope", SCOPE G);
   ("code_challenge", code_challenge);
   ("code_challenge_method", "S256");
   ("state", state)].

Definition authorization_url (params : list (string * string)) : string :=
  ("https://" ++ AUTH0_DOMAIN G ++ "/authorize?" ++ UrlParse.urlencode params)%string.

(** [handle_login]; [tok] and [state_tok] are the results of the two
    draws of random bytes, in the order the handler makes them. *)
Definition handle_login (tok state_tok : list byte) : M unit :=
  pair <- lift (pkce_pair tok) ;;
  set_code_verifier (fst pair) ;;
  state <- lift (token_urlsafe state_tok) ;;
  let params := authorization_params (snd pair) state in
  emit (send_response 302) ;;
  emit (send_header "Location" (authorization_url params)) ;;
  emit end_headers.

(** The dictionary [data] of [exchange_code_for_tokens]. *)
Definition exchange_data (auth_code code_verifier : string)
  : list (string * string) :=
  [("grant_type", "authorization_code");
   ("client_id", CLIENT_ID G);
   ("code", auth_code);
   ("redirect_uri", REDIRECT_URI G);
   ("code_verifier", code_verifier)].

Definition exchange_request (auth_code code_verifier : string) : Request :=
  {| url := ("https://" ++ AUTH0_DOMAIN G ++ "/oauth/token")%string;
     data := encode (UrlParse.urlencode (exchange_data auth_code code_verifier));
     headers := [("Content-Type", "application/x-www-form-urlencoded")] |}.

(** [urlopen(req)]: no timeout is given. *)
Definition the_call (auth_code code_verifier : string) : UrlopenCall :=
  mkCall (exchange_request auth_code code_verifier) None.

Definition exchange_code_for_tokens (auth_code : string) : M pyval :=
  verifier <- get_code_verifier ;;
  body <- do_urlopen (the_call auth_code verifier) ;;
  text <- lift (decode body) ;;
  tokens <- lift (json_loads (PyStr text)) ;;
  _ <- lift (keys tokens) ;;
  ret tokens.

(** [parse_jwt_payload].  An argument that is not a [str] is either
    falsy (line 280 returns the empty dictionary) or has no usable
    [split], which the bare [except] turns into the empty dictionary. *)
Definition parse_jwt_payload (jwt_token : pyval) : Result pyval :=
  match jwt_token with
  | PyStr s =>
      if String.eqb s "" then Ok (PyDict [])
      else
        try_except
          (let parts := split "." s in
           if negb (Nat.eqb (List.length parts) 3) then Ok (PyDict [])
           else
             let payload := nth 1 parts "" in
             let payload :=
               (payload ++ repeat_char "=" (4 - Nat.modulo (len payload) 4))%string in
             rbind (Base64.urlsafe_b64decode payload) (fun decoded =>
               json_loads (PyBytes decoded)))
          (fun _ => Ok (PyDict []))
  | _ => Ok (PyDict [])
  end.

(** Lines 132-190 of [handle_callback]: what the [try] block does with
    the tokens once the exchange has returned. *)
Definition store_and_render (tokens : pyval) : M unit :=
  at_ <- lift (getitem tokens "access_token") ;;
  set_access_token at_ ;;
  idt <- lift (get tokens "id_token" (PyStr "")) ;;
  set_id_token idt ;;
  idt' <- lift (get tokens "id_token" (PyStr "")) ;;
  user_info <- lift (parse_jwt_payload idt') ;;
  emit (send_response 200) ;;
  emit (send_header "Content-type" "text/html") ;;
  emit end_headers ;;
  a100 <- lift (rbind (getitem tokens "access_token") (slice 100)) ;;
  i100 <- lift (rbind (get tokens "id_token" (PyStr "Not provided")) (slice 100)) ;;
  write_page (SuccessPage a100 i100 user_info).

(** [handle_callback], on the dictionary [params] that lines 115-116
    get from the request path with [parse_qs]: every key of it has a
    value, and no value holds a lone surrogate, since [parse_qs] replaces
    what it cannot decode. *)
Definition handle_callback (params : list (string * list string)) : M unit :=
  if contains "error" params then
    e <- first_value params "error" ;;
    do_send_error 400 (OAuthError e)
  else if negb (contains "code" params) then
    do_send_error 400 MissingAuthorizationCode
  else
    auth_code <- first_value params "code" ;;
    try_catch
      (tokens <- exchange_code_for_tokens auth_code ;;
       store_and_render tokens)
      (fun e => do_send_error 500 (TokenExchangeFailed e)).

(** [handle_protected_api]; [hdrs] are the headers of the request. *)
Definition handle_protected_api (hdrs : list (string * string)) : M unit :=
  let auth_header := headers_get hdrs "Authorization" "" in
  has <- hasattr_access_token ;;
  if negb has then
    emit (send_response 401) ;;
    emit (send_header "Content-type" "text/html") ;;
    emit end_headers ;;
    write_page UnauthorizedPage
  else
    emit (send_response 200) ;;
    emit (send_header "Content-type" "text/html") ;;
    emit end_headers ;;
    tok <- get_access_token ;;
    write_page (ProtectedPage tok).

(** [handle_home] *)
Definition handle_home : M unit :=
  emit (send_response 200) ;;
  emit (send_header "Content-type" "text/html") ;;
  emit end_headers ;;
  has <- hasattr_access_token ;;
  (if has then
     tok <- get_access_token ;;
     t50 <- lift (slice 50 tok) ;;
     write_page (HomePage (Some t50))
   else write_page (HomePage None)).

(** A GET request as [do_GET] meets it: the path, the headers, the
    dictionary that [parse_qs] makes of the query of the path, and the
    bytes that [secrets.token_bytes] would return to the two draws of
    [handle_login]. *)
Record GetRequest : Type := mkGet {
  path : string;
  request_headers : list (string * string);
  query_params : list (string * list string);
  entropy : list byte * list byte
}.

Definition do_GET (r : GetRequest) : M unit :=
  if String.prefix "/callback" (path r) then handle_callback (query_params r)
  else if String.eqb (path r) "/" then handle_home
  else if String.eqb (path r) "/login" then
    handle_login (fst (entropy r)) (snd (entropy r))
  else if String.prefix "/api/protected" (path r) then
    handle_protected_api (request_headers r)
  else do_send_error 404 NoMessage.

(** [serve_forever]: requests are handled one after the other; an
    exception that escapes a handler ends that request only. *)
Definition serve (w : World) (rs : list GetRequest) : World :=
  fold_left (fun w r => snd (do_GET r w)) rs w.

(** What [exchange_code_for_tokens] returns for an answer of the token
    endpoint (lines 273-276). *)
Definition exchange_result (answer : Result (list byte)) : Result pyval :=
  rbind answer (fun body =>
  rbind (decode body) (fun text =>
  rbind (json_loads (PyStr text)) (fun tokens =>
  rbind (keys tokens) (fun _ => Ok tokens)))).

(** A stored access token is backed by an exchange when an earlier call
    to the token endpoint was answered with a JSON object that carries
    this token. *)
Definition token_backed (w : World) : Prop :=
  forall tok, access_token (server w) = Some tok ->
  exists before call after body text d,
    sent w = before ++ call :: after /\
    urlopen before call = Ok body /\
    decode body = Ok text /\
    json_loads (PyStr text) = Ok (PyDict d) /\
    lookup "access_token" d = Some tok.

(** One request adds at most one call, made without a timeout, and
    changes the stored token only to one that the endpoint returned. *)
Definition step_ok (w w' : World) : Prop :=
  (sent w' = sent w \/ exists c v, sent w' = sent w ++ [the_call c v]) /\
  (access_token (server w') = access_token (server w) \/
   exists call tokens tok,
     sent w' = sent w ++ [call] /\
     exchange_result (urlopen (sent w) call) = Ok tokens /\
     getitem tokens "access_token" = Ok tok /\
     access_token (server w') = Some tok).

End Handlers.

Definition initial_world : World := mkWorld fresh_server [] [].

(* ================================================================== *)
(** * The encoding of RFC 4648, section 5, without padding

    The definition that the PKCE text refers to, written on the numeric
    value of each group of input bytes and independent of [Base64]. *)
(* ================================================================== *)

Module Rfc4648.
Local Open Scope N_scope.

Definition urlsafe_alphabet : list byte :=
  list_byte_of_string
    "ABCDEFGHIJKLMNOPQRSTUVWXYZabcdefghijklmnopqrstuvwxyz0123456789-_".

Definition b2u (i : N) : byte := nth (N.to_nat i) urlsafe_alphabet "="%byte.

(** 24 bits give four characters; a final group of 8 bits gives two and
    one of 16 bits gives three, the missing bits being zero. *)
Fixpoint base64url_nopad (bs : list byte) : list byte :=
  match bs with
  | [] => []
  | [a] =>
      let n := Byte.to_N a * 16 in
      [b2u (n / 64); b2u (n mod 64)]
  | [a; b] =>
      let n := (Byte.to_N a * 256 + Byte.to_N b) * 4 in
      [b2u (n / 4096); b2u ((n / 64) mod 64); b2u (n mod 64)]
  | a :: b :: c :: rest =>
      let n := (Byte.to_N a * 256 + Byte.to_N b) * 256 + Byte.to_N c in
      b2u (n / 262144) :: b2u ((n / 4096) mod 64) :: b2u ((n / 64) mod 64)
      :: b2u (n mod 64) :: base64url_nopad rest
  end.

(** The characters of the alphabet. *)
Definition url_char (c : byte) : bool :=
  let n := Byte.to_N c in
  in_range 65 90 n || in_range 97 122 n || in_range 48 57 n
  || (n =? 45) || (n =? 95).

(** The number of pad characters that the padded encoding adds. *)
Definition pad_count (n : nat) : nat :=
  match Nat.modulo n 3 with
  | 0%nat => 0%nat
  | 1%nat => 2%nat
  | _ => 1%nat
  end.

(** RFC 7636, section 4.1: the unreserved characters of a verifier. *)
Definition unreserved (c : ascii) : bool :=
  let n := N_of_ascii c in
  in_range 65 90 n || in_range 97 122 n || in_range 48 57 n
  || (n =? 45) || (n =? 46) || (n =? 95) || (n =? 126).

Fixpoint all_chars (p : ascii -> bool) (s : string) : bool :=
  match s with
  | EmptyString => true
  | String c s' => p c && all_chars p s'
  end.

(** [c not in s] *)
Definition no_char (c : ascii) (s : string) : bool :=
  all_chars (fun x => negb (Ascii.eqb x c)) s.

(** A character of the alphabet or the pad character. *)
Definition base64url_or_pad (c : ascii) : bool :=
  url_char (byte_of_ascii c) || Ascii.eqb c "=".

(** RFC 7636, section 4.1 and 4.2: the verifier made from random octets
    and the S256 challenge of a verifier. *)
Definition spec_verifier (tok : list byte) : string :=
  string_of_list_byte (base64url_nopad tok).

Definition spec_challenge (verifier : string) : string :=
  string_of_list_byte
    (base64url_nopad (Sha256.sha256 (list_byte_of_string verifier))).

End Rfc4648.

(** Reading a form-encoded text ([application/x-www-form-urlencoded], the
    query of a URL) as its receiver does: fields are separated by [&],
    and the name of a field ends at its first [=].  Names and values are
    given as they are on the wire, percent-encoded. *)
Module Wire.

Fixpoint before_char (c : ascii) (s : string) : string :=
  match s with
  | EmptyString => EmptyString
  | String a s' => if Ascii.eqb a c then EmptyString else String a (before_char c s')
  end.

Fixpoint after_char (c : ascii) (s : string) : string :=
  match s with
  | EmptyString => EmptyString
  | String a s' => if Ascii.eqb a c then s' else after_char c s'
  end.

Definition fields (text : string) : list (string * string) :=
  map (fun f => (before_char "=" f, after_char "=" f)) (Py.split "&" text).

Definition field_of (name text : string) : option string :=
  Py.lookup name (fields text).

(** The query of an authorization request and the body of a token
    request, written out from the values as they are on the wire. *)
Definition authorization_query (client_id redirect_uri scope challenge state : string)
  : string :=
  "response_type=code&client_id=" ++ client_id
  ++ "&redirect_uri=" ++ redirect_uri
  ++ "&scope=" ++ scope
  ++ "&code_challenge=" ++ challenge
  ++ "&code_challenge_method=S256&state=" ++ state.

Definition token_request_body (client_id code redirect_uri verifier : string)
  : string :=
  "grant_type=authorization_code&client_id=" ++ client_id
  ++ "&code=" ++ code
  ++ "&redirect_uri=" ++ redirect_uri
  ++ "&code_verifier=" ++ verifier.

End Wire.

(** A computation preserves an observation [f] of the world when running
    it, to the end or to an exception, leaves [f] as it was. *)
Definition preserves {X A : Type} (f : World -> X) (m : M A) : Prop :=
  forall w, f (snd (m w)) = f w.

(* ================================================================== *)
(** * Checking a property of small numbers by running it *)
(* ================================================================== *)

Module Exhaust.

Definition below (n : nat) : list N := map N.of_nat (seq 0 n).

Definition forall_below (n : nat) (p : N -> bool) : bool := forallb p (below n).

(** Everything the tables of [Base64] and [Rfc4648] must agree on for
    one sextet. *)
Definition table_check (i : N) : bool :=
  Byte.eqb (Base64.urlsafe_encode_translation (Base64.b2a i)) (Rfc4648.b2u i)
  && match Base64.a2b (Base64.urlsafe_decode_translation (Rfc4648.b2u i)) with
     | Some j => (j =? i)%N
     | None => false
     end
  && negb (Byte.eqb (Base64.urlsafe_decode_translation (Rfc4648.b2u i))
                    Base64.BASE64_PAD)
  && Rfc4648.url_char (Rfc4648.b2u i).

End Exhaust.

(* ================================================================== *)
(** * Inputs and token endpoints to run the handlers on *)
(* ================================================================== *)

Module Examples.

(** Two results of [secrets.token_bytes(32)]. *)
Definition draw_a : list byte := repeat x00 32.
Definition draw_b : list byte := repeat xff 32.
Definition draw_c : list byte := repeat x2a 32.

(** JSON text written with ['] where JSON has the double quote. *)
Fixpoint json_text (s : string) : string :=
  match s with
  | EmptyString => EmptyString
  | String c s' =>
      String (if Ascii.eqb c "'" then ascii_of_nat 34 else c) (json_text s')
  end.

(** An endpoint that grants every request. *)
Definition endpoint_grants (_ : list UrlopenCall) (_ : UrlopenCall)
  : Result (list byte) :=
  Ok (list_byte_of_string
        (json_text "{'access_token':'AT1','token_type':'Bearer','expires_in':3600}")).

(** An endpoint that answers 403. *)
Definition endpoint_refuses (_ : list UrlopenCall) (_ : UrlopenCall)
  : Result (list byte) :=
  Raise (HTTPError 403).

(** An endpoint whose answer carries no access token. *)
Definition endpoint_without_token (_ : list UrlopenCall) (_ : UrlopenCall)
  : Result (list byte) :=
  Ok (list_byte_of_string (json_text "{'token_type':'Bearer'}")).

(** An endpoint that does not answer before the socket gives up. *)
Definition endpoint_times_out (_ : list UrlopenCall) (_ : UrlopenCall)
  : Result (list byte) :=
  Raise TimeoutError.

(** The world after one login. *)
Definition logged_in : World :=
  snd (handle_login module_globals draw_a draw_b initial_world).

(** A callback that carries a code and no state. *)
Definition callback_without_state : list (string * list string) :=
  [("code", ["ABC"])].

(** A callback that carries a code and a state that no login issued. *)
Definition callback_forged_state : list (string * list string) :=
  [("code", ["ABC"]); ("state", ["forged"])].

Definition callback_request : GetRequest :=
  mkGet "/callback?code=ABC" [] callback_without_state ([], []).

(** The euro sign, U+20AC, which Latin-1 does not have. *)
Definition euro : string :=
  String (ascii_of_nat 226) (String (ascii_of_nat 130) (String (ascii_of_nat 172) "")).

(** A callback such as [/callback?error=%E2%82%AC]. *)
Definition callback_euro_error : list (string * list string) :=
  [("error", [euro])].

(** An endpoint whose answer has [null] for access token. *)
Definition endpoint_null_token (_ : list UrlopenCall) (_ : UrlopenCall)
  : Result (list byte) :=
  Ok (list_byte_of_string (json_text "{'access_token':null}")).

(** An endpoint whose access token is a lone surrogate, written as a JSON
    escape. *)
Definition endpoint_surrogate_token (_ : list UrlopenCall) (_ : UrlopenCall)
  : Result (list byte) :=
  Ok (list_byte_of_string (json_text "{'access_token':'\ud800'}")).

(** The [str] that [json.loads] makes of that escape. *)
Definition lone_surrogate : string :=
  String (ascii_of_nat 237) (String (ascii_of_nat 160) (String (ascii_of_nat 128) "")).

(** A token whose middle segment is the encoding of a JSON object with a
    character outside the alphabet appended. *)
Definition token_with_stray_char : string := "h.eyJzdWIiOiJ1MSJ9!.s".

End Examples.

(* ================================================================== *)
(** * Requests and answers, for the properties of whole runs *)
(* ================================================================== *)

Module Runs.

(** Every key of the dictionary has at least one value, as in every
    dictionary that [parse_qs] returns. *)
Definition has_values (params : list (string * list string)) : bool :=
  forallb (fun kv => match snd kv with [] => false | _ :: _ => true end) params.

(** The requests that [do_GET] hands to [handle_callback]. *)
Definition is_callback (r : GetRequest) : bool :=
  String.prefix "/callback" (path r).

Definition count_callbacks (rs : list GetRequest) : nat :=
  List.length (filter is_callback rs).

(** [tokens.get('id_token', default)] for the items of a dictionary. *)
Definition id_token_or (default : pyval) (d : list (string * pyval)) : pyval :=
  match lookup "id_token" d with
  | Some x => x
  | None => default
  end.

(** The three lines that open a page. *)
Definition page_head (code : Z) : list Out :=
  [send_response code; send_header "Content-type" "text/html"; end_headers].

(** What follows the head of the 200 answer of a callback whose tokens
    are stored: the success page, or the 500 error of the [except]
    clause when a token cannot be sliced or the page cannot be encoded. *)
Definition page_or_error (tok idt user_info : pyval) : Out :=
  match slice 100 tok with
  | Raise e => send_error 500 (TokenExchangeFailed e)
  | Ok a100 =>
      match slice 100 idt with
      | Raise e => send_error 500 (TokenExchangeFailed e)
      | Ok i100 =>
          if page_encodable (SuccessPage a100 i100 user_info)
          then wfile_write (SuccessPage a100 i100 user_info)
          else send_error 500 (TokenExchangeFailed (UnicodeEncodeError "utf-8"))
      end
  end.

(** An endpoint whose answer is a JSON object with a number for token. *)
Definition endpoint_number_token (_ : list UrlopenCall) (_ : UrlopenCall)
  : Result (list byte) :=
  Ok (list_byte_of_string (Examples.json_text "{'access_token':5}")).

(** An endpoint whose answer is JSON, but no object. *)
Definition endpoint_answers_list (_ : list UrlopenCall) (_ : UrlopenCall)
  : Result (list byte) :=
  Ok (list_byte_of_string "[1]").

Definition login_request : GetRequest :=
  mkGet "/login" [] [] (Examples.draw_a, Examples.draw_b).

Definition protected_request : GetRequest :=
  mkGet "/api/protected" [("Authorization", "Bearer x")] [] ([], []).

Definition home_request : GetRequest := mkGet "/" [] [] ([], []).

(** The characters that [quote_plus] can produce. *)
Definition urlencoded_char (c : ascii) : bool :=
  Rfc4648.unreserved c || Ascii.eqb c "+" || Ascii.eqb c "%".

(** What [quote_plus] makes of one character, for the 256 of them. *)
Definition quote_check (n : N) : bool :=
  Rfc4648.all_chars urlencoded_char
    (UrlParse.quote_plus (String (ascii_of_N n) EmptyString)).

(** A byte of the alphabet is a data character for the decoder. *)
Definition data_check (n : N) : bool :=
  let c := Base64.byte_of n in
  negb (Rfc4648.url_char c)
  || (match Base64.a2b (Base64.urlsafe_decode_translation c) with
      | Some _ => true
      | None => false
      end
      && negb (Byte.eqb (Base64.urlsafe_decode_translation c) Base64.BASE64_PAD)
      && UrlParse.always_safe n).

(** The status code that an output event carries, when it is one that
    starts an answer. *)
Definition status_of (o : Out) : option Z :=
  match o with
  | send_response code => Some code
  | send_error code _ => Some code
  | _ => None
  end.

(** The handler answered: what it sent starts with a status line. *)
Definition answered (w w' : World) : Prop :=
  exists o rest code,
    out w' = out w ++ o :: rest
    /\ status_of o = Some code
    /\ In code [200; 302; 400; 401; 404; 500]%Z.

(** Requests that [do_GET] does not hand to [handle_callback]. *)
Definition no_callback (rs : list GetRequest) : bool :=
  forallb (fun r => negb (is_callback r)) rs.

(** The first value of the [error] parameter, when the request has one,
    can be encoded as Latin-1. *)
Definition error_latin1 (params : list (string * list string)) : bool :=
  match lookup "error" params with
  | Some (e :: _) => latin1_encodable e
  | _ => true
  end.

(** The world in which the stored access token is a lone surrogate. *)
Definition surrogate_token_world : World :=
  mkWorld (mkServer None (Some (PyStr Examples.lone_surrogate)) (Some (PyStr ""))) [] [].

(** The world after a login and a callback whose answer carried a number
    for access token. *)
Definition number_token_world : World :=
  snd (handle_callback Json.loads endpoint_number_token module_globals
         Examples.callback_without_state Examples.logged_in).

End Runs.

(* ================================================================== *)
(** * Facts about the encoders and the decoder *)
(* ================================================================== *)

Module Base64Facts.
Import Py Base64 Rfc4648 Exhaust.

Lemma forall_below_spec n p :
  forall_below n p = true -> forall x, (x < N.of_nat n)%N -> p x = true.
Proof.
  unfold forall_below, below. intros H x Hx.
  rewrite forallb_forall in H. apply H.
  apply in_map_iff. exists (N.to_nat x). split; [lia|].
  apply in_seq. lia.
Qed.

Lemma to_N_lt b : (Byte.to_N b < 256)%N.
Proof. pose proof (Byte.to_N_bounded b). lia. Qed.

Local Open Scope N_scope.

Lemma forall_below2 n m (p : N -> N -> bool) :
  forall_below n (fun x => forall_below m (p x)) = true ->
  forall x y, x < N.of_nat n -> y < N.of_nat m -> p x y = true.
Proof.
  intros H x y Hx Hy.
  exact (forall_below_spec m _ (forall_below_spec n _ H x Hx) y Hy).
Qed.

Lemma forall_below3 n m k (p : N -> N -> N -> bool) :
  forall_below n (fun x => forall_below m (fun y => forall_below k (p x y))) = true ->
  forall x y z, x < N.of_nat n -> y < N.of_nat m -> z < N.of_nat k -> p x y z = true.
Proof.
  intros H x y z Hx Hy Hz.
  exact (forall_below_spec k _ (forall_below2 n m _ H x y Hx Hy) z Hz).
Qed.

(** The shifts and masks of [b2a_base64], as quotients and remainders. *)
Lemma enc_s1 a b : a < 256 -> b < 256 ->
  N.lor (N.shiftl (N.land a 3) 4) (N.shiftr b 4) = (a mod 4) * 16 + b / 16.
Proof.
  intros Ha Hb. apply N.eqb_eq.
  apply (forall_below2 256 256 (fun a b =>
     N.lor (N.shiftl (N.land a 3) 4) (N.shiftr b 4) =? (a mod 4) * 16 + b / 16));
    [vm_compute; reflexivity | assumption | assumption].
Qed.

Lemma enc_s0 a : a < 256 -> N.shiftr a 2 = a / 4.
Proof. intros _. apply (N.shiftr_div_pow2 a 2). Qed.

Lemma enc_s2 b c : b < 256 -> c < 256 ->
  N.lor (N.shiftl (N.land b 15) 2) (N.shiftr c 6) = (b mod 16) * 4 + c / 64.
Proof.
  intros Hb Hc. apply N.eqb_eq.
  apply (forall_below2 256 256 (fun b c =>
     N.lor (N.shiftl (N.land b 15) 2) (N.shiftr c 6) =? (b mod 16) * 4 + c / 64));
    [vm_compute; reflexivity | assumption | assumption].
Qed.

Lemma enc_s3 c : c < 256 -> N.land c 63 = c mod 64.
Proof. intros _. apply (N.land_ones c 6). Qed.

Lemma enc_t1 a : a < 256 -> N.shiftl (N.land a 3) 4 = (a mod 4) * 16.
Proof.
  intros _. rewrite N.shiftl_mul_pow2. change 3 with (N.ones 2).
  rewrite N.land_ones. reflexivity.
Qed.

Lemma enc_t2 b : b < 256 -> N.shiftl (N.land b 15) 2 = (b mod 16) * 4.
Proof.
  intros _. rewrite N.shiftl_mul_pow2. change 15 with (N.ones 4).
  rewrite N.land_ones. reflexivity.
Qed.

(** The bytes that [a2b_scan] rebuilds from the sextets of a group. *)
Lemma dec_b0 a b : a < 256 -> b < 256 ->
  (N.lor (N.shiftl (a / 4) 2) (N.shiftr ((a mod 4) * 16 + b / 16) 4)) mod 256 = a.
Proof.
  intros Ha Hb. apply N.eqb_eq.
  apply (forall_below2 256 256 (fun a b =>
    (N.lor (N.shiftl (a / 4) 2) (N.shiftr ((a mod 4) * 16 + b / 16) 4)) mod 256 =? a));
    [vm_compute; reflexivity | assumption | assumption].
Qed.

Lemma dec_b1 x b y : x < 4 -> b < 256 -> y < 4 ->
  (N.lor (N.shiftl (N.land (x * 16 + b / 16) 15) 4)
         (N.shiftr ((b mod 16) * 4 + y) 2)) mod 256 = b.
Proof.
  intros Hx Hb Hy. apply N.eqb_eq.
  apply (forall_below3 4 256 4 (fun x b y =>
    (N.lor (N.shiftl (N.land (x * 16 + b / 16) 15) 4)
           (N.shiftr ((b mod 16) * 4 + y) 2)) mod 256 =? b));
    [vm_compute; reflexivity | assumption ..].
Qed.

Lemma dec_b2 z c : z < 16 -> c < 256 ->
  (N.lor (N.shiftl (N.land (z * 4 + c / 64) 3) 6) (c mod 64)) mod 256 = c.
Proof.
  intros Hz Hc. apply N.eqb_eq.
  apply (forall_below2 16 256 (fun z c =>
    (N.lor (N.shiftl (N.land (z * 4 + c / 64) 3) 6) (c mod 64)) mod 256 =? c));
    [vm_compute; reflexivity | assumption ..].
Qed.

(** The sextets of [base64url_nopad]. *)
Lemma spec_s0 a b c : a < 256 -> b < 256 -> c < 256 ->
  ((a * 256 + b) * 256 + c) / 262144 = a / 4.
Proof.
  intros. zify. Z.to_euclidean_division_equations. lia.
Qed.
Lemma spec_s1 a b c : a < 256 -> b < 256 -> c < 256 ->
  (((a * 256 + b) * 256 + c) / 4096) mod 64 = (a mod 4) * 16 + b / 16.
Proof.
  intros. zify. Z.to_euclidean_division_equations. lia.
Qed.
Lemma spec_s2 a b c : a < 256 -> b < 256 -> c < 256 ->
  (((a * 256 + b) * 256 + c) / 64) mod 64 = (b mod 16) * 4 + c / 64.
Proof.
  intros. zify. Z.to_euclidean_division_equations. lia.
Qed.
Lemma spec_s3 a b c : a < 256 -> b < 256 -> c < 256 ->
  ((a * 256 + b) * 256 + c) mod 64 = c mod 64.
Proof.
  intros. zify. Z.to_euclidean_division_equations. lia.
Qed.

Lemma table_ok i : i < 64 -> table_check i = true.
Proof.
  apply (forall_below_spec 64 table_check). vm_compute. reflexivity.
Qed.

Lemma b2a_b2u i : i < 64 -> urlsafe_encode_translation (b2a i) = b2u i.
Proof.
  intros H. apply table_ok in H. unfold table_check in H.
  rewrite !andb_true_iff in H. destruct H as [[[H _] _] _].
  apply Byte.byte_dec_bl. exact H.
Qed.

Lemma a2b_b2u i : i < 64 -> a2b (urlsafe_decode_translation (b2u i)) = Some i.
Proof.
  intros H. apply table_ok in H. unfold table_check in H.
  rewrite !andb_true_iff in H. destruct H as [[[_ H] _] _].
  destruct (a2b _); [|discriminate]. apply N.eqb_eq in H. congruence.
Qed.

Lemma b2u_not_pad i : i < 64 ->
  Byte.eqb (urlsafe_decode_translation (b2u i)) BASE64_PAD = false.
Proof.
  intros H. apply table_ok in H. unfold table_check in H.
  rewrite !andb_true_iff in H. destruct H as [[_ H] _].
  apply negb_true_iff. exact H.
Qed.

Lemma b2u_url_char i : i < 64 -> url_char (b2u i) = true.
Proof.
  intros H. apply table_ok in H. unfold table_check in H.
  rewrite !andb_true_iff in H. tauto.
Qed.

Lemma byte_of_to_N b : byte_of (Byte.to_N b) = b.
Proof.
  unfold byte_of. rewrite N.mod_small by apply to_N_lt.
  rewrite Byte.of_to_N. reflexivity.
Qed.

Lemma list_ind3 {A} (P : list A -> Prop) :
  P [] -> (forall a, P [a]) -> (forall a b, P [a; b]) ->
  (forall a b c l, P l -> P (a :: b :: c :: l)) ->
  forall l, P l.
Proof.
  intros H0 H1 H2 H3.
  fix IH 1. intros [|a [|b [|c l]]];
    [apply H0 | apply H1 | apply H2 | apply H3, IH].
Qed.

Ltac bytes_bounds :=
  repeat match goal with
  | b : byte |- _ =>
      lazymatch goal with
      | H : Byte.to_N b < 256 |- _ => fail
      | _ => pose proof (to_N_lt b)
      end
  end.

Ltac euclid := zify; Z.to_euclidean_division_equations; lia.

Lemma spec1_s0 a : a < 256 -> (a * 16) / 64 = a / 4.
Proof. intros; euclid. Qed.
Lemma spec1_s1 a : a < 256 -> (a * 16) mod 64 = (a mod 4) * 16.
Proof. intros; euclid. Qed.
Lemma spec2_s0 a b : a < 256 -> b < 256 -> ((a * 256 + b) * 4) / 4096 = a / 4.
Proof. intros; euclid. Qed.
Lemma spec2_s1 a b : a < 256 -> b < 256 ->
  (((a * 256 + b) * 4) / 64) mod 64 = (a mod 4) * 16 + b / 16.
Proof. intros; euclid. Qed.
Lemma spec2_s2 a b : a < 256 -> b < 256 ->
  ((a * 256 + b) * 4) mod 64 = (b mod 16) * 4.
Proof. intros; euclid. Qed.

Lemma sextet_bounds a b c : a < 256 -> b < 256 -> c < 256 ->
  a / 4 < 64 /\ (a mod 4) * 16 + b / 16 < 64 /\ (b mod 16) * 4 + c / 64 < 64
  /\ c mod 64 < 64 /\ (a mod 4) * 16 < 64 /\ (b mod 16) * 4 < 64.
Proof. intros; repeat split; euclid. Qed.

Lemma pad_count_S3 n : pad_count (S (S (S n))) = pad_count n.
Proof.
  unfold pad_count. replace (S (S (S n))) with (n + 1 * 3)%nat by lia.
  rewrite Nat.Div0.mod_add. reflexivity.
Qed.

Lemma urlsafe_b64encode_nopad bs :
  urlsafe_b64encode bs =
  base64url_nopad bs ++ repeat BASE64_PAD (pad_count (List.length bs)).
Proof.
  unfold urlsafe_b64encode.
  induction bs as [|a|a b|a b c l IH] using list_ind3.
  - reflexivity.
  - bytes_bounds.
    destruct (sextet_bounds (Byte.to_N a) 0 0) as (?&?&?&?&?&?); try lia.
    cbn [b2a_base64 base64url_nopad map]. cbv zeta.
    rewrite enc_s0, enc_t1, spec1_s0, spec1_s1 by assumption.
    rewrite !b2a_b2u by assumption. reflexivity.
  - bytes_bounds.
    destruct (sextet_bounds (Byte.to_N a) (Byte.to_N b) 0) as (?&?&?&?&?&?); try lia.
    cbn [b2a_base64 base64url_nopad map]. cbv zeta.
    rewrite enc_s0, enc_s1, enc_t2, spec2_s0, spec2_s1, spec2_s2 by assumption.
    rewrite !b2a_b2u by assumption. reflexivity.
  - bytes_bounds.
    destruct (sextet_bounds (Byte.to_N a) (Byte.to_N b) (Byte.to_N c))
      as (?&?&?&?&?&?); try lia.
    cbn [b2a_base64 base64url_nopad map List.length]. cbv zeta.
    rewrite enc_s0, enc_s1, enc_s2, enc_s3 by assumption.
    rewrite spec_s0, spec_s1, spec_s2, spec_s3 by assumption.
    rewrite IH, pad_count_S3.
    rewrite !b2a_b2u by assumption. reflexivity.
Qed.

Lemma base64url_nopad_chars bs : Forall (fun c => url_char c = true) (base64url_nopad bs).
Proof.
  induction bs as [|a|a b|a b c l IH] using list_ind3.
  - constructor.
  - bytes_bounds.
    destruct (sextet_bounds (Byte.to_N a) 0 0) as (?&?&?&?&?&?); try lia.
    cbn [base64url_nopad]. cbv zeta. rewrite spec1_s0, spec1_s1 by assumption.
    repeat constructor; apply b2u_url_char; assumption.
  - bytes_bounds.
    destruct (sextet_bounds (Byte.to_N a) (Byte.to_N b) 0) as (?&?&?&?&?&?); try lia.
    cbn [base64url_nopad]. cbv zeta.
    rewrite spec2_s0, spec2_s1, spec2_s2 by assumption.
    repeat constructor; apply b2u_url_char; assumption.
  - bytes_bounds.
    destruct (sextet_bounds (Byte.to_N a) (Byte.to_N b) (Byte.to_N c))
      as (?&?&?&?&?&?); try lia.
    cbn [base64url_nopad]. cbv zeta.
    rewrite spec_s0, spec_s1, spec_s2, spec_s3 by assumption.
    repeat (constructor; [apply b2u_url_char; assumption|]). exact IH.
Qed.

Lemma base64url_nopad_length bs :
  List.length (base64url_nopad bs) = Nat.div (4 * List.length bs + 2) 3.
Proof.
  induction bs as [|a|a b|a b c l IH] using list_ind3; try reflexivity.
  cbn [base64url_nopad List.length]. cbv zeta. cbn [List.length]. rewrite IH.
  replace (4 * S (S (S (List.length l))) + 2)%nat
    with (4 * List.length l + 2 + 4 * 3)%nat by lia.
  rewrite Nat.div_add by lia. lia.
Qed.

(** Decoding what was encoded. *)
Lemma a2b_scan_pads k : a2b_scan (repeat BASE64_PAD k) 0 0 0 = Ok [].
Proof. induction k; [reflexivity| exact IHk]. Qed.

Lemma map_repeat_pad k :
  map urlsafe_decode_translation (repeat BASE64_PAD k) = repeat BASE64_PAD k.
Proof. induction k; [reflexivity | simpl; f_equal; exact IHk]. Qed.

Local Notation "'dch' i" := (urlsafe_decode_translation (b2u i)) (at level 10, i at level 9).

Lemma a2b_scan_q0 i s l p : i < 64 ->
  a2b_scan (dch i :: s) 0 l p = a2b_scan s 1 i 0.
Proof.
  intros Hi. cbn [a2b_scan]. rewrite b2u_not_pad, a2b_b2u by assumption. reflexivity.
Qed.

Lemma a2b_scan_q1 i s l p : i < 64 ->
  a2b_scan (dch i :: s) 1 l p =
  rbind (a2b_scan s 2 (N.land i 15) 0)
    (fun out => Ok (byte_of (N.lor (N.shiftl l 2) (N.shiftr i 4)) :: out)).
Proof.
  intros Hi. cbn [a2b_scan]. rewrite b2u_not_pad, a2b_b2u by assumption. reflexivity.
Qed.

Lemma a2b_scan_q2 i s l p : i < 64 ->
  a2b_scan (dch i :: s) 2 l p =
  rbind (a2b_scan s 3 (N.land i 3) 0)
    (fun out => Ok (byte_of (N.lor (N.shiftl l 4) (N.shiftr i 2)) :: out)).
Proof.
  intros Hi. cbn [a2b_scan]. rewrite b2u_not_pad, a2b_b2u by assumption. reflexivity.
Qed.

Lemma a2b_scan_q3 i s l p : i < 64 ->
  a2b_scan (dch i :: s) 3 l p =
  rbind (a2b_scan s 0 0 0)
    (fun out => Ok (byte_of (N.lor (N.shiftl l 6) i) :: out)).
Proof.
  intros Hi. cbn [a2b_scan]. rewrite b2u_not_pad, a2b_b2u by assumption. reflexivity.
Qed.

Lemma a2b_scan_pad2 k l : a2b_scan (repeat BASE64_PAD (S (S k))) 2 l 0 = Ok [].
Proof. reflexivity. Qed.

Lemma a2b_scan_pad3 k l : a2b_scan (repeat BASE64_PAD (S k)) 3 l 0 = Ok [].
Proof. reflexivity. Qed.

Lemma byte_of_mod n : byte_of (n mod 256) = byte_of n.
Proof. unfold byte_of. rewrite N.Div0.mod_mod. reflexivity. Qed.

Lemma dec_byte0 a b : a < 256 -> b < 256 ->
  byte_of (N.lor (N.shiftl (a / 4) 2) (N.shiftr ((a mod 4) * 16 + b / 16) 4))
  = byte_of a.
Proof. intros. rewrite <- byte_of_mod, dec_b0 by assumption. reflexivity. Qed.

Lemma dec_byte1 x b y : x < 4 -> b < 256 -> y < 4 ->
  byte_of (N.lor (N.shiftl (N.land (x * 16 + b / 16) 15) 4)
                 (N.shiftr ((b mod 16) * 4 + y) 2)) = byte_of b.
Proof. intros. rewrite <- byte_of_mod, dec_b1 by assumption. reflexivity. Qed.

Lemma dec_byte2 z c : z < 16 -> c < 256 ->
  byte_of (N.lor (N.shiftl (N.land (z * 4 + c / 64) 3) 6) (c mod 64)) = byte_of c.
Proof. intros. rewrite <- byte_of_mod, dec_b2 by assumption. reflexivity. Qed.

Lemma base64url_roundtrip bs k : (pad_count (List.length bs) <= k)%nat ->
  a2b_base64 (map urlsafe_decode_translation (base64url_nopad bs ++ repeat BASE64_PAD k))
  = Ok bs.
Proof.
  unfold a2b_base64. revert k.
  induction bs as [|a|a b|a b c l IH] using list_ind3; intros k Hk.
  - simpl. rewrite map_repeat_pad. apply a2b_scan_pads.
  - bytes_bounds.
    destruct (sextet_bounds (Byte.to_N a) 0 0) as (?&?&?&?&?&?); try lia.
    cbn [base64url_nopad]. cbv zeta. rewrite spec1_s0, spec1_s1 by assumption.
    cbn [app map]. rewrite a2b_scan_q0, a2b_scan_q1 by assumption.
    destruct k as [|[|k]]; [cbn in Hk; lia | cbn in Hk; lia |].
    rewrite map_repeat_pad, a2b_scan_pad2. cbn [rbind].
    replace ((Byte.to_N a mod 4) * 16) with ((Byte.to_N a mod 4) * 16 + 0 / 16)
      by (cbn; lia).
    rewrite dec_byte0 by (assumption || lia). rewrite byte_of_to_N. reflexivity.
  - bytes_bounds.
    destruct (sextet_bounds (Byte.to_N a) (Byte.to_N b) 0) as (?&?&?&?&?&?); try lia.
    cbn [base64url_nopad]. cbv zeta.
    rewrite spec2_s0, spec2_s1, spec2_s2 by assumption.
    cbn [app map]. rewrite a2b_scan_q0, a2b_scan_q1, a2b_scan_q2 by assumption.
    destruct k as [|k]; [cbn in Hk; lia |].
    rewrite map_repeat_pad, a2b_scan_pad3. cbn [rbind].
    rewrite dec_byte0 by assumption.
    replace ((Byte.to_N b mod 16) * 4) with ((Byte.to_N b mod 16) * 4 + 0) by lia.
    rewrite dec_byte1 by (assumption || lia || (apply N.mod_lt; lia)).
    rewrite !byte_of_to_N. reflexivity.
  - bytes_bounds.
    destruct (sextet_bounds (Byte.to_N a) (Byte.to_N b) (Byte.to_N c))
      as (?&?&?&?&?&?); try lia.
    cbn [base64url_nopad]. cbv zeta.
    rewrite spec_s0, spec_s1, spec_s2, spec_s3 by assumption.
    cbn [app map].
    rewrite a2b_scan_q0, a2b_scan_q1, a2b_scan_q2, a2b_scan_q3 by assumption.
    rewrite IH by (rewrite <- pad_count_S3; exact Hk).
    cbn [rbind].
    rewrite dec_byte0 by assumption.
    rewrite dec_byte1
      by (assumption || (apply N.mod_lt; lia) || (apply N.Div0.div_lt_upper_bound; lia)).
    rewrite dec_byte2 by (assumption || (apply N.mod_lt; lia)).
    rewrite !byte_of_to_N. reflexivity.
Qed.

(** Text and bytes. *)
Local Open Scope nat_scope.

Lemma string_of_list_byte_app l1 l2 :
  string_of_list_byte (l1 ++ l2) = (string_of_list_byte l1 ++ string_of_list_byte l2)%string.
Proof.
  induction l1 as [|a l1 IH]; [reflexivity|].
  change (String (ascii_of_byte a) (string_of_list_byte (l1 ++ l2)) =
          String (ascii_of_byte a) (string_of_list_byte l1 ++ string_of_list_byte l2)%string).
  rewrite IH. reflexivity.
Qed.

Lemma string_of_list_byte_length l :
  String.length (string_of_list_byte l) = List.length l.
Proof.
  induction l as [|a l IH]; [reflexivity|].
  change (S (String.length (string_of_list_byte l)) = S (List.length l)).
  rewrite IH. reflexivity.
Qed.

Lemma string_of_list_byte_repeat c k :
  string_of_list_byte (repeat c k) = repeat_char (ascii_of_byte c) k.
Proof.
  induction k as [|k IH]; [reflexivity|].
  change (String (ascii_of_byte c) (string_of_list_byte (repeat c k)) =
          String (ascii_of_byte c) (repeat_char (ascii_of_byte c) k)).
  rewrite IH. reflexivity.
Qed.

Lemma N_of_ascii_of_byte b : N_of_ascii (ascii_of_byte b) = Byte.to_N b.
Proof.
  rewrite ascii_of_byte_via_N. apply N_ascii_embedding. apply to_N_lt.
Qed.

Lemma list_byte_of_string_app s1 s2 :
  list_byte_of_string (s1 ++ s2) = list_byte_of_string s1 ++ list_byte_of_string s2.
Proof.
  induction s1 as [|c s1 IH]; [reflexivity|].
  change (byte_of_ascii c :: list_byte_of_string (s1 ++ s2) =
          byte_of_ascii c :: (list_byte_of_string s1 ++ list_byte_of_string s2)).
  rewrite IH. reflexivity.
Qed.

Lemma rstrip_repeat c k : rstrip c (repeat_char c k) = EmptyString.
Proof.
  induction k as [|k IH]; [reflexivity|].
  cbn [repeat_char rstrip]. rewrite IH, Ascii.eqb_refl. reflexivity.
Qed.

(** [rstrip] removes a run of [c] that follows text without [c]. *)
Lemma rstrip_app_repeat c l k :
  Forall (fun b => ascii_of_byte b <> c) l ->
  rstrip c (string_of_list_byte l ++ repeat_char c k) = string_of_list_byte l.
Proof.
  induction 1 as [|a l Ha Hl IH].
  - apply rstrip_repeat.
  - change (string_of_list_byte (a :: l))
      with (String (ascii_of_byte a) (string_of_list_byte l)).
    cbn [String.append rstrip]. rewrite IH.
    destruct (string_of_list_byte l); [|reflexivity].
    apply Ascii.eqb_neq in Ha. rewrite Ha. reflexivity.
Qed.

Lemma utf8_valid_ascii sp l : Forall (fun n => (n < 128)%N) l -> utf8_valid sp l = true.
Proof.
  induction 1 as [|n l Hn Hl IH]; [reflexivity|].
  cbn [utf8_valid]. apply N.ltb_lt in Hn. rewrite Hn. exact IH.
Qed.

Lemma url_char_ascii c : url_char c = true -> (Byte.to_N c < 128)%N.
Proof.
  unfold url_char, in_range. intros H.
  repeat rewrite orb_true_iff in H. repeat rewrite andb_true_iff in H.
  repeat rewrite N.leb_le in H. repeat rewrite N.eqb_eq in H. lia.
Qed.

Lemma url_char_neq c (x : ascii) : url_char c = true ->
  url_char (byte_of_ascii x) = false -> ascii_of_byte c <> x.
Proof.
  intros Hc Hx E. subst x. rewrite byte_of_ascii_of_byte in Hx. congruence.
Qed.

Lemma encoded_ascii bs :
  Forall (fun n => (n < 128)%N) (map Byte.to_N (urlsafe_b64encode bs)).
Proof.
  rewrite urlsafe_b64encode_nopad, map_app. apply Forall_app. split.
  - apply Forall_map. eapply Forall_impl; [|apply base64url_nopad_chars].
    intros c Hc. apply url_char_ascii. exact Hc.
  - apply Forall_map. apply Forall_forall. intros x Hx.
    apply repeat_spec in Hx. subst x. vm_compute. reflexivity.
Qed.

Lemma decode_encoded bs :
  decode (urlsafe_b64encode bs) = Ok (string_of_list_byte (urlsafe_b64encode bs)).
Proof.
  unfold decode. rewrite utf8_valid_ascii by apply encoded_ascii. reflexivity.
Qed.

Lemma rstrip_encoded bs :
  rstrip "=" (string_of_list_byte (urlsafe_b64encode bs))
  = string_of_list_byte (base64url_nopad bs).
Proof.
  rewrite urlsafe_b64encode_nopad, string_of_list_byte_app, string_of_list_byte_repeat.
  apply (rstrip_app_repeat "="%char).
  eapply Forall_impl; [|apply base64url_nopad_chars].
  intros c Hc. apply url_char_neq; [exact Hc | reflexivity].
Qed.

End Base64Facts.

(* ================================================================== *)
(** * Facts about the claims decoder and the PKCE pair *)
(* ================================================================== *)

Module DecoderFacts.
Import Base64 Rfc4648 Exhaust Base64Facts.

Lemma split_no_sep c s : no_char c s = true -> split c s = [s].
Proof.
  unfold no_char. induction s as [|a s IH]; [reflexivity|].
  cbn [all_chars split]. intros H. apply andb_true_iff in H. destruct H as [Ha Hs].
  apply negb_true_iff in Ha. rewrite Ha, (IH Hs). reflexivity.
Qed.

Lemma split_app c a b :
  no_char c a = true -> split c (a ++ String c b) = a :: split c b.
Proof.
  unfold no_char. induction a as [|x a IH].
  - intros _. cbn [String.append split]. rewrite Ascii.eqb_refl. reflexivity.
  - cbn [all_chars String.append split]. intros H.
    apply andb_true_iff in H. destruct H as [Hx Ha].
    apply negb_true_iff in Hx. rewrite Hx, (IH Ha). reflexivity.
Qed.

Lemma split_three c h p g :
  no_char c h = true -> no_char c p = true -> no_char c g = true ->
  split c (h ++ String c (p ++ String c g)) = [h; p; g].
Proof.
  intros Hh Hp Hg. rewrite split_app by assumption.
  rewrite split_app by assumption. rewrite split_no_sep by assumption.
  reflexivity.
Qed.

Lemma append_sep_nonempty h c r : String.eqb (h ++ String c r) "" = false.
Proof. destruct h; reflexivity. Qed.

Lemma len_ascii l :
  Forall (fun b => (Byte.to_N b < 128)%N) l ->
  len (string_of_list_byte l) = List.length l.
Proof.
  induction 1 as [|b l Hb Hl IH]; [reflexivity|].
  change (string_of_list_byte (b :: l))
    with (String (ascii_of_byte b) (string_of_list_byte l)).
  cbn [len List.length]. unfold is_continuation.
  rewrite N_of_ascii_of_byte.
  replace (128 <=? Byte.to_N b)%N with false by (symmetry; apply N.leb_gt; exact Hb).
  cbn [andb]. rewrite IH. reflexivity.
Qed.

Lemma nopad_ascii bs : Forall (fun b => (Byte.to_N b < 128)%N) (base64url_nopad bs).
Proof.
  eapply Forall_impl; [|apply base64url_nopad_chars].
  intros c Hc. apply url_char_ascii. exact Hc.
Qed.

(** The padding that line 292 adds is enough for the decoder. *)
Lemma padding_suffices bs :
  pad_count (List.length bs)
  <= 4 - Nat.modulo (List.length (base64url_nopad bs)) 4.
Proof.
  induction bs as [|a|a b|a b c l IH] using list_ind3.
  - cbn. lia.
  - cbn. lia.
  - cbn. lia.
  - cbn [List.length]. rewrite pad_count_S3.
    change (List.length (base64url_nopad (a :: b :: c :: l)))
      with (S (S (S (S (List.length (base64url_nopad l)))))).
    replace (S (S (S (S (List.length (base64url_nopad l))))))
      with (List.length (base64url_nopad l) + 1 * 4) by lia.
    rewrite Nat.Div0.mod_add. exact IH.
Qed.

Lemma nopad_no_dot bs : no_char "." (string_of_list_byte (base64url_nopad bs)) = true.
Proof.
  unfold no_char.
  pose proof (base64url_nopad_chars bs) as H.
  induction H as [|c l Hc Hl IH]; [reflexivity|].
  change (string_of_list_byte (c :: l))
    with (String (ascii_of_byte c) (string_of_list_byte l)).
  cbn [all_chars]. rewrite IH, andb_true_r.
  apply negb_true_iff. apply Ascii.eqb_neq.
  apply url_char_neq; [exact Hc | reflexivity].
Qed.

Lemma urlsafe_b64decode_nopad bs k :
  pad_count (List.length bs) <= k ->
  urlsafe_b64decode (string_of_list_byte (base64url_nopad bs) ++ repeat_char "=" k)
  = Ok bs.
Proof.
  intros Hk. unfold urlsafe_b64decode, encode_ascii.
  rewrite list_byte_of_string_app, list_byte_of_string_of_list_byte.
  replace (list_byte_of_string (repeat_char "=" k)) with (repeat BASE64_PAD k).
  2:{ rewrite <- (list_byte_of_string_of_list_byte (repeat BASE64_PAD k)).
      rewrite string_of_list_byte_repeat. reflexivity. }
  replace (forallb _ _) with true.
  - cbn [rbind]. apply base64url_roundtrip. exact Hk.
  - symmetry. apply forallb_forall. intros x Hx. apply N.ltb_lt.
    apply in_app_or in Hx. destruct Hx as [Hx|Hx].
    + pose proof (nopad_ascii bs) as H. rewrite Forall_forall in H. apply H, Hx.
    + apply repeat_spec in Hx. subst x. vm_compute. reflexivity.
Qed.

(** Bytes outside the alphabet are skipped by the scanner. *)
Lemma a2b_scan_skips c l1 l2 : a2b c = None -> Byte.eqb c BASE64_PAD = false ->
  forall q lc p, a2b_scan (l1 ++ c :: l2) q lc p = a2b_scan (l1 ++ l2) q lc p.
Proof.
  intros Hc Hp. induction l1 as [|x l1 IH]; intros q lc p.
  - cbn [app a2b_scan]. rewrite Hp, Hc. reflexivity.
  - change ((x :: l1) ++ c :: l2) with (x :: (l1 ++ c :: l2)).
    change ((x :: l1) ++ l2) with (x :: (l1 ++ l2)).
    cbn [a2b_scan].
    destruct (Byte.eqb x BASE64_PAD).
    + destruct (_ && _); [reflexivity | apply IH].
    + destruct (a2b x) as [v|]; [|apply IH].
      repeat (destruct (_ =? _)%N; [rewrite IH; reflexivity|]).
      rewrite IH; reflexivity.
Qed.

Section Decoder.
Variable json_loads : pyval -> Result pyval.
Local Notation "'parse'" := (parse_jwt_payload json_loads).

Lemma parse_total v : exists r, parse v = Ok r.
Proof.
  unfold parse_jwt_payload. destruct v; try (eexists; reflexivity).
  destruct (String.eqb s ""); [eexists; reflexivity|].
  destruct (negb _); [eexists; reflexivity|]. cbv zeta.
  destruct (rbind _ _); eexists; reflexivity.
Qed.

Lemma parse_not_three s :
  List.length (split "." s) <> 3 -> parse (PyStr s) = Ok (PyDict []).
Proof.
  intros H. unfold parse_jwt_payload.
  destruct (String.eqb s ""); [reflexivity|].
  apply Nat.eqb_neq in H. rewrite H. reflexivity.
Qed.

Lemma parse_three h p g :
  no_char "." h = true -> no_char "." p = true -> no_char "." g = true ->
  parse (PyStr (h ++ "." ++ p ++ "." ++ g)) =
  match urlsafe_b64decode (p ++ repeat_char "=" (4 - Nat.modulo (len p) 4)) with
  | Raise _ => Ok (PyDict [])
  | Ok decoded =>
      match json_loads (PyBytes decoded) with
      | Raise _ => Ok (PyDict [])
      | Ok claims => Ok claims
      end
  end.
Proof.
  intros Hh Hp Hg. unfold parse_jwt_payload.
  change (h ++ "." ++ p ++ "." ++ g)%string
    with (h ++ String "." (p ++ String "." g))%string.
  rewrite append_sep_nonempty, split_three by assumption.
  cbn [List.length Nat.eqb negb nth]. cbv zeta.
  destruct (urlsafe_b64decode _) as [decoded|e]; [|reflexivity].
  cbn [rbind try_except]. destruct (json_loads _); reflexivity.
Qed.

Lemma parse_encoded h g bs claims :
  no_char "." h = true -> no_char "." g = true ->
  json_loads (PyBytes bs) = Ok claims ->
  parse (PyStr (h ++ "." ++ string_of_list_byte (base64url_nopad bs) ++ "." ++ g))
  = Ok claims.
Proof.
  intros Hh Hg Hj. rewrite parse_three; [| assumption | apply nopad_no_dot | assumption].
  rewrite len_ascii by apply nopad_ascii.
  rewrite urlsafe_b64decode_nopad by apply padding_suffices.
  rewrite Hj. reflexivity.
Qed.
End Decoder.

Lemma rstrip_bytes_repeat c k : rstrip_bytes c (repeat c k) = [].
Proof.
  induction k as [|k IH]; [reflexivity|].
  cbn [repeat rstrip_bytes]. rewrite IH, Byte.byte_dec_lb; reflexivity.
Qed.

Lemma byte_eqb_neq a c : a <> c -> Byte.eqb a c = false.
Proof.
  intros H. destruct (Byte.eqb a c) eqn:E; [|reflexivity].
  apply Byte.byte_dec_bl in E. contradiction.
Qed.

Lemma rstrip_bytes_app_repeat c l k :
  Forall (fun b => b <> c) l -> rstrip_bytes c (l ++ repeat c k) = l.
Proof.
  induction 1 as [|a l Ha Hl IH]; [apply rstrip_bytes_repeat|].
  cbn [app rstrip_bytes]. rewrite IH.
  destruct l; [|reflexivity]. rewrite byte_eqb_neq by exact Ha. reflexivity.
Qed.

Lemma url_char_not_pad c : url_char c = true -> c <> BASE64_PAD.
Proof. intros H E. subst c. discriminate H. Qed.

Lemma token_urlsafe_ok tok : token_urlsafe tok = Ok (spec_verifier tok).
Proof.
  unfold token_urlsafe, decode_ascii.
  rewrite urlsafe_b64encode_nopad.
  rewrite (rstrip_bytes_app_repeat BASE64_PAD).
  - replace (forallb _ _) with true; [reflexivity|].
    symmetry. apply forallb_forall. intros x Hx. apply N.ltb_lt.
    pose proof (nopad_ascii tok) as H. rewrite Forall_forall in H. apply H, Hx.
  - eapply Forall_impl; [|apply base64url_nopad_chars].
    intros c Hc. apply url_char_not_pad. exact Hc.
Qed.

Lemma pkce_pair_spec tok :
  pkce_pair tok = Ok (spec_verifier tok, spec_challenge (spec_verifier tok)).
Proof.
  unfold pkce_pair, spec_challenge, spec_verifier.
  rewrite decode_encoded. cbn [rbind]. rewrite rstrip_encoded.
  unfold encode.
  rewrite decode_encoded. cbn [rbind]. rewrite rstrip_encoded. reflexivity.
Qed.

Lemma all_chars_unreserved l :
  Forall (fun c => url_char c = true) l ->
  all_chars unreserved (string_of_list_byte l) = true.
Proof.
  induction 1 as [|c l Hc Hl IH]; [reflexivity|].
  change (string_of_list_byte (c :: l))
    with (String (ascii_of_byte c) (string_of_list_byte l)).
  cbn [all_chars]. rewrite IH, andb_true_r.
  unfold unreserved. rewrite N_of_ascii_of_byte.
  unfold url_char in Hc.
  repeat rewrite orb_true_iff in Hc. repeat rewrite orb_true_iff. tauto.
Qed.

Lemma spec_verifier_length tok :
  String.length (spec_verifier tok) = Nat.div (4 * List.length tok + 2) 3.
Proof.
  unfold spec_verifier. rewrite string_of_list_byte_length.
  apply base64url_nopad_length.
Qed.

Lemma spec_verifier_inj t1 t2 :
  List.length t1 = List.length t2 -> spec_verifier t1 = spec_verifier t2 -> t1 = t2.
Proof.
  unfold spec_verifier. intros Hl H.
  apply (f_equal list_byte_of_string) in H.
  rewrite !list_byte_of_string_of_list_byte in H.
  pose proof (base64url_roundtrip t1 (pad_count (List.length t1)) (le_n _)) as R1.
  pose proof (base64url_roundtrip t2 (pad_count (List.length t2)) (le_n _)) as R2.
  rewrite H, Hl, R2 in R1. congruence.
Qed.

Section LoginFacts.
Variable G : Globals.

Lemma handle_login_spec tok state_tok w :
  handle_login G tok state_tok w =
  (Ok tt,
   mkWorld (mkServer (Some (spec_verifier tok))
                     (access_token (server w)) (id_token (server w)))
           (sent w)
           (out w ++
            [send_response 302;
             send_header "Location"
               (authorization_url G
                  (authorization_params G (spec_challenge (spec_verifier tok))
                                        (spec_verifier state_tok)));
             end_headers])).
Proof.
  unfold handle_login, bind, lift, set_code_verifier, modify_server, emit.
  rewrite pkce_pair_spec, token_urlsafe_ok. cbn [fst snd server sent out].
  rewrite <- !app_assoc. reflexivity.
Qed.
End LoginFacts.

End DecoderFacts.

(* ================================================================== *)
(** * Facts about the handlers *)
(* ================================================================== *)

Module HandlerFacts.
Import Base64 Rfc4648 Exhaust Base64Facts DecoderFacts.

Section Preserves.
Context {X : Type} (f : World -> X).

Lemma preserves_ret {A} (a : A) : preserves f (ret a).
Proof. intros w. reflexivity. Qed.

Lemma preserves_lift {A} (r : Result A) : preserves f (lift r).
Proof. intros w. reflexivity. Qed.

Lemma preserves_bind {A B} (m : M A) (k : A -> M B) :
  preserves f m -> (forall a, preserves f (k a)) -> preserves f (bind m k).
Proof.
  intros Hm Hk w. unfold bind. specialize (Hm w).
  destruct (m w) as [[a|e] w1]; cbn [snd] in *.
  - rewrite Hk. exact Hm.
  - exact Hm.
Qed.

Lemma preserves_try_catch {A} (m : M A) (h : exn -> M A) :
  preserves f m -> (forall e, preserves f (h e)) -> preserves f (try_catch m h).
Proof.
  intros Hm Hh w. unfold try_catch. specialize (Hm w).
  destruct (m w) as [[a|e] w1]; cbn [snd] in *.
  - exact Hm.
  - rewrite Hh. exact Hm.
Qed.

Lemma preserves_if {A} (b : bool) (m1 m2 : M A) :
  preserves f m1 -> preserves f m2 -> preserves f (if b then m1 else m2).
Proof. destruct b; auto. Qed.

Lemma preserves_first_value params key : preserves f (first_value params key).
Proof.
  unfold first_value. destruct (lookup key params) as [[|v l]|];
    first [apply preserves_ret | apply preserves_lift].
Qed.

Lemma preserves_get_code_verifier : preserves f get_code_verifier.
Proof. intros w. unfold get_code_verifier. destruct (code_verifier _); reflexivity. Qed.

Lemma preserves_get_access_token : preserves f get_access_token.
Proof. intros w. unfold get_access_token. destruct (access_token _); reflexivity. Qed.

Lemma preserves_hasattr : preserves f hasattr_access_token.
Proof. intros w. reflexivity. Qed.
End Preserves.

Ltac frame_step :=
  first
    [ apply preserves_bind; [|intro]
    | apply preserves_try_catch; [|intro]
    | apply preserves_if
    | apply preserves_ret
    | apply preserves_lift
    | apply preserves_first_value
    | apply preserves_get_code_verifier
    | apply preserves_get_access_token
    | apply preserves_hasattr
    | match goal with |- forall _, _ => intro end
    | (progress unfold do_send_error; apply preserves_if)
    | (progress unfold write_page; apply preserves_if)
    | (intros ?w; reflexivity) ].

Ltac frame := repeat frame_step.

Section CallbackFacts.
Variable json_loads : pyval -> Result pyval.
Variable urlopen : list UrlopenCall -> UrlopenCall -> Result (list byte).
Variable G : Globals.

Local Notation "'callback'" := (handle_callback json_loads urlopen G).
Local Notation "'exchange'" := (exchange_code_for_tokens json_loads urlopen G).
Local Notation "'render'" := (store_and_render json_loads).
Local Notation "'result_of'" := (exchange_result json_loads).
Local Notation "'failed' e" := (send_error 500 (TokenExchangeFailed e)) (at level 10).

Lemma exchange_spec c v w :
  code_verifier (server w) = Some v ->
  exchange c w =
  (result_of (urlopen (sent w) (the_call G c v)),
   mkWorld (server w) (sent w ++ [the_call G c v]) (out w)).
Proof.
  intros Hv.
  unfold exchange_code_for_tokens, exchange_result, bind, get_code_verifier,
    do_urlopen, lift, ret.
  rewrite Hv. cbn [server sent out].
  destruct (urlopen _ _) as [body|e]; [|reflexivity]. cbn [rbind].
  destruct (decode body) as [text|e]; [|reflexivity]. cbn [rbind].
  destruct (json_loads _) as [tokens|e]; [|reflexivity]. cbn [rbind].
  destruct (keys tokens) as [ks|e]; reflexivity.
Qed.

Lemma exchange_no_verifier c w :
  code_verifier (server w) = None ->
  exchange c w = (Raise (AttributeError "code_verifier"), w).
Proof.
  intros Hv. unfold exchange_code_for_tokens, bind, get_code_verifier.
  rewrite Hv. reflexivity.
Qed.

Lemma result_of_ok answer tokens :
  result_of answer = Ok tokens ->
  exists body text d,
    answer = Ok body /\ decode body = Ok text /\
    json_loads (PyStr text) = Ok tokens /\ tokens = PyDict d.
Proof.
  unfold exchange_result. destruct answer as [body|e]; [|discriminate].
  cbn [rbind]. destruct (decode body) as [text|e] eqn:Hd; [|discriminate].
  cbn [rbind]. destruct (json_loads (PyStr text)) as [t|e] eqn:Hj; [|discriminate].
  cbn [rbind]. destruct t; try discriminate.
  cbn [keys rbind]. intros H. injection H as H. subst tokens.
  exists body, text, d. repeat split; assumption.
Qed.

Lemma render_keeps_sent tokens : preserves sent (render tokens).
Proof. unfold store_and_render. frame. Qed.

Lemma render_keeps_verifier tokens :
  preserves (fun w => code_verifier (server w)) (render tokens).
Proof. unfold store_and_render. frame. Qed.

Lemma render_missing tokens e w :
  getitem tokens "access_token" = Raise e -> render tokens w = (Raise e, w).
Proof. intros H. unfold store_and_render, bind, lift. rewrite H. reflexivity. Qed.

Lemma render_token tokens w :
  access_token (server (snd (render tokens w))) =
  match getitem tokens "access_token" with
  | Ok tok => Some tok
  | Raise _ => access_token (server w)
  end.
Proof.
  unfold store_and_render. unfold bind at 1. unfold lift at 1.
  destruct (getitem tokens "access_token") as [tok|e]; [|reflexivity].
  unfold bind at 1. unfold set_access_token, modify_server.
  match goal with
  | |- access_token (server (snd (?m ?w1))) = _ =>
      let H := fresh in
      assert (H : preserves (fun w => access_token (server w)) m) by frame;
      rewrite (H w1)
  end.
  reflexivity.
Qed.

(** The shape of the handler once the request carries a code and no error. *)
Lemma callback_with_code params c rest w :
  contains "error" params = false ->
  lookup "code" params = Some (c :: rest) ->
  callback params w =
  try_catch (bind (exchange c) render) (fun e => emit (failed e)) w.
Proof.
  intros He Hc. unfold handle_callback. rewrite He.
  unfold contains, first_value. rewrite Hc. reflexivity.
Qed.

Lemma callback_sent params c rest v w :
  contains "error" params = false ->
  lookup "code" params = Some (c :: rest) ->
  code_verifier (server w) = Some v ->
  sent (snd (callback params w)) = sent w ++ [the_call G c v].
Proof.
  intros He Hc Hv. rewrite (callback_with_code _ _ _ _ He Hc).
  unfold try_catch, bind. rewrite (exchange_spec _ _ _ Hv).
  destruct (result_of _) as [tokens|e]; [|reflexivity].
  pose proof (render_keeps_sent tokens
    (mkWorld (server w) (sent w ++ [the_call G c v]) (out w))) as H.
  destruct (render tokens _) as [[u|e] w2]; cbn [snd sent] in *; exact H.
Qed.

Lemma callback_exchange_failed params c rest v w e :
  contains "error" params = false ->
  lookup "code" params = Some (c :: rest) ->
  code_verifier (server w) = Some v ->
  result_of (urlopen (sent w) (the_call G c v)) = Raise e ->
  callback params w =
  (Ok tt, mkWorld (server w) (sent w ++ [the_call G c v]) (out w ++ [failed e])).
Proof.
  intros He Hc Hv Hr. rewrite (callback_with_code _ _ _ _ He Hc).
  unfold try_catch, bind. rewrite (exchange_spec _ _ _ Hv), Hr. reflexivity.
Qed.

Lemma callback_token_missing params c rest v w tokens e :
  contains "error" params = false ->
  lookup "code" params = Some (c :: rest) ->
  code_verifier (server w) = Some v ->
  result_of (urlopen (sent w) (the_call G c v)) = Ok tokens ->
  getitem tokens "access_token" = Raise e ->
  callback params w =
  (Ok tt, mkWorld (server w) (sent w ++ [the_call G c v]) (out w ++ [failed e])).
Proof.
  intros He Hc Hv Hr Hg. rewrite (callback_with_code _ _ _ _ He Hc).
  unfold try_catch, bind. rewrite (exchange_spec _ _ _ Hv), Hr.
  rewrite (render_missing _ _ _ Hg). reflexivity.
Qed.

Lemma callback_rejected params w :
  contains "error" params = true \/ contains "code" params = false ->
  sent (snd (callback params w)) = sent w /\
  server (snd (callback params w)) = server w.
Proof.
  intros H. unfold handle_callback.
  destruct (contains "error" params) eqn:He.
  - split; [apply (preserves_bind sent) | apply (preserves_bind server)]; frame.
  - destruct H as [H|H]; [discriminate|]. rewrite H. split; reflexivity.
Qed.

Lemma callback_keeps_verifier params :
  preserves (fun w => code_verifier (server w)) (callback params).
Proof.
  unfold handle_callback.
  apply preserves_if; [frame|]. apply preserves_if; [frame|].
  apply preserves_bind; [frame|intro].
  apply preserves_try_catch; [|intro; frame].
  apply preserves_bind; [|intro; apply render_keeps_verifier].
  unfold exchange_code_for_tokens, do_urlopen. frame.
Qed.

(** Whatever the request, the handler adds at most one call, and a change
    of the stored access token comes from an answer of the endpoint. *)
Lemma callback_token params w :
  let w' := snd (callback params w) in
  (sent w' = sent w \/ exists c v, sent w' = sent w ++ [the_call G c v]) /\
  (access_token (server w') = access_token (server w) \/
   exists call tokens tok,
     sent w' = sent w ++ [call] /\
     result_of (urlopen (sent w) call) = Ok tokens /\
     getitem tokens "access_token" = Ok tok /\
     access_token (server w') = Some tok).
Proof.
  cbv zeta.
  destruct (contains "error" params) eqn:He.
  { destruct (callback_rejected params w (or_introl He)) as [Hs Hv].
    rewrite Hs, Hv. split; left; reflexivity. }
  destruct (contains "code" params) eqn:Hc.
  2:{ destruct (callback_rejected params w (or_intror Hc)) as [Hs Hv].
      rewrite Hs, Hv. split; left; reflexivity. }
  unfold contains in Hc. destruct (lookup "code" params) as [[|c rest]|] eqn:Hl;
    try discriminate.
  { unfold handle_callback. rewrite He.
    unfold contains, first_value. rewrite Hl. cbn.
    split; left; reflexivity. }
  rewrite (callback_with_code _ _ _ _ He Hl).
  unfold try_catch, bind.
  destruct (code_verifier (server w)) as [v|] eqn:Hv.
  2:{ rewrite (exchange_no_verifier _ _ Hv). cbn. split; left; reflexivity. }
  rewrite (exchange_spec _ _ _ Hv).
  destruct (result_of _) as [tokens|e] eqn:Hr.
  2:{ cbn. split; [right; exists c, v; reflexivity | left; reflexivity]. }
  set (w1 := mkWorld (server w) (sent w ++ [the_call G c v]) (out w)).
  pose proof (render_keeps_sent tokens w1) as Hsent.
  pose proof (render_token tokens w1) as Htok.
  assert (Hfin : forall r w2,
            sent (snd (match r with
                       | Ok a => (Ok a, w2)
                       | Raise e => emit (failed e) w2
                       end)) = sent w2 /\
            server (snd (match r with
                       | Ok a => (Ok a, w2)
                       | Raise e => emit (failed e) w2
                       end)) = server w2).
  { intros [a|e] w2; split; reflexivity. }
  destruct (render tokens w1) as [r w2] eqn:Hrender.
  destruct (Hfin r w2) as [Hs2 Hv2].
  cbn [snd] in Hsent, Htok.
  match goal with
  | |- (sent ?W = _ \/ _) /\ _ => change W with
      (snd (match r with Ok a => (Ok a, w2) | Raise e => emit (failed e) w2 end))
  end.
  rewrite Hs2, Hv2, Hsent. subst w1. cbn [sent server] in *.
  split; [right; exists c, v; reflexivity|].
  destruct (getitem tokens "access_token") as [tok|e] eqn:Hg.
  - right. exists (the_call G c v), tokens, tok. repeat split; assumption.
  - left. exact Htok.
Qed.
End CallbackFacts.

Section ServeFacts.
Variable json_loads : pyval -> Result pyval.
Variable urlopen : list UrlopenCall -> UrlopenCall -> Result (list byte).
Variable G : Globals.

Local Notation "'callback'" := (handle_callback json_loads urlopen G).
Local Notation "'result_of'" := (exchange_result json_loads).
Local Notation "'get'" := (do_GET json_loads urlopen G).
Local Notation "'run'" := (serve json_loads urlopen G).
Local Notation "'backed'" := (token_backed json_loads urlopen).
Local Notation "'step_ok'" := (step_ok json_loads urlopen G).

Lemma quiet_step {A} (m : M A) w :
  preserves (fun w => (sent w, access_token (server w))) m ->
  step_ok w (snd (m w)).
Proof.
  intros H. specialize (H w). injection H as Hs Ht.
  split; left; assumption.
Qed.

Lemma callback_step params w : step_ok w (snd (callback params w)).
Proof.
  destruct (callback_token json_loads urlopen G params w) as [Hs Ht].
  split; assumption.
Qed.

Lemma do_GET_step r w : step_ok w (snd (get r w)).
Proof.
  unfold do_GET.
  destruct (String.prefix "/callback" (path r)); [apply callback_step|].
  destruct (String.eqb (path r) "/").
  { apply quiet_step. unfold handle_home. frame. }
  destruct (String.eqb (path r) "/login").
  { apply quiet_step. unfold handle_login. frame. }
  destruct (String.prefix "/api/protected" (path r)).
  { apply quiet_step. unfold handle_protected_api. frame. }
  apply quiet_step. frame.
Qed.

Lemma step_backed w w' : step_ok w w' -> backed w -> backed w'.
Proof.
  intros [Hs Ht] Hb tok Htok.
  destruct Ht as [Ht | (call & tokens & tok' & Hsent & Hres & Hget & Hnew)].
  - rewrite Ht in Htok.
    destruct (Hb tok Htok) as (before & call & after & body & text & d & H1 & H2).
    destruct Hs as [Hs | (c & v & Hs)].
    + exists before, call, after, body, text, d. rewrite Hs. split; assumption.
    + exists before, call, (after ++ [the_call G c v]), body, text, d.
      rewrite Hs, H1, <- app_assoc. split; [reflexivity | assumption].
  - rewrite Hnew in Htok. injection Htok as <-.
    destruct (result_of_ok json_loads _ _ Hres) as (body & text & d & Ha & Hd & Hj & ->).
    exists (sent w), call, [], body, text, d.
    repeat split; try assumption.
    unfold getitem in Hget. destruct (lookup "access_token" d); congruence.
Qed.

Lemma serve_backed rs : forall w, backed w -> backed (run w rs).
Proof.
  induction rs as [|r rs IH]; intros w Hw; [exact Hw|].
  cbn [serve fold_left]. apply IH. eapply step_backed; [apply do_GET_step | exact Hw].
Qed.

Lemma initial_backed : backed initial_world.
Proof. intros tok H. discriminate H. Qed.

Lemma step_no_timeout w w' :
  step_ok w w' -> Forall (fun c => timeout c = None) (sent w) ->
  Forall (fun c => timeout c = None) (sent w').
Proof.
  intros [[Hs | (c & v & Hs)] _] H; rewrite Hs; [exact H|].
  apply Forall_app. split; [exact H|]. repeat constructor.
Qed.

Lemma serve_no_timeout rs : forall w,
  Forall (fun c => timeout c = None) (sent w) ->
  Forall (fun c => timeout c = None) (sent (run w rs)).
Proof.
  induction rs as [|r rs IH]; intros w Hw; [exact Hw|].
  cbn [serve fold_left]. apply IH. eapply step_no_timeout; [apply do_GET_step | exact Hw].
Qed.

Lemma serve_cons r rs w : run w (r :: rs) = run (snd (get r w)) rs.
Proof. reflexivity. Qed.

Lemma serve_repeat_callback r c rest v n : forall w,
  String.prefix "/callback" (path r) = true ->
  contains "error" (query_params r) = false ->
  lookup "code" (query_params r) = Some (c :: rest) ->
  code_verifier (server w) = Some v ->
  sent (run w (repeat r n)) = sent w ++ repeat (the_call G c v) n /\
  code_verifier (server (run w (repeat r n))) = Some v.
Proof.
  induction n as [|n IH]; intros w Hp He Hc Hv.
  - cbn. rewrite app_nil_r. split; [reflexivity | exact Hv].
  - cbn [repeat]. rewrite serve_cons.
    assert (Hstep : get r w = callback (query_params r) w)
      by (unfold do_GET; rewrite Hp; reflexivity).
    rewrite Hstep.
    pose proof (callback_sent json_loads urlopen G _ _ _ _ w He Hc Hv) as Hs.
    pose proof (callback_keeps_verifier json_loads urlopen G (query_params r) w) as Hk.
    cbn beta in Hk. rewrite Hv in Hk.
    destruct (IH (snd (callback (query_params r) w)) Hp He Hc Hk) as [IH1 IH2].
    split; [|exact IH2].
    rewrite IH1, Hs, <- app_assoc. reflexivity.
Qed.
End ServeFacts.

End HandlerFacts.
(* ================================================================== *)
(** * Facts about the wire texts, the decoder and whole runs *)
(* ================================================================== *)

Import Base64 Rfc4648 Wire Exhaust Base64Facts DecoderFacts HandlerFacts Examples Runs.

Module WireFacts.

Lemma append_assoc (a b c : string) : ((a ++ b) ++ c = a ++ (b ++ c))%string.
Proof. induction a as [|x a IH]; [reflexivity|]. cbn. rewrite IH. reflexivity. Qed.

Lemma url_char_data c : url_char c = true ->
  (exists v, a2b (urlsafe_decode_translation c) = Some v)
  /\ Byte.eqb (urlsafe_decode_translation c) BASE64_PAD = false
  /\ UrlParse.always_safe (Byte.to_N c) = true.
Proof.
  intros Hc.
  assert (H : data_check (Byte.to_N c) = true).
  { apply (forall_below_spec 256 data_check); [vm_compute; reflexivity | apply to_N_lt]. }
  unfold data_check in H. rewrite byte_of_to_N, Hc in H. cbn [negb orb] in H.
  rewrite !andb_true_iff in H. destruct H as [[Ha Hp] Hs].
  split; [|split].
  - destruct (a2b _) as [v|]; [exists v; reflexivity | discriminate].
  - apply negb_true_iff. exact Hp.
  - exact Hs.
Qed.

(** [quote_plus] leaves base64url text as it is. *)
Lemma quote_plus_url_chars l :
  Forall (fun c => url_char c = true) l ->
  UrlParse.quote_plus (string_of_list_byte l) = string_of_list_byte l.
Proof.
  induction 1 as [|c l Hc Hl IH]; [reflexivity|].
  change (string_of_list_byte (c :: l))
    with (String (ascii_of_byte c) (string_of_list_byte l)).
  cbn [UrlParse.quote_plus]. rewrite N_of_ascii_of_byte.
  destruct (url_char_data c Hc) as (_ & _ & Hs). rewrite Hs, IH. reflexivity.
Qed.

Lemma quote_plus_verifier tok : UrlParse.quote_plus (spec_verifier tok) = spec_verifier tok.
Proof. apply quote_plus_url_chars, base64url_nopad_chars. Qed.

Lemma quote_plus_challenge v : UrlParse.quote_plus (spec_challenge v) = spec_challenge v.
Proof. apply quote_plus_url_chars, base64url_nopad_chars. Qed.

Lemma all_chars_app p a b :
  all_chars p (a ++ b) = all_chars p a && all_chars p b.
Proof.
  induction a as [|x a IH]; [reflexivity|].
  cbn [String.append all_chars]. rewrite IH, andb_assoc. reflexivity.
Qed.

Lemma quote_plus_cons c s :
  UrlParse.quote_plus (String c s)
  = (UrlParse.quote_plus (String c EmptyString) ++ UrlParse.quote_plus s)%string.
Proof.
  cbn [UrlParse.quote_plus].
  destruct (UrlParse.always_safe _); [reflexivity|].
  destruct (N.eqb _ 32); reflexivity.
Qed.

(** [quote_plus] produces unreserved characters, [+] and [%] only. *)
Lemma quote_plus_chars s : all_chars urlencoded_char (UrlParse.quote_plus s) = true.
Proof.
  induction s as [|c s IH]; [reflexivity|].
  rewrite quote_plus_cons, all_chars_app, IH, andb_true_r.
  rewrite <- (ascii_N_embedding c).
  apply (forall_below_spec 256 quote_check); [vm_compute; reflexivity|].
  apply N_ascii_bounded.
Qed.

Lemma all_chars_impl (p q : ascii -> bool) s :
  (forall c, p c = true -> q c = true) -> all_chars p s = true -> all_chars q s = true.
Proof.
  intros Hpq. induction s as [|c s IH]; [reflexivity|].
  cbn [all_chars]. intros H. apply andb_true_iff in H. destruct H as [Hc Hs].
  rewrite (Hpq c Hc), (IH Hs). reflexivity.
Qed.

Lemma urlencoded_char_plain c x :
  urlencoded_char x = false -> urlencoded_char c = true -> negb (Ascii.eqb c x) = true.
Proof.
  intros Hx Hc. apply negb_true_iff. apply Ascii.eqb_neq. intros ->. congruence.
Qed.

Lemma sha256_length m : List.length (Sha256.sha256 m) = 32.
Proof.
  unfold Sha256.sha256. rewrite length_map. reflexivity.
Qed.

End WireFacts.

Import WireFacts.

Module SegmentFacts.

(** The unpadded text and its padding fill whole quads. *)
Lemma pad_count_quad bs :
  Nat.modulo (List.length (base64url_nopad bs) + pad_count (List.length bs)) 4 = 0
  /\ pad_count (List.length bs) <= 2.
Proof.
  rewrite base64url_nopad_length. unfold pad_count.
  pose proof (Nat.mod_upper_bound (List.length bs) 3 ltac:(lia)) as Hb.
  pose proof (Nat.div_mod_eq (List.length bs) 3) as Hn.
  generalize dependent (List.length bs). intros n Hb Hn.
  set (q := Nat.div n 3) in *.
  destruct (Nat.modulo n 3) as [|[|[|r]]] eqn:E; try lia;
    cbv beta iota; (split; [|lia]).
  - replace (4 * n + 2) with (2 + 4 * q * 3) by lia.
    rewrite Nat.div_add by lia. cbn [Nat.div Nat.divmod fst].
    replace (0 + 4 * q + 0) with (0 + q * 4) by lia.
    rewrite Nat.Div0.mod_add. reflexivity.
  - replace (4 * n + 2) with (0 + (4 * q + 2) * 3) by lia.
    rewrite Nat.div_add by lia. cbn [Nat.div Nat.divmod fst].
    replace (0 + (4 * q + 2) + 2) with (0 + (q + 1) * 4) by lia.
    rewrite Nat.Div0.mod_add. reflexivity.
  - replace (4 * n + 2) with (1 + (4 * q + 3) * 3) by lia.
    rewrite Nat.div_add by lia. cbn [Nat.div Nat.divmod fst].
    replace (0 + (4 * q + 3) + 1) with (0 + (q + 1) * 4) by lia.
    rewrite Nat.Div0.mod_add. reflexivity.
Qed.

(** Whatever number of pad characters the segment has already, the ones
    that line 292 adds make the padding complete. *)
Lemma padding_total bs m :
  pad_count (List.length bs)
  <= m + (4 - Nat.modulo (List.length (base64url_nopad bs) + m) 4).
Proof.
  destruct (pad_count_quad bs) as [Hq Hp].
  set (L := List.length (base64url_nopad bs)) in *.
  set (p := pad_count (List.length bs)) in *.
  clearbody L p.
  pose proof (Nat.mod_upper_bound (L + m) 4 ltac:(lia)) as Hu.
  destruct (Nat.le_gt_cases p m) as [Hm|Hm]; [lia|].
  pose proof (Nat.div_mod_eq (L + p) 4) as D. rewrite Hq in D.
  pose proof (Nat.div_mod_eq (L + m) 4) as D2.
  lia.
Qed.

Lemma repeat_char_add c a b :
  (repeat_char c a ++ repeat_char c b)%string = repeat_char c (a + b).
Proof. induction a as [|a IH]; [reflexivity|]. cbn. rewrite IH. reflexivity. Qed.

Lemma no_char_repeat c x k : Ascii.eqb x c = false -> no_char c (repeat_char x k) = true.
Proof.
  intros H. unfold no_char. induction k as [|k IH]; [reflexivity|].
  cbn [repeat_char all_chars]. rewrite H, IH. reflexivity.
Qed.

Lemma chars_no_dot l :
  Forall (fun c => url_char c = true) l -> no_char "." (string_of_list_byte l) = true.
Proof.
  unfold no_char. induction 1 as [|c l Hc Hl IH]; [reflexivity|].
  change (string_of_list_byte (c :: l))
    with (String (ascii_of_byte c) (string_of_list_byte l)).
  cbn [all_chars]. rewrite IH, andb_true_r.
  apply negb_true_iff. apply Ascii.eqb_neq.
  apply url_char_neq; [exact Hc | reflexivity].
Qed.

(** A scan that meets only pad characters at position 1 of a quad fails. *)
Lemma a2b_scan_pad1 k lc p :
  exists e, a2b_scan (repeat BASE64_PAD k) 1 lc p = Raise e.
Proof.
  revert p. induction k as [|k IH]; intros p; [eexists; reflexivity|].
  cbn [repeat a2b_scan].
  change (Byte.eqb BASE64_PAD BASE64_PAD) with true.
  change (2 <=? 1)%N with false. cbn [andb].
  apply IH.
Qed.

(** Data characters whose count leaves the scan at position 1 make it
    fail, whatever padding follows. *)
Lemma a2b_scan_one_over l k : forall q lc,
  Forall (fun c => url_char c = true) l ->
  (q < 4)%N ->
  Nat.modulo (N.to_nat q + List.length l) 4 = 1 ->
  exists e,
    a2b_scan (map urlsafe_decode_translation l ++ repeat BASE64_PAD k) q lc 0 = Raise e.
Proof.
  induction l as [|c l IH]; intros q lc Hl Hq Hm.
  - cbn [map app]. cbn [List.length] in Hm. rewrite Nat.add_0_r in Hm.
    rewrite Nat.mod_small in Hm by lia.
    replace q with 1%N by lia. apply a2b_scan_pad1.
  - inversion Hl as [|c' l' Hc Hl']; subst.
    destruct (url_char_data c Hc) as ([v Hv] & Hp & _).
    cbn [map app a2b_scan]. rewrite Hp, Hv.
    cbn [List.length] in Hm.
    assert (Hcase : q = 0%N \/ q = 1%N \/ q = 2%N \/ q = 3%N) by lia.
    destruct Hcase as [-> | [-> | [-> | ->]]]; cbn [N.eqb Pos.eqb].
    + apply IH; [exact Hl' | lia |].
      replace (N.to_nat 1 + List.length l) with (N.to_nat 0 + S (List.length l)) by lia.
      exact Hm.
    + destruct (IH 2%N (N.land v 15) Hl' ltac:(lia)) as [e He].
      { replace (N.to_nat 2 + List.length l) with (N.to_nat 1 + S (List.length l)) by lia.
        exact Hm. }
      rewrite He. eexists; reflexivity.
    + destruct (IH 3%N (N.land v 3) Hl' ltac:(lia)) as [e He].
      { replace (N.to_nat 3 + List.length l) with (N.to_nat 2 + S (List.length l)) by lia.
        exact Hm. }
      rewrite He. eexists; reflexivity.
    + destruct (IH 0%N 0%N Hl' ltac:(lia)) as [e He].
      { replace (N.to_nat 3 + S (List.length l))
          with (N.to_nat 0 + List.length l + 1 * 4) in Hm by lia.
        rewrite Nat.Div0.mod_add in Hm. exact Hm. }
      rewrite He. eexists; reflexivity.
Qed.

Lemma list_byte_of_repeat_pad k :
  list_byte_of_string (repeat_char "=" k) = repeat BASE64_PAD k.
Proof.
  rewrite <- (list_byte_of_string_of_list_byte (repeat BASE64_PAD k)).
  rewrite string_of_list_byte_repeat. reflexivity.
Qed.

Lemma map_translation_pad k :
  map urlsafe_decode_translation (repeat BASE64_PAD k) = repeat BASE64_PAD k.
Proof. induction k as [|k IH]; [reflexivity|]. cbn [repeat map]. rewrite IH. reflexivity. Qed.

Lemma decode_one_over l k :
  Forall (fun c => url_char c = true) l ->
  Nat.modulo (List.length l) 4 = 1 ->
  exists e, urlsafe_b64decode (string_of_list_byte l ++ repeat_char "=" k) = Raise e.
Proof.
  intros Hl Hm. unfold urlsafe_b64decode, encode_ascii.
  rewrite list_byte_of_string_app, list_byte_of_string_of_list_byte, list_byte_of_repeat_pad.
  destruct (forallb _ _); [|eexists; reflexivity].
  cbn [rbind]. unfold a2b_base64. rewrite map_app, map_translation_pad.
  apply a2b_scan_one_over; [exact Hl | lia | exact Hm].
Qed.

Lemma decode_not_ascii p k :
  forallb (fun b => (Byte.to_N b <? 128)%N) (list_byte_of_string p) = false ->
  urlsafe_b64decode (p ++ repeat_char "=" k) = Raise (ValueError "ascii").
Proof.
  intros H. unfold urlsafe_b64decode, encode_ascii.
  rewrite list_byte_of_string_app, forallb_app, H. reflexivity.
Qed.

End SegmentFacts.

Import SegmentFacts.

Module PathFacts.
Lemma prefix_nil q : String.prefix "" q = true.
Proof. destruct q; reflexivity. Qed.

Lemma prefix_app p q : String.prefix p (p ++ q) = true.
Proof.
  induction p as [|a p IH]; [apply prefix_nil|].
  cbn [String.append String.prefix].
  destruct (ascii_dec a a) as [_|N]; [exact IH | contradiction].
Qed.
End PathFacts.

Import PathFacts.

Module CallbackPaths.

Section Paths.
Variable json_loads : pyval -> Result pyval.
Variable urlopen : list UrlopenCall -> UrlopenCall -> Result (list byte).
Variable G : Globals.

Local Notation "'callback'" := (handle_callback json_loads urlopen G).
Local Notation "'render'" := (store_and_render json_loads).
Local Notation "'result_of'" := (exchange_result json_loads).
Local Notation "'failed' e" := (send_error 500 (TokenExchangeFailed e)) (at level 10).

Lemma write_page_spec p w :
  write_page p w =
  if page_encodable p
  then (Ok tt, mkWorld (server w) (sent w) (out w ++ [wfile_write p]))
  else (Raise (UnicodeEncodeError "utf-8"), w).
Proof. unfold write_page. destruct (page_encodable p); reflexivity. Qed.

(** What the [try] block does with an object that carries a token: it
    stores both tokens and sends the head of the page before it slices
    the tokens for the page and encodes the page. *)
Lemma render_object d tok w :
  lookup "access_token" d = Some tok ->
  exists user_info,
    parse_jwt_payload json_loads (id_token_or (PyStr "") d) = Ok user_info /\
    render (PyDict d) w =
    let w1 := mkWorld (mkServer (code_verifier (server w)) (Some tok)
                                (Some (id_token_or (PyStr "") d)))
                      (sent w) (out w ++ page_head 200) in
    match slice 100 tok with
    | Raise e => (Raise e, w1)
    | Ok a100 =>
        match slice 100 (id_token_or (PyStr "Not provided") d) with
        | Raise e => (Raise e, w1)
        | Ok i100 => write_page (SuccessPage a100 i100 user_info) w1
        end
    end.
Proof.
  intros Ht.
  destruct (parse_total json_loads (id_token_or (PyStr "") d)) as [u Hu].
  exists u. split; [exact Hu|].
  unfold store_and_render, bind, lift, getitem, get, set_access_token, set_id_token,
    modify_server, emit, id_token_or in *.
  rewrite Ht. cbn [server sent out code_verifier access_token id_token rbind].
  destruct (lookup "id_token" d) as [idt|];
    rewrite Hu; cbn [server sent out rbind page_head];
    rewrite <- !app_assoc; cbn [app];
    destruct (slice 100 tok) as [a100|e]; try reflexivity;
    cbn [rbind];
    match goal with |- context [slice 100 ?x] => destruct (slice 100 x) end;
    reflexivity.
Qed.

Lemma result_of_object body text d :
  decode body = Ok text -> json_loads (PyStr text) = Ok (PyDict d) ->
  result_of (Ok body) = Ok (PyDict d).
Proof.
  intros Hd Hj. unfold exchange_result. cbn [rbind]. rewrite Hd. cbn [rbind].
  rewrite Hj. reflexivity.
Qed.

(** The handler with a code, a stored verifier and an object for answer. *)
Lemma callback_object params c rest v w body text d :
  contains "error" params = false ->
  lookup "code" params = Some (c :: rest) ->
  code_verifier (server w) = Some v ->
  urlopen (sent w) (the_call G c v) = Ok body ->
  decode body = Ok text ->
  json_loads (PyStr text) = Ok (PyDict d) ->
  callback params w =
  try_catch (render (PyDict d)) (fun e => emit (failed e))
    (mkWorld (server w) (sent w ++ [the_call G c v]) (out w)).
Proof.
  intros He Hc Hv Hu Hd Hj.
  rewrite (callback_with_code json_loads urlopen G _ _ _ _ He Hc).
  unfold try_catch, bind.
  rewrite (exchange_spec json_loads urlopen G _ _ _ Hv), Hu.
  rewrite (result_of_object _ _ _ Hd Hj). reflexivity.
Qed.

(** The handler with a code, a stored verifier and an object that
    carries a token, in full: the tokens are stored, the head of the 200
    answer is sent, and then comes the page or the error. *)
Lemma callback_stores params c rest v w body text d tok :
  contains "error" params = false ->
  lookup "code" params = Some (c :: rest) ->
  code_verifier (server w) = Some v ->
  urlopen (sent w) (the_call G c v) = Ok body ->
  decode body = Ok text ->
  json_loads (PyStr text) = Ok (PyDict d) ->
  lookup "access_token" d = Some tok ->
  exists user_info,
    parse_jwt_payload json_loads (id_token_or (PyStr "") d) = Ok user_info /\
    callback params w =
    (Ok tt,
     mkWorld (mkServer (Some v) (Some tok) (Some (id_token_or (PyStr "") d)))
             (sent w ++ [the_call G c v])
             (out w ++ page_head 200
                ++ [page_or_error tok (id_token_or (PyStr "Not provided") d) user_info])).
Proof.
  intros He Hc Hv Hu Hd Hj Ht.
  rewrite (callback_object _ _ _ _ _ _ _ _ He Hc Hv Hu Hd Hj).
  destruct (render_object d tok
              (mkWorld (server w) (sent w ++ [the_call G c v]) (out w)) Ht)
    as (u & Hu' & Hr).
  exists u. split; [exact Hu'|].
  unfold try_catch. rewrite Hr. cbv zeta. unfold page_or_error.
  cbn [server sent out]. rewrite Hv.
  destruct (slice 100 tok) as [a100|e].
  - destruct (slice 100 _) as [i100|e].
    + rewrite write_page_spec.
      destruct (page_encodable _); cbn [server sent out];
        unfold do_send_error, emit; cbn [message_latin1 server sent out];
        rewrite <- app_assoc; reflexivity.
    + unfold do_send_error, emit. cbn [message_latin1 server sent out].
      rewrite <- app_assoc. reflexivity.
  - unfold do_send_error, emit. cbn [message_latin1 server sent out].
    rewrite <- app_assoc. reflexivity.
Qed.

(** Every key that is looked up has a first value. *)
Lemma has_values_lookup (params : list (string * list string)) key l :
  has_values params = true -> lookup key params = Some l -> l <> [].
Proof.
  unfold has_values. induction params as [|[k x] params IH]; [discriminate|].
  cbn [forallb lookup snd]. intros H Hl.
  apply andb_true_iff in H. destruct H as [Hx Hp].
  destruct (String.eqb key k).
  - injection Hl as <-. destruct x; [discriminate | discriminate].
  - exact (IH Hp Hl).
Qed.
End Paths.
End CallbackPaths.

Import CallbackPaths.

Module RunFacts.
Section Runs.
Variable json_loads : pyval -> Result pyval.
Variable urlopen : list UrlopenCall -> UrlopenCall -> Result (list byte).
Variable G : Globals.

Local Notation "'callback'" := (handle_callback json_loads urlopen G).
Local Notation "'render'" := (store_and_render json_loads).
Local Notation "'result_of'" := (exchange_result json_loads).
Local Notation "'route'" := (do_GET json_loads urlopen G).
Local Notation "'run'" := (serve json_loads urlopen G).

(** The server object after a callback: as before, or with the two
    tokens of the answer. *)
Lemma callback_server params w :
  server (snd (callback params w)) = server w \/
  exists tok idt,
    server (snd (callback params w))
    = mkServer (code_verifier (server w)) (Some tok) (Some idt).
Proof.
  destruct (contains "error" params) eqn:He.
  { left. exact (proj2 (callback_rejected json_loads urlopen G params w (or_introl He))). }
  destruct (contains "code" params) eqn:Hc.
  2:{ left. exact (proj2 (callback_rejected json_loads urlopen G params w (or_intror Hc))). }
  unfold contains in Hc. destruct (lookup "code" params) as [[|c rest]|] eqn:Hl;
    try discriminate.
  { left. unfold handle_callback. rewrite He.
    unfold contains, first_value. rewrite Hl. reflexivity. }
  rewrite (callback_with_code json_loads urlopen G _ _ _ _ He Hl).
  unfold try_catch, bind.
  destruct (code_verifier (server w)) as [v|] eqn:Hv.
  2:{ left. rewrite (exchange_no_verifier json_loads urlopen G _ _ Hv). reflexivity. }
  rewrite (exchange_spec json_loads urlopen G _ _ _ Hv).
  destruct (result_of _) as [tokens|e] eqn:Hr; [|left; reflexivity].
  destruct (result_of_ok json_loads _ _ Hr) as (body & text & d & _ & _ & _ & ->).
  set (w1 := mkWorld (server w) (sent w ++ [the_call G c v]) (out w)).
  destruct (lookup "access_token" d) as [tok|] eqn:Ht.
  - right. exists tok, (id_token_or (PyStr "") d).
    destruct (render_object json_loads d tok w1 Ht) as (u & _ & Hrender).
    rewrite Hrender. cbv zeta.
    destruct (slice 100 tok); [|subst w1; cbn; rewrite Hv; reflexivity].
    destruct (slice 100 _); [|subst w1; cbn; rewrite Hv; reflexivity].
    rewrite write_page_spec.
    destruct (page_encodable _); subst w1; cbn; rewrite Hv; reflexivity.
  - left. rewrite (render_missing json_loads (PyDict d) (KeyError "access_token") w1);
      [reflexivity|].
    unfold getitem. rewrite Ht. reflexivity.
Qed.

(** The server object after any request. *)
Lemma route_server r w :
  server (snd (route r w)) = server w
  \/ (exists tok idt,
        server (snd (route r w))
        = mkServer (code_verifier (server w)) (Some tok) (Some idt))
  \/ (exists v,
        server (snd (route r w))
        = mkServer (Some v) (access_token (server w)) (id_token (server w))).
Proof.
  unfold do_GET.
  destruct (String.prefix "/callback" (path r)).
  { destruct (callback_server (query_params r) w) as [H|H]; [left|right; left]; exact H. }
  destruct (String.eqb (path r) "/").
  { left. assert (Hp : preserves server handle_home) by (unfold handle_home; frame).
    exact (Hp w). }
  destruct (String.eqb (path r) "/login").
  { right. right. rewrite handle_login_spec. eexists. reflexivity. }
  destruct (String.prefix "/api/protected" (path r)).
  { left.
    assert (Hp : preserves server (handle_protected_api (request_headers r)))
      by (unfold handle_protected_api; frame).
    exact (Hp w). }
  left. reflexivity.
Qed.

Lemma run_cons r rs w : run w (r :: rs) = run (snd (route r w)) rs.
Proof. reflexivity. Qed.

Lemma run_keeps_token rs : forall w,
  access_token (server w) <> None -> access_token (server (run w rs)) <> None.
Proof.
  induction rs as [|r rs IH]; intros w H; [exact H|].
  rewrite run_cons. apply IH.
  destruct (route_server r w) as [E | [(tok & idt & E) | (v & E)]]; rewrite E.
  - exact H.
  - discriminate.
  - exact H.
Qed.

Lemma run_keeps_verifier rs : forall w,
  code_verifier (server w) <> None -> code_verifier (server (run w rs)) <> None.
Proof.
  induction rs as [|r rs IH]; intros w H; [exact H|].
  rewrite run_cons. apply IH.
  destruct (route_server r w) as [E | [(tok & idt & E) | (v & E)]]; rewrite E.
  - exact H.
  - exact H.
  - discriminate.
Qed.

Lemma run_tokens_paired rs : forall w,
  (access_token (server w) = None <-> id_token (server w) = None) ->
  (access_token (server (run w rs)) = None <-> id_token (server (run w rs)) = None).
Proof.
  induction rs as [|r rs IH]; intros w H; [exact H|].
  rewrite run_cons. apply IH.
  destruct (route_server r w) as [E | [(tok & idt & E) | (v & E)]]; rewrite E.
  - exact H.
  - cbn. split; discriminate.
  - exact H.
Qed.

Lemma quiet_route r w :
  is_callback r = false ->
  sent (snd (route r w)) = sent w
  /\ access_token (server (snd (route r w))) = access_token (server w)
  /\ id_token (server (snd (route r w))) = id_token (server w).
Proof.
  unfold is_callback, do_GET. intros ->.
  assert (H : forall (m : M unit),
            preserves (fun w => (sent w, access_token (server w), id_token (server w))) m ->
            sent (snd (m w)) = sent w
            /\ access_token (server (snd (m w))) = access_token (server w)
            /\ id_token (server (snd (m w))) = id_token (server w)).
  { intros m Hm. specialize (Hm w). injection Hm as H1 H2 H3. auto. }
  destruct (String.eqb (path r) "/"); [apply H; unfold handle_home; frame|].
  destruct (String.eqb (path r) "/login"); [apply H; unfold handle_login; frame|].
  destruct (String.prefix "/api/protected" (path r));
    [apply H; unfold handle_protected_api; frame|].
  apply H. frame.
Qed.

Lemma run_calls_bounded rs : forall w,
  List.length (sent (run w rs)) <= List.length (sent w) + count_callbacks rs.
Proof.
  induction rs as [|r rs IH]; intros w.
  - cbn. lia.
  - rewrite run_cons. specialize (IH (snd (route r w))).
    unfold count_callbacks in *. cbn [filter].
    destruct (is_callback r) eqn:Hr.
    + destruct (do_GET_step json_loads urlopen G r w) as [[Hs | (c & v & Hs)] _];
        rewrite Hs in IH; try rewrite length_app in IH; cbn [List.length] in *; lia.
    + destruct (quiet_route r w Hr) as (Hs & _). rewrite Hs in IH. lia.
Qed.
End Runs.
End RunFacts.

Import RunFacts.

Module AnswerFacts.

Lemma home_spec w :
  handle_home w =
  match access_token (server w) with
  | None =>
      (Ok tt, mkWorld (server w) (sent w)
                (out w ++ page_head 200 ++ [wfile_write (HomePage None)]))
  | Some tok =>
      match slice 50 tok with
      | Ok t50 =>
          if formats_to_utf8 t50
          then (Ok tt, mkWorld (server w) (sent w)
                         (out w ++ page_head 200 ++ [wfile_write (HomePage (Some t50))]))
          else (Raise (UnicodeEncodeError "utf-8"),
                mkWorld (server w) (sent w) (out w ++ page_head 200))
      | Raise e => (Raise e, mkWorld (server w) (sent w) (out w ++ page_head 200))
      end
  end.
Proof.
  unfold handle_home, bind, emit, hasattr_access_token, get_access_token, lift, page_head.
  cbn [server sent out].
  destruct (access_token (server w)) as [tok|] eqn:Ht.
  - cbn [server sent out]. rewrite Ht.
    destruct (slice 50 tok) as [t50|e]; cbn [server sent out].
    + rewrite write_page_spec. cbn [page_encodable server sent out].
      destruct (formats_to_utf8 t50); rewrite <- !app_assoc; reflexivity.
    + rewrite <- !app_assoc. reflexivity.
  - cbn [server sent out]. rewrite write_page_spec. cbn [page_encodable server sent out].
    rewrite <- !app_assoc. reflexivity.
Qed.

Lemma protected_spec hdrs w :
  handle_protected_api hdrs w =
  match access_token (server w) with
  | None =>
      (Ok tt, mkWorld (server w) (sent w)
                (out w ++ page_head 401 ++ [wfile_write UnauthorizedPage]))
  | Some tok =>
      if formats_to_utf8 tok
      then (Ok tt, mkWorld (server w) (sent w)
                     (out w ++ page_head 200 ++ [wfile_write (ProtectedPage tok)]))
      else (Raise (UnicodeEncodeError "utf-8"),
            mkWorld (server w) (sent w) (out w ++ page_head 200))
  end.
Proof.
  unfold handle_protected_api, bind, emit, hasattr_access_token, get_access_token, page_head.
  destruct (access_token (server w)) as [tok|] eqn:Ht;
    cbn [negb server sent out]; try rewrite Ht; cbn [server sent out];
    rewrite write_page_spec; cbn [page_encodable server sent out];
    try destruct (formats_to_utf8 tok);
    rewrite <- !app_assoc; reflexivity.
Qed.

Section Answers.
Variable json_loads : pyval -> Result pyval.
Variable urlopen : list UrlopenCall -> UrlopenCall -> Result (list byte).
Variable G : Globals.

Local Notation "'callback'" := (handle_callback json_loads urlopen G).
Local Notation "'route'" := (do_GET json_loads urlopen G).
Local Notation "'run'" := (serve json_loads urlopen G).

Lemma answered_emit w o code :
  status_of o = Some code -> In code [200; 302; 400; 401; 404; 500]%Z ->
  answered w (snd (emit o w)).
Proof. intros Hs Hc. exists o, [], code. repeat split; assumption. Qed.

Lemma answered_head w w' code rest :
  out w' = out w ++ page_head code ++ rest ->
  In code [200; 302; 400; 401; 404; 500]%Z ->
  answered w w'.
Proof.
  intros Ho Hc. exists (send_response code), (tl (page_head code) ++ rest), code.
  split; [exact Ho|]. split; [reflexivity | exact Hc].
Qed.

(** The answer to a callback with an [error] parameter. *)
Lemma callback_error params e rest w :
  lookup "error" params = Some (e :: rest) ->
  callback params w =
  if latin1_encodable e
  then (Ok tt, mkWorld (server w) (sent w) (out w ++ [send_error 400 (OAuthError e)]))
  else (Raise (UnicodeEncodeError "latin-1"), w).
Proof.
  intros He. unfold handle_callback, contains, first_value. rewrite He.
  unfold bind, ret, do_send_error. cbn [message_latin1].
  destruct (latin1_encodable e); reflexivity.
Qed.

Lemma callback_answered params w :
  has_values params = true -> error_latin1 params = true ->
  answered w (snd (callback params w)).
Proof.
  intros Hp Hlat.
  destruct (lookup "error" params) as [le|] eqn:Hle.
  { pose proof (has_values_lookup _ _ _ Hp Hle) as Hn.
    destruct le as [|e le]; [contradiction|].
    rewrite (callback_error _ _ _ _ Hle).
    unfold error_latin1 in Hlat. rewrite Hle in Hlat. rewrite Hlat.
    exists (send_error 400 (OAuthError e)), [], 400%Z.
    split; [reflexivity|]. split; [reflexivity | cbn; auto 10]. }
  assert (He : contains "error" params = false) by (unfold contains; rewrite Hle; reflexivity).
  destruct (lookup "code" params) as [lc|] eqn:Hc.
  2:{ unfold handle_callback. rewrite He. unfold contains. rewrite Hc.
      cbn [negb]. eapply answered_emit; [reflexivity | cbn; auto 10]. }
  pose proof (has_values_lookup _ _ _ Hp Hc) as Hn.
  destruct lc as [|c rest]; [contradiction|].
  rewrite (callback_with_code json_loads urlopen G _ _ _ _ He Hc).
  unfold try_catch, bind.
  destruct (code_verifier (server w)) as [v|] eqn:Hv.
  2:{ rewrite (exchange_no_verifier json_loads urlopen G _ _ Hv).
      eapply answered_emit; [reflexivity | cbn; auto 10]. }
  rewrite (exchange_spec json_loads urlopen G _ _ _ Hv).
  set (w1 := mkWorld (server w) (sent w ++ [the_call G c v]) (out w)).
  assert (H1 : forall w', answered w1 w' -> answered w w').
  { intros w' H. exact H. }
  destruct (exchange_result json_loads _) as [tokens|e] eqn:Hr.
  2:{ apply H1. eapply answered_emit; [reflexivity | cbn; auto 10]. }
  destruct (result_of_ok json_loads _ _ Hr) as (body & text & d & _ & _ & _ & ->).
  destruct (lookup "access_token" d) as [tok|] eqn:Ht.
  - destruct (render_object json_loads d tok w1 Ht) as (u & _ & Hrender).
    rewrite Hrender. cbv zeta.
    assert (Hfail : forall e,
              answered w
                (snd (do_send_error 500 (TokenExchangeFailed e)
                        (mkWorld (mkServer (code_verifier (server w1)) (Some tok)
                                    (Some (id_token_or (PyStr "") d)))
                           (sent w1) (out w1 ++ page_head 200))))).
    { intros e.
      apply (answered_head _ _ 200%Z [send_error 500 (TokenExchangeFailed e)]);
        [|cbn; auto].
      cbn [snd out w1 emit do_send_error message_latin1]. rewrite <- app_assoc.
      reflexivity. }
    destruct (slice 100 tok) as [a100|e]; [|apply Hfail].
    destruct (slice 100 _) as [i100|e]; [|apply Hfail].
    rewrite write_page_spec. destruct (page_encodable _); [|apply Hfail].
    apply (answered_head _ _ 200%Z [wfile_write (SuccessPage a100 i100 u)]);
      [|cbn; auto].
    cbn [snd out w1]. rewrite <- app_assoc. reflexivity.
  - rewrite (render_missing json_loads (PyDict d) (KeyError "access_token") w1).
    + apply H1. eapply answered_emit; [reflexivity | cbn; auto 10].
    + unfold getitem. rewrite Ht. reflexivity.
Qed.

Lemma route_answered r w :
  has_values (query_params r) = true -> error_latin1 (query_params r) = true ->
  answered w (snd (route r w)).
Proof.
  intros Hp Hlat. unfold do_GET.
  destruct (String.prefix "/callback" (path r)); [apply callback_answered; assumption|].
  destruct (String.eqb (path r) "/").
  { rewrite home_spec. destruct (access_token (server w)) as [tok|].
    - destruct (slice 50 tok) as [t50|e].
      + destruct (formats_to_utf8 t50).
        * apply (answered_head _ _ 200%Z [wfile_write (HomePage (Some t50))]);
            [reflexivity | cbn; auto].
        * apply (answered_head _ _ 200%Z []); [|cbn; auto].
          cbn [snd out]. rewrite app_nil_r. reflexivity.
      + apply (answered_head _ _ 200%Z []); [|cbn; auto].
        cbn [snd out]. rewrite app_nil_r. reflexivity.
    - apply (answered_head _ _ 200%Z [wfile_write (HomePage None)]);
        [reflexivity | cbn; auto]. }
  destruct (String.eqb (path r) "/login").
  { rewrite handle_login_spec. eexists _, _, 302%Z.
    split; [reflexivity|]. split; [reflexivity | cbn; auto]. }
  destruct (String.prefix "/api/protected" (path r)).
  { rewrite protected_spec. destruct (access_token (server w)) as [tok|].
    - destruct (formats_to_utf8 tok).
      + apply (answered_head _ _ 200%Z [wfile_write (ProtectedPage tok)]);
          [reflexivity | cbn; auto].
      + apply (answered_head _ _ 200%Z []); [|cbn; auto].
        cbn [snd out]. rewrite app_nil_r. reflexivity.
    - apply (answered_head _ _ 401%Z [wfile_write UnauthorizedPage]);
        [reflexivity | cbn; auto 10]. }
  eapply answered_emit; [reflexivity | cbn; auto 10].
Qed.

Lemma run_quiet rs : forall w,
  no_callback rs = true ->
  sent (run w rs) = sent w
  /\ access_token (server (run w rs)) = access_token (server w)
  /\ id_token (server (run w rs)) = id_token (server w).
Proof.
  unfold no_callback.
  induction rs as [|r rs IH]; intros w H; [repeat split|].
  cbn [forallb] in H. apply andb_true_iff in H. destruct H as [Hr Hrs].
  apply negb_true_iff in Hr.
  rewrite run_cons.
  destruct (IH (snd (route r w)) Hrs) as (I1 & I2 & I3).
  destruct (quiet_route json_loads urlopen G r w Hr) as (Q1 & Q2 & Q3).
  rewrite I1, I2, I3. repeat split; assumption.
Qed.

End Answers.
End AnswerFacts.

Import AnswerFacts.

Module FieldFacts.

Lemma split_concat c pieces :
  pieces <> [] -> Forall (fun p => no_char c p = true) pieces ->
  split c (String.concat (String c "") pieces) = pieces.
Proof.
  intros Hne H. induction H as [|p l Hp Hl IH]; [contradiction|].
  destruct l as [|q l].
  - cbn [String.concat]. apply split_no_sep. exact Hp.
  - change (String.concat (String c "") (p :: q :: l))
      with (p ++ String c (String.concat (String c "") (q :: l)))%string.
    rewrite split_app by exact Hp. rewrite IH by discriminate. reflexivity.
Qed.

Lemma before_after_sep a b :
  no_char "=" a = true ->
  before_char "=" (a ++ String "=" b) = a /\ after_char "=" (a ++ String "=" b) = b.
Proof.
  unfold no_char. induction a as [|x a IH]; [intros _; split; reflexivity|].
  cbn [all_chars String.append before_char after_char]. intros H.
  apply andb_true_iff in H. destruct H as [Hx Ha]. apply negb_true_iff in Hx.
  rewrite Hx. destruct (IH Ha) as [I1 I2]. rewrite I1, I2. split; reflexivity.
Qed.

Lemma before_after a b :
  no_char "=" a = true ->
  before_char "=" (a ++ "=" ++ b) = a /\ after_char "=" (a ++ "=" ++ b) = b.
Proof. exact (before_after_sep a b). Qed.

(** What [quote_plus] returns has none of the characters that it
    encodes. *)
Lemma quote_plus_no_char x s :
  urlencoded_char x = false -> no_char x (UrlParse.quote_plus s) = true.
Proof.
  intros Hx. unfold no_char.
  apply (all_chars_impl urlencoded_char); [|apply quote_plus_chars].
  intros c Hc. exact (urlencoded_char_plain c x Hx Hc).
Qed.

(** Reading back what [urlencode] wrote gives the quoted names and
    values, in their order. *)
Lemma fields_urlencode params :
  params <> [] ->
  fields (UrlParse.urlencode params)
  = map (fun kv => (UrlParse.quote_plus (fst kv), UrlParse.quote_plus (snd kv))) params.
Proof.
  intros Hne. unfold fields, UrlParse.urlencode.
  rewrite split_concat.
  - rewrite map_map. apply map_ext. intros [k v]. cbn [fst snd].
    destruct (before_after (UrlParse.quote_plus k) (UrlParse.quote_plus v)) as [H1 H2];
      [apply quote_plus_no_char; reflexivity|].
    rewrite H1, H2. reflexivity.
  - destruct params; [contradiction | discriminate].
  - apply Forall_forall. intros p Hp. apply in_map_iff in Hp.
    destruct Hp as ([k v] & <- & _). cbn [fst snd].
    unfold no_char. rewrite !all_chars_app.
    pose proof (quote_plus_no_char "&" k eq_refl) as Hk.
    pose proof (quote_plus_no_char "&" v eq_refl) as Hv.
    unfold no_char in Hk, Hv. rewrite Hk, Hv. reflexivity.
Qed.

Section Texts.
Variable G : Globals.

(** The URL that [handle_login] builds, as text. *)
Lemma authorization_text challenge state :
  authorization_url G (authorization_params G challenge state)
  = ("https://" ++ AUTH0_DOMAIN G ++ "/authorize?"
     ++ authorization_query (UrlParse.quote_plus (CLIENT_ID G))
          (UrlParse.quote_plus (REDIRECT_URI G)) (UrlParse.quote_plus (SCOPE G))
          (UrlParse.quote_plus challenge) (UrlParse.quote_plus state))%string.
Proof.
  unfold authorization_url, authorization_params, UrlParse.urlencode, authorization_query.
  cbn [map fst snd String.concat].
  repeat rewrite append_assoc. reflexivity.
Qed.

Lemma authorization_fields challenge state :
  fields (authorization_query (UrlParse.quote_plus (CLIENT_ID G))
            (UrlParse.quote_plus (REDIRECT_URI G)) (UrlParse.quote_plus (SCOPE G))
            (UrlParse.quote_plus challenge) (UrlParse.quote_plus state))
  = [("response_type", "code");
     ("client_id", UrlParse.quote_plus (CLIENT_ID G));
     ("redirect_uri", UrlParse.quote_plus (REDIRECT_URI G));
     ("scope", UrlParse.quote_plus (SCOPE G));
     ("code_challenge", UrlParse.quote_plus challenge);
     ("code_challenge_method", "S256");
     ("state", UrlParse.quote_plus state)].
Proof.
  transitivity (fields (UrlParse.urlencode (authorization_params G challenge state))).
  - reflexivity.
  - rewrite fields_urlencode by discriminate. reflexivity.
Qed.

(** The body that [exchange_code_for_tokens] posts, as text. *)
Lemma token_request_text code verifier :
  the_call G code verifier
  = mkCall
      (mkRequest ("https://" ++ AUTH0_DOMAIN G ++ "/oauth/token")
         (list_byte_of_string
            (token_request_body (UrlParse.quote_plus (CLIENT_ID G))
               (UrlParse.quote_plus code) (UrlParse.quote_plus (REDIRECT_URI G))
               (UrlParse.quote_plus verifier)))
         [("Content-Type", "application/x-www-form-urlencoded")])
      None.
Proof.
  unfold the_call, exchange_request, exchange_data, UrlParse.urlencode, encode,
    token_request_body.
  cbn [map fst snd String.concat].
  repeat rewrite append_assoc. reflexivity.
Qed.

Lemma token_request_fields code verifier :
  fields (token_request_body (UrlParse.quote_plus (CLIENT_ID G))
            (UrlParse.quote_plus code) (UrlParse.quote_plus (REDIRECT_URI G))
            (UrlParse.quote_plus verifier))
  = [("grant_type", "authorization_code");
     ("client_id", UrlParse.quote_plus (CLIENT_ID G));
     ("code", UrlParse.quote_plus code);
     ("redirect_uri", UrlParse.quote_plus (REDIRECT_URI G));
     ("code_verifier", UrlParse.quote_plus verifier)].
Proof.
  transitivity (fields (UrlParse.urlencode (exchange_data G code verifier))).
  - reflexivity.
  - rewrite fields_urlencode by discriminate. reflexivity.
Qed.

End Texts.
End FieldFacts.

Import FieldFacts.

(* ================================================================== *)
(** * Properties of the flow *)
(* ================================================================== *)




(** C2, as stated, fails: the same callback delivered twice makes two
    calls to the token endpoint. *)
Lemma C2_duplicate_callback_exchanges_again :
  ~ (forall n, 1 <= n ->
       List.length
         (sent (serve Json.loads endpoint_grants module_globals logged_in
                  (repeat callback_request n))) = 1).
Proof.
  intros H. specialize (H 2 (le_S _ _ (le_n 1))).
  vm_compute in H. discriminate H.
Qed.

(** C2, amended: codes are not tracked; every delivery of a callback that
    carries a code and no error makes one more call to the token endpoint,
    so [n] deliveries of the same callback make [n] calls, each with the
    same code and the stored verifier. *)
Theorem C2_each_delivery_exchanges
  (json_loads : pyval -> Result pyval)
  (urlopen : list UrlopenCall -> UrlopenCall -> Result (list byte))
  (G : Globals) (r : GetRequest) (c : string) (rest : list string)
  (v : string) (n : nat) (w : World) :
  String.prefix "/callback" (path r) = true ->
  contains "error" (query_params r) = false ->
  lookup "code" (query_params r) = Some (c :: rest) ->
  code_verifier (server w) = Some v ->
  sent (serve json_loads urlopen G w (repeat r n))
  = sent w ++ repeat (the_call G c v) n.
Proof.
  intros Hp He Hc Hv.
  exact (proj1 (serve_repeat_callback json_loads urlopen G r c rest v n w Hp He Hc Hv)).
Qed.

Lemma C2_each_delivery_exchanges_witness :
  sent (serve Json.loads endpoint_grants module_globals logged_in
          (repeat callback_request 3))
  = sent logged_in ++ repeat (the_call module_globals "ABC" (spec_verifier draw_a)) 3.
Proof.
  apply (C2_each_delivery_exchanges Json.loads endpoint_grants module_globals
           callback_request "ABC" [] (spec_verifier draw_a) 3 logged_in);
    reflexivity.
Defined.



(** C4: for 32 random bytes the verifier of [handle_login] is their
    unpadded base64url encoding, 43 characters long and made of unreserved
    characters, and the challenge is the unpadded base64url encoding of
    the SHA-256 digest of the verifier; the login stores this verifier and
    sends this challenge. *)
Theorem C4_pkce_pair (tok : list byte) (H : List.length tok = 32) :
  exists verifier challenge,
    pkce_pair tok = Ok (verifier, challenge)
    /\ verifier = spec_verifier tok
    /\ len verifier = 43
    /\ 43 <= len verifier <= 128
    /\ all_chars unreserved verifier = true
    /\ challenge = spec_challenge verifier
    /\ forall G state_tok w,
         code_verifier (server (snd (handle_login G tok state_tok w))) = Some verifier
         /\ exists state,
              out (snd (handle_login G tok state_tok w)) =
              out w ++ [send_response 302;
                        send_header "Location"
                          (authorization_url G (authorization_params G challenge state));
                        end_headers].
Proof.
  exists (spec_verifier tok), (spec_challenge (spec_verifier tok)).
  assert (Hlen : len (spec_verifier tok) = 43).
  { unfold spec_verifier. rewrite len_ascii by apply nopad_ascii.
    rewrite base64url_nopad_length, H. reflexivity. }
  split; [apply pkce_pair_spec|]. split; [reflexivity|].
  split; [exact Hlen|]. split; [rewrite Hlen; lia|].
  split; [apply all_chars_unreserved, base64url_nopad_chars|].
  split; [reflexivity|].
  intros G state_tok w. rewrite handle_login_spec. cbn [snd server code_verifier out].
  split; [reflexivity|]. eexists. reflexivity.
Qed.

Lemma C4_pkce_pair_witness :
  exists verifier challenge,
    pkce_pair draw_a = Ok (verifier, challenge) /\ len verifier = 43.
Proof.
  destruct (C4_pkce_pair draw_a eq_refl) as (v & c & Hp & _ & Hl & _).
  exists v, c. split; assumption.
Defined.




(** C6, as stated, fails: a middle segment with a character outside the
    base64url alphabet is not valid base64url, yet the decoder skips the
    character and returns the mapping of the object. *)
Lemma C6_stray_character_is_skipped :
  parse_jwt_payload Json.loads (PyStr token_with_stray_char)
    = Ok (PyDict [("sub", PyStr "u1")])
  /\ ~ (forall h p g,
         no_char "." h = true -> no_char "." p = true -> no_char "." g = true ->
         all_chars base64url_or_pad p = false ->
         parse_jwt_payload Json.loads (PyStr (h ++ "." ++ p ++ "." ++ g))
         = Ok (PyDict [])).
Proof.
  split; [vm_compute; reflexivity|].
  intros H.
  specialize (H "h" "eyJzdWIiOiJ1MSJ9!" "s" eq_refl eq_refl eq_refl eq_refl).
  vm_compute in H. discriminate H.
Qed.

(** C6, amended: the decoder never raises; it returns the empty mapping
    for a token that does not split into three segments at the dots.  For
    three segments it appends 4 - (len mod 4) pad characters to the middle
    one.  A middle segment with a character outside ASCII gives the empty
    mapping.  Otherwise [-] and [_] are translated to [+] and [/] and the
    segment goes to a decoder that skips every byte that is neither a
    character of the base64 alphabet nor the pad character, instead of
    rejecting it; the result is the empty mapping when that decoder or
    [json.loads] raises and the value of [json.loads] otherwise; so the
    unpadded base64url encoding of a JSON text gives the value of that
    text. *)
Theorem C6_claims_decoder (json_loads : pyval -> Result pyval) :
  (forall v, exists r, parse_jwt_payload json_loads v = Ok r)
  /\ (forall s, List.length (split "." s) <> 3 ->
        parse_jwt_payload json_loads (PyStr s) = Ok (PyDict []))
  /\ parse_jwt_payload json_loads (PyStr "") = Ok (PyDict [])
  /\ parse_jwt_payload json_loads (PyStr "a.b") = Ok (PyDict [])
  /\ (forall h p g,
        no_char "." h = true -> no_char "." p = true -> no_char "." g = true ->
        parse_jwt_payload json_loads (PyStr (h ++ "." ++ p ++ "." ++ g)) =
        match urlsafe_b64decode (p ++ repeat_char "=" (4 - Nat.modulo (len p) 4)) with
        | Raise _ => Ok (PyDict [])
        | Ok decoded =>
            match json_loads (PyBytes decoded) with
            | Raise _ => Ok (PyDict [])
            | Ok claims => Ok claims
            end
        end)
  /\ (forall h p g,
        no_char "." h = true -> no_char "." p = true -> no_char "." g = true ->
        forallb (fun b => (Byte.to_N b <? 128)%N) (list_byte_of_string p) = false ->
        parse_jwt_payload json_loads (PyStr (h ++ "." ++ p ++ "." ++ g))
        = Ok (PyDict []))
  /\ (forall p k,
        forallb (fun b => (Byte.to_N b <? 128)%N) (list_byte_of_string p) = true ->
        urlsafe_b64decode (p ++ repeat_char "=" k)
        = a2b_base64
            (map urlsafe_decode_translation (list_byte_of_string p)
             ++ repeat BASE64_PAD k))
  /\ (forall c l1 l2 q leftchar pads,
        a2b c = None -> Byte.eqb c BASE64_PAD = false ->
        a2b_scan (l1 ++ c :: l2) q leftchar pads = a2b_scan (l1 ++ l2) q leftchar pads)
  /\ (forall h g bs claims,
        no_char "." h = true -> no_char "." g = true ->
        json_loads (PyBytes bs) = Ok claims ->
        parse_jwt_payload json_loads
          (PyStr (h ++ "." ++ spec_verifier bs ++ "." ++ g)) = Ok claims).
Proof.
  split; [apply parse_total|].
  split; [apply parse_not_three|].
  split; [reflexivity|].
  split; [reflexivity|].
  split; [apply parse_three|].
  split.
  { intros h p g Hh Hp Hg Hn. rewrite parse_three by assumption.
    rewrite decode_not_ascii by exact Hn. reflexivity. }
  split.
  { intros p k Ha. unfold urlsafe_b64decode, encode_ascii.
    rewrite list_byte_of_string_app, list_byte_of_repeat_pad, forallb_app, Ha.
    replace (forallb _ (repeat BASE64_PAD k)) with true.
    - cbn [andb rbind]. rewrite map_app, map_translation_pad. reflexivity.
    - symmetry. apply forallb_forall. intros x Hx. apply repeat_spec in Hx. subst x.
      reflexivity. }
  split.
  - intros c l1 l2 q leftchar pads Hc Hp. apply a2b_scan_skips; assumption.
  - intros h g bs claims Hh Hg Hj. apply parse_encoded; assumption.
Qed.

Lemma C6_claims_decoder_witness :
  parse_jwt_payload Json.loads
    (PyStr ("h" ++ "." ++ spec_verifier (list_byte_of_string (json_text "{'sub':'u1'}"))
            ++ "." ++ "s"))
  = Ok (PyDict [("sub", PyStr "u1")])
  /\ parse_jwt_payload Json.loads (PyStr ("h" ++ "." ++ euro ++ "." ++ "s"))
     = Ok (PyDict []).
Proof.
  split.
  - apply (proj2 (proj2 (proj2 (proj2 (proj2 (proj2 (proj2 (proj2
             (C6_claims_decoder Json.loads)))))))));
      reflexivity.
  - apply (proj1 (proj2 (proj2 (proj2 (proj2 (proj2 (C6_claims_decoder Json.loads)))))));
      reflexivity.
Defined.




(** C8, as stated, fails: the call to the token endpoint is made without
    a timeout. *)
Lemma C8_exchange_has_no_timeout :
  ~ (forall call,
       In call (sent (serve Json.loads endpoint_grants module_globals logged_in
                        [callback_request])) ->
       exists t, timeout call = Some t).
Proof.
  intros H.
  destruct (H (the_call module_globals "ABC" (spec_verifier draw_a))) as [t Ht].
  - vm_compute. left. reflexivity.
  - discriminate Ht.
Qed.

(** C8, amended: every call to the token endpoint is made without a
    timeout argument; when the call raises, a timeout of the transport
    included, the callback makes no further call, answers 500 and leaves
    the server object as it was. *)
Theorem C8_no_timeout_no_retry
  (json_loads : pyval -> Result pyval)
  (urlopen : list UrlopenCall -> UrlopenCall -> Result (list byte))
  (G : Globals) :
  (forall rs call,
     In call (sent (serve json_loads urlopen G initial_world rs)) ->
     timeout call = None)
  /\
  (forall params c rest v w,
     contains "error" params = false ->
     lookup "code" params = Some (c :: rest) ->
     code_verifier (server w) = Some v ->
     urlopen (sent w) (the_call G c v) = Raise TimeoutError ->
     handle_callback json_loads urlopen G params w =
     (Ok tt, mkWorld (server w) (sent w ++ [the_call G c v])
                     (out w ++ [send_error 500 (TokenExchangeFailed TimeoutError)]))).
Proof.
  split.
  - intros rs call Hin.
    pose proof (serve_no_timeout json_loads urlopen G rs initial_world (Forall_nil _)) as H.
    rewrite Forall_forall in H. apply H. exact Hin.
  - intros params c rest v w He Hc Hv Hu.
    apply (callback_exchange_failed json_loads urlopen G params c rest v w _ He Hc Hv).
    rewrite Hu. reflexivity.
Qed.

Lemma C8_no_timeout_no_retry_witness :
  handle_callback Json.loads endpoint_times_out module_globals
    callback_without_state logged_in
  = (Ok tt,
     mkWorld (server logged_in)
       (sent logged_in ++ [the_call module_globals "ABC" (spec_verifier draw_a)])
       (out logged_in ++ [send_error 500 (TokenExchangeFailed TimeoutError)])).
Proof.
  apply (proj2 (C8_no_timeout_no_retry Json.loads endpoint_times_out module_globals)
           callback_without_state "ABC" []);
    reflexivity.
Defined.

(** C9: every login overwrites the one verifier slot of the server, so
    after two logins a callback posts its code with the verifier of the
    second login, whatever the callback carries: the body of the one call
    it makes, read as its receiver reads it, has the second verifier for
    [code_verifier], while the challenge that the first login sent was
    made from the first verifier; the two verifiers differ when the draws
    differ. *)
Theorem C9_latest_verifier_is_used
  (json_loads : pyval -> Result pyval)
  (urlopen : list UrlopenCall -> UrlopenCall -> Result (list byte))
  (G : Globals) (tok1 state1 tok2 state2 : list byte)
  (params : list (string * list string)) (c : string) (rest : list string)
  (w : World) :
  contains "error" params = false ->
  lookup "code" params = Some (c :: rest) ->
  let w1 := snd (handle_login G tok1 state1 w) in
  let w2 := snd (handle_login G tok2 state2 w1) in
  let w3 := snd (handle_callback json_loads urlopen G params w2) in
  let query1 :=
    authorization_query (UrlParse.quote_plus (CLIENT_ID G))
      (UrlParse.quote_plus (REDIRECT_URI G)) (UrlParse.quote_plus (SCOPE G))
      (spec_challenge (spec_verifier tok1)) (spec_verifier state1) in
  let body :=
    token_request_body (UrlParse.quote_plus (CLIENT_ID G)) (UrlParse.quote_plus c)
      (UrlParse.quote_plus (REDIRECT_URI G)) (spec_verifier tok2) in
  code_verifier (server w1) = Some (spec_verifier tok1)
  /\ out w1 = out w ++
       [send_response 302;
        send_header "Location" ("https://" ++ AUTH0_DOMAIN G ++ "/authorize?" ++ query1);
        end_headers]
  /\ field_of "code_challenge" query1 = Some (spec_challenge (spec_verifier tok1))
  /\ code_verifier (server w2) = Some (spec_verifier tok2)
  /\ sent w3 = sent w ++
       [mkCall
          (mkRequest ("https://" ++ AUTH0_DOMAIN G ++ "/oauth/token")
             (list_byte_of_string body)
             [("Content-Type", "application/x-www-form-urlencoded")])
          None]
  /\ field_of "code_verifier" body = Some (spec_verifier tok2)
  /\ (List.length tok1 = List.length tok2 -> tok1 <> tok2 ->
      field_of "code_verifier" body <> Some (spec_verifier tok1)).
Proof.
  intros He Hc. cbv zeta.
  assert (Hf : field_of "code_verifier"
                 (token_request_body (UrlParse.quote_plus (CLIENT_ID G))
                    (UrlParse.quote_plus c) (UrlParse.quote_plus (REDIRECT_URI G))
                    (spec_verifier tok2))
               = Some (spec_verifier tok2)).
  { unfold field_of. rewrite <- (quote_plus_verifier tok2) at 1.
    rewrite token_request_fields, quote_plus_verifier. reflexivity. }
  rewrite !handle_login_spec. cbn [snd server code_verifier out].
  split; [reflexivity|]. split.
  { do 3 f_equal.
    rewrite authorization_text, quote_plus_verifier, quote_plus_challenge. reflexivity. }
  split.
  { unfold field_of.
    rewrite <- (quote_plus_verifier state1), <- (quote_plus_challenge (spec_verifier tok1)).
    rewrite authorization_fields, quote_plus_challenge. reflexivity. }
  split; [reflexivity|]. split.
  { rewrite (callback_sent json_loads urlopen G params c rest (spec_verifier tok2));
      [| assumption | assumption | reflexivity].
    cbn [sent]. rewrite token_request_text, quote_plus_verifier. reflexivity. }
  split; [exact Hf|].
  intros Hl Hd E. rewrite Hf in E. injection E as E.
  apply Hd. symmetry. apply spec_verifier_inj; [congruence | exact E].
Qed.

Lemma C9_latest_verifier_is_used_witness :
  sent (snd (handle_callback Json.loads endpoint_grants module_globals
               [("code", ["ABC"]); ("state", [spec_verifier draw_b])]
               (snd (handle_login module_globals draw_c draw_a
                  (snd (handle_login module_globals draw_a draw_b initial_world))))))
  = [mkCall
       (mkRequest ("https://" ++ AUTH0_DOMAIN module_globals ++ "/oauth/token")
          (list_byte_of_string
             (token_request_body (UrlParse.quote_plus (CLIENT_ID module_globals))
                (UrlParse.quote_plus "ABC")
                (UrlParse.quote_plus (REDIRECT_URI module_globals))
                (spec_verifier draw_c)))
          [("Content-Type", "application/x-www-form-urlencoded")])
       None].
Proof.
  exact (proj1 (proj2 (proj2 (proj2 (proj2
    (C9_latest_verifier_is_used Json.loads endpoint_grants module_globals
       draw_a draw_b draw_c draw_a
       [("code", ["ABC"]); ("state", [spec_verifier draw_b])] "ABC" []
       initial_world eq_refl eq_refl)))))).
Defined.

(** C10: the answer of the protected endpoint does not depend on the
    headers of the request: it is 401 when no access token is stored and
    200 when one is.  The 200 answer has the page with the stored token,
    unless the token is a [str] that cannot be encoded as UTF-8 (it holds
    a lone surrogate): then the handler raises after the head of the 200
    answer, again whatever the headers. *)
Theorem C10_protected_api_ignores_headers
  (hdrs1 hdrs2 : list (string * string)) (w : World) :
  handle_protected_api hdrs1 w = handle_protected_api hdrs2 w
  /\ (access_token (server w) = None ->
      handle_protected_api hdrs1 w =
      (Ok tt, mkWorld (server w) (sent w)
                (out w ++ [send_response 401;
                           send_header "Content-type" "text/html";
                           end_headers;
                           wfile_write UnauthorizedPage])))
  /\ (forall tok, access_token (server w) = Some tok ->
      handle_protected_api hdrs1 w =
      if formats_to_utf8 tok
      then (Ok tt, mkWorld (server w) (sent w)
                     (out w ++ [send_response 200;
                                send_header "Content-type" "text/html";
                                end_headers;
                                wfile_write (ProtectedPage tok)]))
      else (Raise (UnicodeEncodeError "utf-8"),
            mkWorld (server w) (sent w)
              (out w ++ [send_response 200;
                         send_header "Content-type" "text/html";
                         end_headers])))
  /\ (forall tok, access_token (server w) = Some tok ->
      exists rest,
        out (snd (handle_protected_api hdrs1 w)) = out w ++ send_response 200 :: rest
        /\ out (snd (handle_protected_api hdrs2 w)) = out w ++ send_response 200 :: rest).
Proof.
  split; [reflexivity|]. split; [|split].
  - intros H. rewrite protected_spec, H. reflexivity.
  - intros tok H. rewrite protected_spec, H. reflexivity.
  - intros tok H. rewrite !protected_spec, H.
    destruct (formats_to_utf8 tok); eexists; split; reflexivity.
Qed.

Lemma C10_protected_api_ignores_headers_witness :
  handle_protected_api [("Authorization", "Bearer forged")] logged_in
  = handle_protected_api [] logged_in
  /\ handle_protected_api [("Authorization", "Bearer forged")] logged_in
     = (Ok tt, mkWorld (server logged_in) (sent logged_in)
                 (out logged_in ++ [send_response 401;
                                    send_header "Content-type" "text/html";
                                    end_headers;
                                    wfile_write UnauthorizedPage]))
  /\ handle_protected_api [("Authorization", "Bearer forged")] surrogate_token_world
     = (Raise (UnicodeEncodeError "utf-8"),
        mkWorld (server surrogate_token_world) []
          [send_response 200; send_header "Content-type" "text/html"; end_headers]).
Proof.
  destruct (C10_protected_api_ignores_headers
              [("Authorization", "Bearer forged")] [] logged_in) as (H1 & H2 & _).
  split; [exact H1 | split; [apply H2; reflexivity|]].
  exact (proj1 (proj2 (proj2 (C10_protected_api_ignores_headers
                                [("Authorization", "Bearer forged")] []
                                surrogate_token_world)))
           (PyStr lone_surrogate) eq_refl).
Defined.

(* ================================================================== *)
(** * Further properties of the handlers *)
(* ================================================================== *)

(** X1: a callback that carries a code before any login has stored a
    verifier is answered 500; no call is made to the token endpoint and
    the server object stays as it was. *)
Theorem X1_callback_before_login
  (json_loads : pyval -> Result pyval)
  (urlopen : list UrlopenCall -> UrlopenCall -> Result (list byte))
  (G : Globals) (params : list (string * list string)) (c : string)
  (rest : list string) (w : World) :
  contains "error" params = false ->
  lookup "code" params = Some (c :: rest) ->
  code_verifier (server w) = None ->
  handle_callback json_loads urlopen G params w =
  (Ok tt, mkWorld (server w) (sent w)
            (out w ++ [send_error 500
                         (TokenExchangeFailed (AttributeError "code_verifier"))])).
Proof.
  intros He Hc Hv.
  rewrite (callback_with_code json_loads urlopen G _ _ _ _ He Hc).
  unfold try_catch, bind.
  rewrite (exchange_no_verifier json_loads urlopen G _ _ Hv). reflexivity.
Qed.

Lemma X1_callback_before_login_witness :
  handle_callback Json.loads endpoint_grants module_globals
    callback_without_state initial_world
  = (Ok tt, mkWorld fresh_server []
              [send_error 500 (TokenExchangeFailed (AttributeError "code_verifier"))]).
Proof.
  apply (X1_callback_before_login Json.loads endpoint_grants module_globals
           callback_without_state "ABC" [] initial_world); reflexivity.
Defined.

(** X2: when the token endpoint answers with a JSON object whose
    [access_token] and [id_token] can be sliced, the callback stores the
    access token and the ID token (the empty string when the object has
    none), keeps the verifier and sends the head of a 200 answer; when the
    two slices can be encoded as UTF-8 it then writes the page with the
    first 100 characters of each token and the payload of the ID token,
    and otherwise (a slice holds a lone surrogate) the [except] clause
    sends the 500 error. *)
Theorem X2_callback_success
  (json_loads : pyval -> Result pyval)
  (urlopen : list UrlopenCall -> UrlopenCall -> Result (list byte))
  (G : Globals) (params : list (string * list string)) (c : string)
  (rest : list string) (v : string) (w : World)
  (body : list byte) (text : string) (d : list (string * pyval))
  (tok a100 i100 : pyval) :
  contains "error" params = false ->
  lookup "code" params = Some (c :: rest) ->
  code_verifier (server w) = Some v ->
  urlopen (sent w) (the_call G c v) = Ok body ->
  decode body = Ok text ->
  json_loads (PyStr text) = Ok (PyDict d) ->
  lookup "access_token" d = Some tok ->
  slice 100 tok = Ok a100 ->
  slice 100 (id_token_or (PyStr "Not provided") d) = Ok i100 ->
  exists user_info,
    parse_jwt_payload json_loads (id_token_or (PyStr "") d) = Ok user_info /\
    handle_callback json_loads urlopen G params w =
    (Ok tt,
     mkWorld (mkServer (Some v) (Some tok) (Some (id_token_or (PyStr "") d)))
             (sent w ++ [the_call G c v])
             (out w ++ page_head 200
                ++ [if formats_to_utf8 a100 && formats_to_utf8 i100
                    then wfile_write (SuccessPage a100 i100 user_info)
                    else send_error 500
                           (TokenExchangeFailed (UnicodeEncodeError "utf-8"))])).
Proof.
  intros He Hc Hv Hu Hd Hj Ht Ha Hi.
  destruct (callback_stores json_loads urlopen G params c rest v w body text d tok
              He Hc Hv Hu Hd Hj Ht) as (u & Hu' & Hcb).
  exists u. split; [exact Hu'|].
  rewrite Hcb. unfold page_or_error. rewrite Ha, Hi. reflexivity.
Qed.

Lemma X2_callback_success_witness :
  (exists user_info,
     handle_callback Json.loads endpoint_grants module_globals
       callback_without_state logged_in
     = (Ok tt,
        mkWorld (mkServer (Some (spec_verifier draw_a)) (Some (PyStr "AT1"))
                          (Some (PyStr "")))
                (sent logged_in ++ [the_call module_globals "ABC" (spec_verifier draw_a)])
                (out logged_in ++ page_head 200
                   ++ [wfile_write (SuccessPage (PyStr "AT1") (PyStr "Not provided")
                                                user_info)])))
  /\ handle_callback Json.loads endpoint_surrogate_token module_globals
       callback_without_state logged_in
     = (Ok tt,
        mkWorld (mkServer (Some (spec_verifier draw_a)) (Some (PyStr lone_surrogate))
                          (Some (PyStr "")))
                (sent logged_in ++ [the_call module_globals "ABC" (spec_verifier draw_a)])
                (out logged_in ++ page_head 200
                   ++ [send_error 500
                         (TokenExchangeFailed (UnicodeEncodeError "utf-8"))])).
Proof.
  split.
  - destruct (X2_callback_success Json.loads endpoint_grants module_globals
                callback_without_state "ABC" [] (spec_verifier draw_a) logged_in
                (list_byte_of_string
                   (json_text
                      "{'access_token':'AT1','token_type':'Bearer','expires_in':3600}"))
                (json_text "{'access_token':'AT1','token_type':'Bearer','expires_in':3600}")
                [("access_token", PyStr "AT1"); ("token_type", PyStr "Bearer");
                 ("expires_in", PyInt 3600)]
                (PyStr "AT1") (PyStr "AT1") (PyStr "Not provided")
                eq_refl eq_refl eq_refl eq_refl eq_refl eq_refl eq_refl eq_refl eq_refl)
      as (u & _ & H).
    exists u. exact H.
  - destruct (X2_callback_success Json.loads endpoint_surrogate_token module_globals
                callback_without_state "ABC" [] (spec_verifier draw_a) logged_in
                (list_byte_of_string (json_text "{'access_token':'\ud800'}"))
                (json_text "{'access_token':'\ud800'}")
                [("access_token", PyStr lone_surrogate)]
                (PyStr lone_surrogate) (PyStr lone_surrogate) (PyStr "Not provided")
                eq_refl eq_refl eq_refl eq_refl eq_refl eq_refl eq_refl eq_refl eq_refl)
      as (u & _ & H).
    exact H.
Defined.

(** X3: the access token is stored before the page is made: when the
    answer carries an [access_token] that cannot be sliced (a number,
    [null], an object), the callback has stored the tokens and sent the
    head of a 200 answer when the exception reaches the [except] clause,
    which then sends the 500 error. *)
Theorem X3_token_stored_before_page_fails
  (json_loads : pyval -> Result pyval)
  (urlopen : list UrlopenCall -> UrlopenCall -> Result (list byte))
  (G : Globals) (params : list (string * list string)) (c : string)
  (rest : list string) (v : string) (w : World)
  (body : list byte) (text : string) (d : list (string * pyval))
  (tok : pyval) (e : exn) :
  contains "error" params = false ->
  lookup "code" params = Some (c :: rest) ->
  code_verifier (server w) = Some v ->
  urlopen (sent w) (the_call G c v) = Ok body ->
  decode body = Ok text ->
  json_loads (PyStr text) = Ok (PyDict d) ->
  lookup "access_token" d = Some tok ->
  slice 100 tok = Raise e ->
  handle_callback json_loads urlopen G params w =
  (Ok tt,
   mkWorld (mkServer (Some v) (Some tok) (Some (id_token_or (PyStr "") d)))
           (sent w ++ [the_call G c v])
           (out w ++ page_head 200
              ++ [send_error 500 (TokenExchangeFailed e)])).
Proof.
  intros He Hc Hv Hu Hd Hj Ht Ha.
  rewrite (callback_object json_loads urlopen G _ _ _ _ _ _ _ _ He Hc Hv Hu Hd Hj).
  destruct (render_object json_loads d tok
              (mkWorld (server w) (sent w ++ [the_call G c v]) (out w)) Ht)
    as (u & _ & Hr).
  unfold try_catch. rewrite Hr. cbv zeta. rewrite Ha.
  unfold emit. cbn [server sent out]. rewrite Hv, <- app_assoc. reflexivity.
Qed.

Lemma X3_token_stored_before_page_fails_witness :
  handle_callback Json.loads endpoint_number_token module_globals
    callback_without_state logged_in
  = (Ok tt,
     mkWorld (mkServer (Some (spec_verifier draw_a)) (Some (PyInt 5)) (Some (PyStr "")))
             (sent logged_in ++ [the_call module_globals "ABC" (spec_verifier draw_a)])
             (out logged_in ++ page_head 200
                ++ [send_error 500 (TokenExchangeFailed TypeError)])).
Proof.
  apply (X3_token_stored_before_page_fails Json.loads endpoint_number_token
           module_globals callback_without_state "ABC" [] (spec_verifier draw_a)
           logged_in
           (list_byte_of_string (json_text "{'access_token':5}"))
           (json_text "{'access_token':5}")
           [("access_token", PyInt 5)] (PyInt 5) TypeError);
    reflexivity.
Defined.

(** X4: an answer of the token endpoint that is not a JSON object (bytes
    that are not UTF-8, text that is not JSON, or a JSON value of another
    kind) is answered 500, and the server object stays as it was. *)
Theorem X4_answer_not_an_object
  (json_loads : pyval -> Result pyval)
  (urlopen : list UrlopenCall -> UrlopenCall -> Result (list byte))
  (G : Globals) (params : list (string * list string)) (c : string)
  (rest : list string) (v : string) (w : World) (body : list byte) (e : exn) :
  contains "error" params = false ->
  lookup "code" params = Some (c :: rest) ->
  code_verifier (server w) = Some v ->
  urlopen (sent w) (the_call G c v) = Ok body ->
  (decode body = Raise e
   \/ (exists text, decode body = Ok text /\ json_loads (PyStr text) = Raise e)
   \/ (exists text t, decode body = Ok text /\ json_loads (PyStr text) = Ok t
                      /\ (forall d, t <> PyDict d) /\ e = AttributeError "keys")) ->
  handle_callback json_loads urlopen G params w =
  (Ok tt, mkWorld (server w) (sent w ++ [the_call G c v])
            (out w ++ [send_error 500 (TokenExchangeFailed e)])).
Proof.
  intros He Hc Hv Hu Hbad.
  apply (callback_exchange_failed json_loads urlopen G params c rest v w e He Hc Hv).
  rewrite Hu. unfold exchange_result. cbn [rbind].
  destruct Hbad as [Hd | [(text & Hd & Hj) | (text & t & Hd & Hj & Hn & ->)]].
  - rewrite Hd. reflexivity.
  - rewrite Hd. cbn [rbind]. rewrite Hj. reflexivity.
  - rewrite Hd. cbn [rbind]. rewrite Hj. cbn [rbind].
    destruct t; try reflexivity. exfalso. exact (Hn d eq_refl).
Qed.

Lemma X4_answer_not_an_object_witness :
  handle_callback Json.loads endpoint_answers_list module_globals
    callback_without_state logged_in
  = (Ok tt,
     mkWorld (server logged_in)
       (sent logged_in ++ [the_call module_globals "ABC" (spec_verifier draw_a)])
       (out logged_in ++ [send_error 500 (TokenExchangeFailed (AttributeError "keys"))])).
Proof.
  apply (X4_answer_not_an_object Json.loads endpoint_answers_list module_globals
           callback_without_state "ABC" [] (spec_verifier draw_a) logged_in
           (list_byte_of_string "[1]") (AttributeError "keys"));
    try reflexivity.
  right. right. exists "[1]", (PyList [PyInt 1]).
  repeat split; try reflexivity. intros d E. discriminate E.
Defined.



(** X6: nothing removes a stored token or verifier: once an access token
    is stored, an access token stays stored through every later request,
    so the protected endpoint sends the head of a 200 answer from then
    on, followed by its page when the stored token can be encoded as
    UTF-8; the same holds for the verifier. *)
Theorem X6_no_logout
  (json_loads : pyval -> Result pyval)
  (urlopen : list UrlopenCall -> UrlopenCall -> Result (list byte))
  (G : Globals) (rs : list GetRequest) (w : World) :
  (access_token (server w) <> None ->
     exists tok,
       access_token (server (serve json_loads urlopen G w rs)) = Some tok
       /\ forall hdrs,
            out (snd (handle_protected_api hdrs (serve json_loads urlopen G w rs)))
            = out (serve json_loads urlopen G w rs)
              ++ page_head 200
              ++ (if formats_to_utf8 tok then [wfile_write (ProtectedPage tok)]
                  else []))
  /\ (code_verifier (server w) <> None ->
      code_verifier (server (serve json_loads urlopen G w rs)) <> None).
Proof.
  split.
  - intros H. pose proof (run_keeps_token json_loads urlopen G rs w H) as Hk.
    destruct (access_token (server (serve json_loads urlopen G w rs))) as [tok|] eqn:Ht;
      [|contradiction].
    exists tok. split; [reflexivity|]. intros hdrs.
    rewrite protected_spec, Ht.
    destruct (formats_to_utf8 tok); cbn [snd out]; [reflexivity|].
    rewrite app_nil_r. reflexivity.
  - apply run_keeps_verifier.
Qed.

Lemma X6_no_logout_witness :
  out (snd (handle_protected_api []
              (serve Json.loads endpoint_refuses module_globals surrogate_token_world
                 [callback_request; login_request])))
  = out (serve Json.loads endpoint_refuses module_globals surrogate_token_world
           [callback_request; login_request])
    ++ page_head 200 ++ []
  /\ code_verifier (server (serve Json.loads endpoint_refuses module_globals logged_in
                              [callback_request; home_request; protected_request]))
     <> None.
Proof.
  split.
  - destruct (proj1 (X6_no_logout Json.loads endpoint_refuses module_globals
                       [callback_request; login_request] surrogate_token_world))
      as (tok & Ht & Hout).
    + intros E. discriminate E.
    + vm_compute in Ht. injection Ht as <-. exact (Hout []).
  - apply (proj2 (X6_no_logout Json.loads endpoint_refuses module_globals
                    [callback_request; home_request; protected_request] logged_in)).
    intros E. vm_compute in E. discriminate E.
Defined.

(** X7: in every run of the server from its start the access token and
    the ID token are stored together: one is set exactly when the other
    is. *)
Theorem X7_tokens_stored_together
  (json_loads : pyval -> Result pyval)
  (urlopen : list UrlopenCall -> UrlopenCall -> Result (list byte))
  (G : Globals) (rs : list GetRequest) :
  access_token (server (serve json_loads urlopen G initial_world rs)) = None
  <-> id_token (server (serve json_loads urlopen G initial_world rs)) = None.
Proof.
  apply run_tokens_paired. cbn. split; reflexivity.
Qed.

(** X8: only a request whose path starts with /callback reaches the token
    endpoint or changes the stored tokens; over a run the number of calls
    to the endpoint is at most the number of such requests. *)
Theorem X8_only_callbacks_exchange
  (json_loads : pyval -> Result pyval)
  (urlopen : list UrlopenCall -> UrlopenCall -> Result (list byte))
  (G : Globals) :
  (forall r w,
     is_callback r = false ->
     sent (snd (do_GET json_loads urlopen G r w)) = sent w
     /\ access_token (server (snd (do_GET json_loads urlopen G r w)))
        = access_token (server w)
     /\ id_token (server (snd (do_GET json_loads urlopen G r w)))
        = id_token (server w))
  /\ (forall rs w,
        List.length (sent (serve json_loads urlopen G w rs))
        <= List.length (sent w) + count_callbacks rs).
Proof.
  split.
  - intros r w H. apply quiet_route. exact H.
  - intros rs w. apply run_calls_bounded.
Qed.

Lemma X8_only_callbacks_exchange_witness :
  sent (snd (do_GET Json.loads endpoint_grants module_globals login_request logged_in))
  = sent logged_in.
Proof.
  exact (proj1 (proj1 (X8_only_callbacks_exchange Json.loads endpoint_grants
                         module_globals) login_request logged_in eq_refl)).
Defined.

(** X9: the redirect of a login goes to the authorize endpoint of the
    configured domain, with the seven parameters in the order of the code;
    the constants are percent-encoded, and the challenge and the state
    appear as they are, since they hold characters of the base64url
    alphabet only. *)
Theorem X9_authorization_url (G : Globals) (tok state_tok : list byte) (w : World) :
  out (snd (handle_login G tok state_tok w)) =
  out w ++
  [send_response 302;
   send_header "Location"
     ("https://" ++ AUTH0_DOMAIN G ++ "/authorize?response_type=code&client_id="
      ++ UrlParse.quote_plus (CLIENT_ID G)
      ++ "&redirect_uri=" ++ UrlParse.quote_plus (REDIRECT_URI G)
      ++ "&scope=" ++ UrlParse.quote_plus (SCOPE G)
      ++ "&code_challenge=" ++ spec_challenge (spec_verifier tok)
      ++ "&code_challenge_method=S256&state=" ++ spec_verifier state_tok);
   end_headers]
  /\ UrlParse.quote_plus (REDIRECT_URI module_globals)
     = "http%3A%2F%2Flocalhost%3A8091%2Fcallback"
  /\ UrlParse.quote_plus (SCOPE module_globals) = "openid+profile+email"
  /\ UrlParse.quote_plus (CLIENT_ID module_globals) = CLIENT_ID module_globals.
Proof.
  split; [|repeat split; reflexivity].
  rewrite handle_login_spec. cbn [snd out]. do 3 f_equal.
  unfold authorization_url, authorization_params, UrlParse.urlencode.
  cbn [map fst snd String.concat].
  rewrite quote_plus_verifier, quote_plus_challenge.
  repeat rewrite append_assoc. reflexivity.
Qed.

(** X10: the POST of the exchange goes to the token endpoint of the
    configured domain as a form, without a timeout; its body has the five
    fields in the order of the code, the verifier of the login as it is
    and the code percent-encoded, so that no character of the code (which
    comes from the request) can end a field or start another one. *)
Theorem X10_exchange_request (G : Globals) (code : string) (tok : list byte) :
  the_call G code (spec_verifier tok) =
  mkCall
    (mkRequest
       ("https://" ++ AUTH0_DOMAIN G ++ "/oauth/token")
       (list_byte_of_string
          ("grant_type=authorization_code&client_id="
           ++ UrlParse.quote_plus (CLIENT_ID G)
           ++ "&code=" ++ UrlParse.quote_plus code
           ++ "&redirect_uri=" ++ UrlParse.quote_plus (REDIRECT_URI G)
           ++ "&code_verifier=" ++ spec_verifier tok))
       [("Content-Type", "application/x-www-form-urlencoded")])
    None
  /\ all_chars urlencoded_char (UrlParse.quote_plus code) = true
  /\ no_char "&" (UrlParse.quote_plus code) = true
  /\ no_char "=" (UrlParse.quote_plus code) = true.
Proof.
  split.
  - unfold the_call, exchange_request, exchange_data, UrlParse.urlencode, encode.
    cbn [map fst snd String.concat].
    rewrite quote_plus_verifier.
    repeat rewrite append_assoc. reflexivity.
  - split; [apply quote_plus_chars|].
    split; unfold no_char.
    + apply (all_chars_impl urlencoded_char); [|apply quote_plus_chars].
      intros c Hc. exact (urlencoded_char_plain c "&"%char eq_refl Hc).
    + apply (all_chars_impl urlencoded_char); [|apply quote_plus_chars].
      intros c Hc. exact (urlencoded_char_plain c "="%char eq_refl Hc).
Qed.

(** X11: for a draw of any length the PKCE lines of [handle_login] raise
    nothing, and the challenge always has 43 characters, all unreserved:
    it encodes the 32 bytes of a SHA-256 digest. *)
Theorem X11_challenge_shape (tok : list byte) :
  exists verifier challenge,
    pkce_pair tok = Ok (verifier, challenge)
    /\ len verifier = Nat.div (4 * List.length tok + 2) 3
    /\ len challenge = 43
    /\ all_chars unreserved challenge = true
    /\ no_char "=" challenge = true.
Proof.
  exists (spec_verifier tok), (spec_challenge (spec_verifier tok)).
  split; [apply pkce_pair_spec|].
  split.
  { unfold spec_verifier. rewrite len_ascii by apply nopad_ascii.
    apply base64url_nopad_length. }
  split.
  { unfold spec_challenge. rewrite len_ascii by apply nopad_ascii.
    rewrite base64url_nopad_length, sha256_length. reflexivity. }
  split; [apply all_chars_unreserved, base64url_nopad_chars|].
  unfold no_char.
  apply (all_chars_impl unreserved);
    [|apply all_chars_unreserved, base64url_nopad_chars].
  intros c Hc. apply negb_true_iff. apply Ascii.eqb_neq. intros ->. discriminate Hc.
Qed.

(** X12: the state of a login is the unpadded base64url text of the 32
    bytes of its draw: 43 unreserved characters, and another draw of 32
    bytes gives the same state only when it is the same draw. *)
Theorem X12_state_token (tok : list byte) (H : List.length tok = 32) :
  exists state,
    token_urlsafe tok = Ok state
    /\ len state = 43
    /\ all_chars unreserved state = true
    /\ (forall other,
          List.length other = 32 ->
          token_urlsafe other = Ok state -> other = tok).
Proof.
  exists (spec_verifier tok).
  split; [apply token_urlsafe_ok|]. split.
  { unfold spec_verifier. rewrite len_ascii by apply nopad_ascii.
    rewrite base64url_nopad_length, H. reflexivity. }
  split; [apply all_chars_unreserved, base64url_nopad_chars|].
  intros other Ho E. rewrite token_urlsafe_ok in E. injection E as E.
  apply spec_verifier_inj; [congruence | exact E].
Qed.

Lemma X12_state_token_witness :
  exists state, token_urlsafe draw_b = Ok state /\ len state = 43.
Proof.
  destruct (X12_state_token draw_b eq_refl) as (s & Hs & Hl & _).
  exists s. split; assumption.
Defined.

(** X13: a middle segment that is the base64url text of a JSON document
    followed by any number of pad characters is decoded to the value of
    that document: the pad characters that line 292 adds always complete
    the padding, and the decoder ignores the ones in excess.  So a token
    whose middle segment kept its padding is read like one without. *)
Theorem X13_padded_segment (json_loads : pyval -> Result pyval)
  (h g : string) (bs : list byte) (m : nat) (claims : pyval) :
  no_char "." h = true -> no_char "." g = true ->
  json_loads (PyBytes bs) = Ok claims ->
  parse_jwt_payload json_loads
    (PyStr (h ++ "." ++ (spec_verifier bs ++ repeat_char "=" m) ++ "." ++ g)) = Ok claims
  /\ parse_jwt_payload json_loads
       (PyStr (h ++ "." ++ string_of_list_byte (urlsafe_b64encode bs) ++ "." ++ g))
     = Ok claims.
Proof.
  intros Hh Hg Hj.
  assert (H : forall k,
    parse_jwt_payload json_loads
      (PyStr (h ++ "." ++ (spec_verifier bs ++ repeat_char "=" k) ++ "." ++ g)) = Ok claims).
  { intros k. rewrite parse_three; [| exact Hh | | exact Hg].
    2:{ unfold no_char. rewrite all_chars_app. apply andb_true_iff. split.
        - apply nopad_no_dot.
        - apply (no_char_repeat "." "="). reflexivity. }
    assert (Hlen : len (spec_verifier bs ++ repeat_char "=" k)
                   = List.length (base64url_nopad bs) + k).
    { unfold spec_verifier.
      change "="%char with (ascii_of_byte BASE64_PAD).
      rewrite <- string_of_list_byte_repeat, <- string_of_list_byte_app.
      rewrite len_ascii.
      - rewrite length_app, repeat_length. reflexivity.
      - apply Forall_app. split; [apply nopad_ascii|].
        apply Forall_forall. intros x Hx. apply repeat_spec in Hx. subst x.
        vm_compute. reflexivity. }
    rewrite Hlen. rewrite append_assoc, repeat_char_add.
    unfold spec_verifier.
    rewrite urlsafe_b64decode_nopad by apply padding_total.
    rewrite Hj. reflexivity. }
  split; [apply H|].
  rewrite urlsafe_b64encode_nopad, string_of_list_byte_app, string_of_list_byte_repeat.
  apply H.
Qed.

Lemma X13_padded_segment_witness :
  parse_jwt_payload Json.loads
    (PyStr ("h" ++ "." ++ string_of_list_byte
                            (urlsafe_b64encode
                               (list_byte_of_string (json_text "{'sub':'u12'}")))
            ++ "." ++ "s"))
  = Ok (PyDict [("sub", PyStr "u12")]).
Proof.
  exact (proj2 (X13_padded_segment Json.loads "h" "s"
                  (list_byte_of_string (json_text "{'sub':'u12'}")) 0
                  (PyDict [("sub", PyStr "u12")]) eq_refl eq_refl eq_refl)).
Defined.

(** X14: a token of three segments whose middle segment cannot be
    decoded gives the empty dictionary, whatever [json.loads] would do:
    so it is for a middle segment of alphabet characters whose number is
    one more than a multiple of four, and for one that holds a character
    outside ASCII. *)
Theorem X14_undecodable_segment (json_loads : pyval -> Result pyval)
  (h g : string) :
  no_char "." h = true -> no_char "." g = true ->
  (forall l,
     Forall (fun c => url_char c = true) l ->
     Nat.modulo (List.length l) 4 = 1 ->
     parse_jwt_payload json_loads
       (PyStr (h ++ "." ++ string_of_list_byte l ++ "." ++ g)) = Ok (PyDict []))
  /\ (forall p,
        no_char "." p = true ->
        forallb (fun b => (Byte.to_N b <? 128)%N) (list_byte_of_string p) = false ->
        parse_jwt_payload json_loads (PyStr (h ++ "." ++ p ++ "." ++ g))
        = Ok (PyDict [])).
Proof.
  intros Hh Hg. split.
  - intros l Hl Hm.
    rewrite parse_three; [| exact Hh | apply chars_no_dot, Hl | exact Hg].
    destruct (decode_one_over l (4 - Nat.modulo (len (string_of_list_byte l)) 4) Hl Hm)
      as [e He].
    rewrite He. reflexivity.
  - intros p Hp Hn.
    rewrite parse_three by assumption.
    rewrite decode_not_ascii by exact Hn. reflexivity.
Qed.

Lemma X14_undecodable_segment_witness :
  parse_jwt_payload Json.loads (PyStr "h.eyJzdWIiOiJ1MSJ9A.s") = Ok (PyDict []).
Proof.
  apply (proj1 (X14_undecodable_segment Json.loads "h" "s" eq_refl eq_refl)
           (list_byte_of_string "eyJzdWIiOiJ1MSJ9A")).
  - repeat constructor.
  - reflexivity.
Defined.

(** X15: the home page is made from the stored access token alone.  It
    has no token box when no token is stored.  When one is stored, the
    page shows its first 50 characters; the handler raises after the head
    of the 200 answer when the token cannot be sliced, and also when the
    slice cannot be encoded as UTF-8 (it holds a lone surrogate).
    Requests other than callbacks do not change which of these happens,
    and the handler changes neither the server object nor the calls
    made. *)
Theorem X15_home_page
  (json_loads : pyval -> Result pyval)
  (urlopen : list UrlopenCall -> UrlopenCall -> Result (list byte))
  (G : Globals) (rs : list GetRequest) (w : World) :
  no_callback rs = true ->
  let w' := serve json_loads urlopen G w rs in
  handle_home w' =
  match access_token (server w) with
  | None =>
      (Ok tt, mkWorld (server w') (sent w')
                (out w' ++ page_head 200 ++ [wfile_write (HomePage None)]))
  | Some tok =>
      match slice 50 tok with
      | Ok t50 =>
          if formats_to_utf8 t50
          then (Ok tt, mkWorld (server w') (sent w')
                         (out w' ++ page_head 200
                            ++ [wfile_write (HomePage (Some t50))]))
          else (Raise (UnicodeEncodeError "utf-8"),
                mkWorld (server w') (sent w') (out w' ++ page_head 200))
      | Raise e => (Raise e, mkWorld (server w') (sent w') (out w' ++ page_head 200))
      end
  end.
Proof.
  intros Hq. cbv zeta.
  destruct (run_quiet json_loads urlopen G rs w Hq) as (_ & Ht & _).
  rewrite home_spec, Ht. reflexivity.
Qed.

Lemma X15_home_page_witness :
  fst (handle_home (serve Json.loads endpoint_grants module_globals number_token_world
                      [login_request; protected_request]))
  = Raise TypeError
  /\ fst (handle_home (serve Json.loads endpoint_grants module_globals
                         surrogate_token_world [login_request]))
     = Raise (UnicodeEncodeError "utf-8").
Proof.
  split.
  - rewrite (X15_home_page Json.loads endpoint_grants module_globals
               [login_request; protected_request] number_token_world eq_refl).
    reflexivity.
  - rewrite (X15_home_page Json.loads endpoint_grants module_globals
               [login_request] surrogate_token_world eq_refl).
    reflexivity.
Defined.

(** X16: the whole flow.  From the start of the server, a login, then a
    callback that carries a code, then a request to the protected
    endpoint: when the token endpoint answers the one call (the code
    with the verifier of the login) with an object that carries an
    access token, and the token and the slices shown on the success page
    can be encoded as UTF-8, the browser gets the redirect, the success
    page and the protected page with that access token, and the server
    holds the verifier and both tokens. *)
Theorem X16_login_callback_api
  (json_loads : pyval -> Result pyval)
  (urlopen : list UrlopenCall -> UrlopenCall -> Result (list byte))
  (G : Globals) (tok state_tok : list byte)
  (login cb api : GetRequest) (c : string) (rest : list string)
  (body : list byte) (text : string) (d : list (string * pyval))
  (at_ a100 i100 : pyval) :
  path login = "/login" -> entropy login = (tok, state_tok) ->
  is_callback cb = true ->
  contains "error" (query_params cb) = false ->
  lookup "code" (query_params cb) = Some (c :: rest) ->
  path api = "/api/protected" ->
  urlopen [] (the_call G c (spec_verifier tok)) = Ok body ->
  decode body = Ok text ->
  json_loads (PyStr text) = Ok (PyDict d) ->
  lookup "access_token" d = Some at_ ->
  slice 100 at_ = Ok a100 ->
  slice 100 (id_token_or (PyStr "Not provided") d) = Ok i100 ->
  formats_to_utf8 at_ = true ->
  formats_to_utf8 a100 = true ->
  formats_to_utf8 i100 = true ->
  exists user_info,
    parse_jwt_payload json_loads (id_token_or (PyStr "") d) = Ok user_info /\
    serve json_loads urlopen G initial_world [login; cb; api] =
    mkWorld
      (mkServer (Some (spec_verifier tok)) (Some at_) (Some (id_token_or (PyStr "") d)))
      [the_call G c (spec_verifier tok)]
      ([send_response 302;
        send_header "Location"
          (authorization_url G
             (authorization_params G (spec_challenge (spec_verifier tok))
                                   (spec_verifier state_tok)));
        end_headers]
       ++ page_head 200 ++ [wfile_write (SuccessPage a100 i100 user_info)]
       ++ page_head 200 ++ [wfile_write (ProtectedPage at_)]).
Proof.
  intros Hlp Hle Hcb He Hc Hap Hu Hd Hj Ht Ha Hi Fat Fa Fi.
  set (w1 := snd (handle_login G tok state_tok initial_world)).
  assert (Hv : code_verifier (server w1) = Some (spec_verifier tok))
    by (unfold w1; rewrite handle_login_spec; reflexivity).
  assert (Hs : sent w1 = []) by (unfold w1; rewrite handle_login_spec; reflexivity).
  destruct (callback_stores json_loads urlopen G (query_params cb) c rest
              (spec_verifier tok) w1 body text d at_ He Hc Hv
              ltac:(rewrite Hs; exact Hu) Hd Hj Ht) as (u & Hu' & Hcb').
  exists u. split; [exact Hu'|].
  unfold serve. cbn [fold_left].
  assert (E1 : snd (do_GET json_loads urlopen G login initial_world) = w1).
  { unfold do_GET. rewrite Hlp, Hle. reflexivity. }
  rewrite E1.
  assert (E2 : snd (do_GET json_loads urlopen G cb w1) =
               mkWorld (mkServer (Some (spec_verifier tok)) (Some at_)
                          (Some (id_token_or (PyStr "") d)))
                 [the_call G c (spec_verifier tok)]
                 (out w1 ++ page_head 200 ++ [wfile_write (SuccessPage a100 i100 u)])).
  { unfold do_GET. unfold is_callback in Hcb. rewrite Hcb, Hcb'.
    unfold page_or_error. rewrite Ha, Hi. cbn [page_encodable]. rewrite Fa, Fi, Hs.
    reflexivity. }
  rewrite E2.
  assert (E3 : forall w, do_GET json_loads urlopen G api w
                         = handle_protected_api (request_headers api) w).
  { intros w. unfold do_GET. rewrite Hap. reflexivity. }
  rewrite E3, protected_spec. cbn [snd server sent out access_token]. rewrite Fat.
  cbn [snd]. unfold w1. rewrite handle_login_spec. cbn [snd out initial_world app].
  rewrite <- !app_assoc. reflexivity.
Qed.

Lemma X16_login_callback_api_witness :
  exists user_info,
    serve Json.loads endpoint_grants module_globals initial_world
      [login_request; callback_request; protected_request] =
    mkWorld
      (mkServer (Some (spec_verifier draw_a)) (Some (PyStr "AT1")) (Some (PyStr "")))
      [the_call module_globals "ABC" (spec_verifier draw_a)]
      ([send_response 302;
        send_header "Location"
          (authorization_url module_globals
             (authorization_params module_globals
                (spec_challenge (spec_verifier draw_a)) (spec_verifier draw_b)));
        end_headers]
       ++ page_head 200
       ++ [wfile_write (SuccessPage (PyStr "AT1") (PyStr "Not provided") user_info)]
       ++ page_head 200 ++ [wfile_write (ProtectedPage (PyStr "AT1"))]).
Proof.
  destruct (X16_login_callback_api Json.loads endpoint_grants module_globals
              draw_a draw_b login_request callback_request protected_request
              "ABC" []
              (list_byte_of_string
                 (json_text "{'access_token':'AT1','token_type':'Bearer','expires_in':3600}"))
              (json_text "{'access_token':'AT1','token_type':'Bearer','expires_in':3600}")
              [("access_token", PyStr "AT1"); ("token_type", PyStr "Bearer");
               ("expires_in", PyInt 3600)]
              (PyStr "AT1") (PyStr "AT1") (PyStr "Not provided")
              eq_refl eq_refl eq_refl eq_refl eq_refl eq_refl eq_refl eq_refl eq_refl
              eq_refl eq_refl eq_refl eq_refl eq_refl eq_refl)
    as (u & _ & H).
  exists u. exact H.
Defined.



(** X18: how [do_GET] matches the path.  The callback and the protected
    endpoint are matched by prefix, so any path that continues them is
    handled like them; the home page and the login are matched exactly,
    so the same paths with a query string, or any other continuation of
    /login, are answered 404 and nothing is stored or called. *)
Theorem X18_path_matching
  (json_loads : pyval -> Result pyval)
  (urlopen : list UrlopenCall -> UrlopenCall -> Result (list byte))
  (G : Globals) (r : GetRequest) (q : string) (w : World) :
  (path r = ("/callback" ++ q)%string ->
   do_GET json_loads urlopen G r w
   = handle_callback json_loads urlopen G (query_params r) w)
  /\ (path r = ("/api/protected" ++ q)%string ->
      do_GET json_loads urlopen G r w = handle_protected_api (request_headers r) w)
  /\ (path r = ("/login" ++ q)%string -> q <> "" ->
      do_GET json_loads urlopen G r w
      = (Ok tt, mkWorld (server w) (sent w) (out w ++ [send_error 404 NoMessage])))
  /\ (path r = ("/?" ++ q)%string ->
      do_GET json_loads urlopen G r w
      = (Ok tt, mkWorld (server w) (sent w) (out w ++ [send_error 404 NoMessage]))).
Proof.
  repeat split.
  - intros H. unfold do_GET. rewrite H.
    rewrite prefix_app. reflexivity.
  - intros H. unfold do_GET. rewrite H.
    replace (String.prefix "/callback" ("/api/protected" ++ q)) with false
      by (vm_compute; reflexivity).
    replace (String.eqb ("/api/protected" ++ q) "/") with false
      by (vm_compute; reflexivity).
    replace (String.eqb ("/api/protected" ++ q) "/login") with false
      by (vm_compute; reflexivity).
    rewrite prefix_app. reflexivity.
  - intros H Hq. unfold do_GET. rewrite H.
    destruct q as [|c q]; [contradiction|].
    replace (String.prefix "/callback" ("/login" ++ String c q)) with false
      by (vm_compute; reflexivity).
    replace (String.eqb ("/login" ++ String c q) "/") with false
      by (vm_compute; reflexivity).
    replace (String.eqb ("/login" ++ String c q) "/login") with false
      by (vm_compute; reflexivity).
    replace (String.prefix "/api/protected" ("/login" ++ String c q)) with false
      by (vm_compute; reflexivity).
    reflexivity.
  - intros H. unfold do_GET. rewrite H.
    replace (String.prefix "/callback" ("/?" ++ q)) with false
      by (vm_compute; reflexivity).
    replace (String.eqb ("/?" ++ q) "/") with false by (vm_compute; reflexivity).
    replace (String.eqb ("/?" ++ q) "/login") with false by (vm_compute; reflexivity).
    replace (String.prefix "/api/protected" ("/?" ++ q)) with false
      by (vm_compute; reflexivity).
    reflexivity.
Qed.

Lemma X18_path_matching_witness :
  do_GET Json.loads endpoint_grants module_globals
    (mkGet "/login?next=1" [] [("next", ["1"])] (draw_a, draw_b)) initial_world
  = (Ok tt, mkWorld fresh_server [] [send_error 404 NoMessage]).
Proof.
  apply (proj1 (proj2 (proj2 (X18_path_matching Json.loads endpoint_grants module_globals
           (mkGet "/login?next=1" [] [("next", ["1"])] (draw_a, draw_b)) "?next=1"
           initial_world)))).
  - reflexivity.
  - discriminate.
Defined.

